(** * MutexTalk: the permit arbiter, the ownership gate, the audit logger,
      the admin gate and the command dispatcher of the C daemon

    A shallow embedding of [c-daemon/src/semaphore.c], [logger.c], [db.c],
    [db_simple.c], [admin.c], [handlers.c] and [main.c].  Every C function is a Rocq
    function from the process state (the C globals, gathered in [world]) to
    a status code and the next state.  The daemon is modelled one call at a
    time: a call runs to completion before the next one starts.  A call
    that writes past the end of a buffer of its caller has no defined
    result and is an [Overrun]. *)

From Stdlib Require Import ZArith List String Ascii Bool Lia DecimalString.
From Stdlib Require Import Sorted Permutation.
Import ListNotations.
Open Scope string_scope.
Open Scope Z_scope.

(** ** C strings *)

(** A [const char *] that the code tests against [NULL] is an
    [option string]; [None] is the null pointer.  A C string holds no NUL
    character, so [strcmp(a, b) == 0] is equality of the two strings. *)

Definition strlen (s : string) : nat := String.length s.

Definition strcmp_eq (a b : string) : bool := String.eqb a b.

(** [strncpy(dst, src, n); dst[n] = '\0';] into a buffer of [n + 1] bytes:
    the first [n] characters of [src]. *)
Definition strncpy (src : string) (n : nat) : string := substring 0 n src.

(** [snprintf(buf, size, ...)] keeps the first [size - 1] characters. *)
Definition snprintf (size : nat) (text : string) : string :=
  substring 0 (size - 1) text.

(** [%d] of an [int]. *)
Definition fmt_d (n : Z) : string := NilZero.string_of_int (Z.to_int n).

Definition MAX_MESSAGE_LEN : nat := 2000.
Definition MAX_USERNAME_LEN : nat := 64.
Definition MAX_ADMIN_USERNAME_LEN : nat := 64.
(** 8192 *)
Definition MAX_JSON_LEN : nat := 2 * 4096.

(** ** Buffers of the caller *)

(** [list_messages] and [get_logs] build their JSON text in [out_json]
    with [strcpy] and [strcat], which do not know how large the buffer
    is.  Such a call returns while the text and its final NUL fit; when
    they do not fit it writes past the end of the buffer and nothing is
    known of what follows: [Overrun]. *)
Inductive outcome (A : Type) : Type :=
| Returns (a : A)
| Overrun.

Arguments Returns {A} a.
Arguments Overrun {A}.

(** ** Text as the storage engine counts it *)

(** SQLite's [length(X)] of a text value, the function the [CHECK]
    constraints of both schemas call.  It counts characters, not bytes:
    a byte of 0xC0 or more starts a character, and the bytes 0x80 to
    0xBF that follow it belong to the same character.  [in_character]
    says that the bytes before end in such a start byte and what belongs
    to it. *)
Definition starts_character (c : ascii) : bool :=
  (192 <=? nat_of_ascii c)%nat.

Definition continues_character (c : ascii) : bool :=
  (128 <=? nat_of_ascii c)%nat && (nat_of_ascii c <? 192)%nat.

Fixpoint length_from (in_character : bool) (text : string) : nat :=
  match text with
  | EmptyString => 0%nat
  | String c rest =>
      if in_character && continues_character c
      then length_from true rest
      else S (length_from (starts_character c) rest)
  end.

Definition sql_length (text : string) : nat := length_from false text.

(** ** The process state *)

(** Seconds since the epoch, as [time(NULL)] returns them.  The text
    [strftime] makes of them with the format "%Y-%m-%dT%H:%M:%S" is left
    out but for its length: 19 characters in the years 1000 to 9999,
    which are the years in which these texts are ordered as the seconds
    are. *)
Definition timestamp := Z.

Definition TIMESTAMP_STRLEN : nat := 19.

(** [semaphore_state_t].  [write_mutex] is [true] while the mutex is
    locked; [admin_mutex] is only ever locked and unlocked within one call
    and carries no state between calls. *)
Record semaphore_state_t := mk_semaphore_state {
  write_mutex : bool;
  current_holder : string;
  writer_enabled : bool
}.

(** A row of the [messages] table. *)
Record message_row := mk_message {
  msg_id : Z;
  msg_username : string;
  msg_message : string;
  msg_created_at : timestamp
}.

(** One audit record: the columns of the [transactions] table after the
    id, and what one [fprintf] of [log_transaction] writes to the log
    file.  Such a record is not a line of the file: user and content are
    printed with a bare [%s], so a line feed in them breaks the record
    over several lines. *)
Record log_entry := mk_log {
  log_ts : timestamp;
  log_action : string;
  log_user : option string;
  log_content : option string;
  log_semaphore_value : Z
}.

(** The globals of [db.c].  [chat_step_ok] and [logs_step_ok] say whether
    the storage engine completes a statement on that database
    ([sqlite3_step] returning [SQLITE_DONE]) when no constraint of the
    schema is violated. *)
Record db_context_t := mk_db {
  g_db_initialized : bool;
  messages : list message_row;
  messages_seq : Z;
  transactions : list (Z * log_entry);
  transactions_seq : Z;
  chat_step_ok : bool;
  logs_step_ok : bool
}.

(** The globals of [logger.c]; [log_file] is [None] for a [NULL] handle,
    otherwise the records written so far, one for each [fprintf], oldest
    first. *)
Record logger_t := mk_logger {
  logger_initialized : bool;
  log_file : option (list log_entry)
}.

(** The globals of [db_simple.c] and the two files it appends to, each
    as the records written to it, one for each [fprintf]; a record whose
    user, body or content holds a line feed is more than one line of the
    file.  [fopen_ok] says whether [fopen] succeeds. *)
Record simple_db_t := mk_simple {
  simple_initialized : bool;
  g_messages_file : list (timestamp * string * string);
  g_logs_file : list log_entry;
  fopen_ok : bool
}.

(** The whole process.  [now] is the clock; [stack_int] is the value an
    uninitialised [int] local happens to hold. *)
Record world := mk_world {
  g_initialized : bool;
  g_semaphore_state : semaphore_state_t;
  db : db_context_t;
  logger : logger_t;
  simple : simple_db_t;
  now : timestamp;
  stack_int : Z
}.

Definition set_sem (s : semaphore_state_t) (w : world) : world :=
  mk_world (g_initialized w) s (db w) (logger w) (simple w) (now w)
           (stack_int w).

Definition set_db (d : db_context_t) (w : world) : world :=
  mk_world (g_initialized w) (g_semaphore_state w) d (logger w) (simple w)
           (now w) (stack_int w).

Definition set_logger (l : logger_t) (w : world) : world :=
  mk_world (g_initialized w) (g_semaphore_state w) (db w) l (simple w)
           (now w) (stack_int w).

Definition set_simple (f : simple_db_t) (w : world) : world :=
  mk_world (g_initialized w) (g_semaphore_state w) (db w) (logger w) f
           (now w) (stack_int w).

(** What the daemon does not control: the clock, whether the storage
    engine and the file system answer, and the garbage on the stack. *)
Definition set_environment (t : timestamp) (chat_ok logs_ok files_ok : bool)
  (junk : Z) (w : world) : world :=
  mk_world (g_initialized w) (g_semaphore_state w)
           (mk_db (g_db_initialized (db w)) (messages (db w))
                  (messages_seq (db w)) (transactions (db w))
                  (transactions_seq (db w)) chat_ok logs_ok)
           (logger w)
           (mk_simple (simple_initialized (simple w))
                      (g_messages_file (simple w)) (g_logs_file (simple w))
                      files_ok)
           t junk.

(** ** semaphore.c *)

Module Semaphore.

(** The mutex macros of the POSIX branch.  [pthread_mutex_trylock]: 0 and
    the mutex locked when it was free, [EBUSY] otherwise. *)
Definition EBUSY : Z := 16.

Definition mutex_trylock (s : semaphore_state_t) : Z * semaphore_state_t :=
  if write_mutex s then (EBUSY, s)
  else (0, mk_semaphore_state true (current_holder s) (writer_enabled s)).

Definition mutex_unlock (s : semaphore_state_t) : semaphore_state_t :=
  mk_semaphore_state false (current_holder s) (writer_enabled s).

Definition set_holder (h : string) (s : semaphore_state_t)
  : semaphore_state_t :=
  mk_semaphore_state (write_mutex s) h (writer_enabled s).

Definition set_enabled (b : bool) (s : semaphore_state_t)
  : semaphore_state_t :=
  mk_semaphore_state (write_mutex s) (current_holder s) b.

Definition init_semaphore (w : world) : Z * world :=
  if g_initialized w then (0, w)
  else (0, mk_world true (mk_semaphore_state false "" true) (db w)
                    (logger w) (simple w) (now w) (stack_int w)).

Definition try_acquire_writer (username : option string) (w : world)
  : Z * world :=
  if negb (g_initialized w) then (-1, w) else
  match username with
  | None => (-4, w)
  | Some u =>
    if (strlen u =? 0)%nat then (-4, w) else
    if (MAX_USERNAME_LEN <=? strlen u)%nat then (-4, w) else
    let writers_enabled := writer_enabled (g_semaphore_state w) in
    if negb writers_enabled then (-2, w) else
    let (result, s1) := mutex_trylock (g_semaphore_state w) in
    if result =? 0 then
      (0, set_sem (set_holder (strncpy u (MAX_USERNAME_LEN - 1)) s1) w)
    else (-3, set_sem s1 w)
  end.

Definition release_writer (username : option string) (w : world)
  : Z * world :=
  if negb (g_initialized w) then (-1, w) else
  match username with
  | None => (-4, w)
  | Some u =>
    if (strlen u =? 0)%nat then (-4, w) else
    if negb (strcmp_eq (current_holder (g_semaphore_state w)) u)
    then (-2, w)
    else
      (0, set_sem (mutex_unlock (set_holder "" (g_semaphore_state w))) w)
  end.

(** What [get_semaphore_status(holder, value)] leaves behind: an error
    code and the two out-parameters untouched, or 0 and the two
    out-parameters written. *)
Inductive status_result :=
| StatusError (code : Z)
| StatusOk (holder : string) (value : Z).

Definition status_code (r : status_result) : Z :=
  match r with
  | StatusError c => c
  | StatusOk _ _ => 0
  end.

(** Every caller passes the addresses of two locals, so the [NULL] test on
    the two pointers never fires and is left out. *)
Definition get_semaphore_status (w : world) : status_result :=
  if negb (g_initialized w) then StatusError (-1) else
  let h := current_holder (g_semaphore_state w) in
  if negb (strlen h =? 0)%nat
  then StatusOk (strncpy h (MAX_USERNAME_LEN - 1)) 0
  else StatusOk "" 1.

(** The [int] local a caller reads after a call whose status it ignores:
    what the call wrote, or whatever the local held before. *)
Definition value_read (w : world) (r : status_result) : Z :=
  match r with
  | StatusOk _ v => v
  | StatusError _ => stack_int w
  end.

Definition admin_toggle_writer (enabled : bool) (admin_user : option string)
  (w : world) : Z * world :=
  if negb (g_initialized w) then (-1, w) else
  match admin_user with
  | None => (-4, w)
  | Some a =>
    if (strlen a =? 0)%nat then (-4, w) else
    (0, set_sem (set_enabled enabled (g_semaphore_state w)) w)
  end.

(** [mutex_destroy] leaves nothing behind in this state. *)
Definition cleanup_semaphore (w : world) : world :=
  if negb (g_initialized w) then w else
  let s := g_semaphore_state w in
  let s1 :=
    if negb (strlen (current_holder s) =? 0)%nat
    then mutex_unlock (set_holder "" s)
    else s in
  mk_world false s1 (db w) (logger w) (simple w) (now w) (stack_int w).

End Semaphore.

(** ** logger.c *)

Module Logger.

Section Linked.

(** [insert_log_entry] comes from whichever storage implementation the
    daemon is linked with. *)
Variable insert_log_entry :
  option string -> option string -> option string -> Z -> world ->
  Z * world.

(** [fprintf(log_file, ...); fflush(log_file);] when the handle is not
    [NULL]. *)
Definition file_append (e : log_entry) (w : world) : world :=
  match log_file (logger w) with
  | Some records =>
      set_logger
        (mk_logger (logger_initialized (logger w))
                   (Some (records ++ [e])%list)) w
  | None => w
  end.

Definition log_transaction (action user content : option string)
  (semaphore_value : Z) (w : world) : world :=
  if negb (logger_initialized (logger w)) then w else
  match action with
  | None => w
  | Some a =>
    if negb (semaphore_value =? 0) && negb (semaphore_value =? 1) then w
    else
      let timestamp := now w in
      let (_, w1) :=
        insert_log_entry action user content semaphore_value w in
      file_append (mk_log timestamp a user content semaphore_value) w1
  end.

Definition log_semaphore_event (action user : option string) (value : Z)
  (w : world) : world :=
  if negb (logger_initialized (logger w)) then w else
  match action with
  | None => w
  | Some a =>
    if negb (value =? 0) && negb (value =? 1) then w else
    let who := match user with Some u => u | None => "unknown" end in
    let content :=
      if strcmp_eq a "ACQUIRE_MUTEX"
      then snprintf 256 ("User '" ++ who ++ "' acquired semaphore")
      else if strcmp_eq a "RELEASE_MUTEX"
      then snprintf 256 ("User '" ++ who ++ "' released semaphore")
      else snprintf 256 ("Semaphore event: " ++ a) in
    log_transaction action user (Some content) value w
  end.

End Linked.

End Logger.

(** ** The ownership gate ([validate_semaphore_ownership], the same text
    in [db.c] and in [db_simple.c]) *)

Definition validate_semaphore_ownership (username : string) (w : world)
  : Z :=
  match Semaphore.get_semaphore_status w with
  | Semaphore.StatusError _ => -1
  | Semaphore.StatusOk current_holder semaphore_value =>
    if semaphore_value =? 1 then -2 else
    if negb (strcmp_eq current_holder username) then -2 else 0
  end.

(** 32-bit [int] arithmetic, wrap-around written out. *)
Definition wrap_int (z : Z) : Z :=
  (z + 2147483648) mod 4294967296 - 2147483648.

(** [offset = (page - 1) * limit]. *)
Definition page_offset (page limit : Z) : Z :=
  wrap_int (wrap_int (page - 1) * limit).

(** [ORDER BY key DESC LIMIT limit OFFSET offset]; rows with equal keys
    stay in table order, and a negative offset counts as 0. *)
Fixpoint insert_desc {A : Type} (key : A -> Z) (x : A) (l : list A)
  : list A :=
  match l with
  | [] => [x]
  | y :: l' =>
      if key y <=? key x then x :: y :: l' else y :: insert_desc key x l'
  end.

Definition order_by_desc {A : Type} (key : A -> Z) (l : list A) : list A :=
  fold_right (insert_desc key) [] l.

Definition select_page {A : Type} (key : A -> Z) (limit offset : Z)
  (table : list A) : list A :=
  firstn (Z.to_nat limit) (skipn (Z.to_nat offset) (order_by_desc key table)).

(** ** db.c: the relational store *)

Module Db.

Definition set_messages (rows : list message_row) (seq : Z)
  (d : db_context_t) : db_context_t :=
  mk_db (g_db_initialized d) rows seq (transactions d) (transactions_seq d)
        (chat_step_ok d) (logs_step_ok d).

Definition set_transactions (rows : list (Z * log_entry)) (seq : Z)
  (d : db_context_t) : db_context_t :=
  mk_db (g_db_initialized d) (messages d) (messages_seq d) rows seq
        (chat_step_ok d) (logs_step_ok d).

(** The [CHECK] constraints of the two tables ([create_chat_schema],
    [create_logs_schema]); their [length] is the engine's. *)
Definition check_username (u : string) : bool :=
  (0 <? sql_length u)%nat && (sql_length u <=? 64)%nat.

Definition check_message (m : string) : bool :=
  (0 <? sql_length m)%nat && (sql_length m <=? 2000)%nat.

Definition transaction_actions : list string :=
  ["CREATE"; "UPDATE"; "DELETE"; "READ";
   "ACQUIRE_MUTEX"; "RELEASE_MUTEX"; "ADMIN_ACTION"].

Definition check_transaction (action : string) (content : option string)
  (semaphore_value : Z) : bool :=
  existsb (strcmp_eq action) transaction_actions
  && match content with
     | None => true
     | Some c => (sql_length c <=? 2000)%nat
     end
  && ((semaphore_value =? 0) || (semaphore_value =? 1)).

Definition insert_log_entry (action user content : option string)
  (semaphore_value : Z) (w : world) : Z * world :=
  if negb (g_db_initialized (db w)) then (-1, w) else
  match action with
  | None => (-4, w)
  | Some a =>
    let timestamp := now w in
    if logs_step_ok (db w) && check_transaction a content semaphore_value
    then
      let id := transactions_seq (db w) + 1 in
      let row := (id, mk_log timestamp a user content semaphore_value) in
      (0, set_db (set_transactions (transactions (db w) ++ [row])%list id
                                   (db w)) w)
    else (-5, w)
  end.

Definition log_transaction := Logger.log_transaction insert_log_entry.

(** [sqlite3_step] of the three prepared statements that write to
    [messages]: whether the statement completed, how many rows it changed,
    and the table afterwards. *)
Definition step_create_message (username message : string)
  (created_at : timestamp) (d : db_context_t) : bool * db_context_t :=
  if chat_step_ok d && check_username username && check_message message
  then
    let id := messages_seq d + 1 in
    (true,
     set_messages
       (messages d ++ [mk_message id username message created_at])%list id d)
  else (false, d).

Definition row_matches (id : Z) (username : string) (r : message_row)
  : bool :=
  (msg_id r =? id) && strcmp_eq (msg_username r) username.

Definition changes_of (id : Z) (username : string)
  (rows : list message_row) : nat :=
  List.length (filter (row_matches id username) rows).

Definition step_update_message (message : string) (id : Z)
  (username : string) (d : db_context_t) : bool * nat * db_context_t :=
  let hit := changes_of id username (messages d) in
  if chat_step_ok d && ((hit =? 0)%nat || check_message message)
  then
    (true, hit,
     set_messages
       (map (fun r =>
               if row_matches id username r
               then mk_message (msg_id r) (msg_username r) message
                               (msg_created_at r)
               else r) (messages d))
       (messages_seq d) d)
  else (false, 0%nat, d).

Definition step_delete_message (id : Z) (username : string)
  (d : db_context_t) : bool * nat * db_context_t :=
  if chat_step_ok d
  then
    (true, changes_of id username (messages d),
     set_messages
       (filter (fun r => negb (row_matches id username r)) (messages d))
       (messages_seq d) d)
  else (false, 0%nat, d).

(** [out_timestamp] is the address of a local in the only caller; its
    [NULL] test is left out, and the timestamp written is returned. *)
Definition create_message (username message : option string) (w : world)
  : Z * option timestamp * world :=
  if negb (g_db_initialized (db w)) then (-1, None, w) else
  match username, message with
  | Some u, Some m =>
    if (strlen u =? 0)%nat || (MAX_USERNAME_LEN <? strlen u)%nat
       || (strlen m =? 0)%nat || (MAX_MESSAGE_LEN <? strlen m)%nat
    then (-4, None, w) else
    let ownership_status := validate_semaphore_ownership u w in
    if negb (ownership_status =? 0) then (ownership_status, None, w) else
    let timestamp := now w in
    let (done, d1) := step_create_message u m timestamp (db w) in
    let w1 := set_db d1 w in
    if negb done then (-5, None, w1) else
    let semaphore_value :=
      Semaphore.value_read w1 (Semaphore.get_semaphore_status w1) in
    (0, Some timestamp,
     log_transaction (Some "CREATE") username message semaphore_value w1)
  | _, _ => (-4, None, w)
  end.

Definition update_message (id : Z) (username message : option string)
  (w : world) : Z * world :=
  if negb (g_db_initialized (db w)) then (-1, w) else
  match username, message with
  | Some u, Some m =>
    if (strlen u =? 0)%nat || (MAX_USERNAME_LEN <? strlen u)%nat
       || (strlen m =? 0)%nat || (MAX_MESSAGE_LEN <? strlen m)%nat
    then (-4, w) else
    let ownership_status := validate_semaphore_ownership u w in
    if negb (ownership_status =? 0) then (ownership_status, w) else
    let '(done, changes, d1) := step_update_message m id u (db w) in
    let w1 := set_db d1 w in
    if negb done then (-5, w1) else
    if (changes =? 0)%nat then (-2, w1) else
    let semaphore_value :=
      Semaphore.value_read w1 (Semaphore.get_semaphore_status w1) in
    let log_content := snprintf 256 ("Updated message ID " ++ fmt_d id) in
    (0, log_transaction (Some "UPDATE") username (Some log_content)
                        semaphore_value w1)
  | _, _ => (-4, w)
  end.

Definition delete_message (id : Z) (username : option string) (w : world)
  : Z * world :=
  if negb (g_db_initialized (db w)) then (-1, w) else
  match username with
  | Some u =>
    if (strlen u =? 0)%nat || (MAX_USERNAME_LEN <? strlen u)%nat
    then (-4, w) else
    let ownership_status := validate_semaphore_ownership u w in
    if negb (ownership_status =? 0) then (ownership_status, w) else
    let '(done, changes, d1) := step_delete_message id u (db w) in
    let w1 := set_db d1 w in
    if negb done then (-5, w1) else
    if (changes =? 0)%nat then (-2, w1) else
    let semaphore_value :=
      Semaphore.value_read w1 (Semaphore.get_semaphore_status w1) in
    let log_content := snprintf 256 ("Deleted message ID " ++ fmt_d id) in
    (0, log_transaction (Some "DELETE") username (Some log_content)
                        semaphore_value w1)
  | None => (-4, w)
  end.

(** The JSON text of a page, measured: its [strlen].  An escaped quote
    of a C format is written ['] here, which is as long.  A row is
    printed into a local buffer of 4096 bytes by [snprintf] before it is
    appended, [sqlite3_column_int] reads the low 32 bits of an integer
    column, and a [NULL] text column is printed as the empty string. *)
Definition message_json_strlen (r : message_row) : nat :=
  Nat.min 4095
    (strlen "{'id':" + strlen (fmt_d (wrap_int (msg_id r)))
     + strlen ",'username':'" + strlen (msg_username r)
     + strlen "','message':'" + strlen (msg_message r)
     + strlen "','created_at':'" + TIMESTAMP_STRLEN
     + strlen "'}")%nat.

Definition column_text (t : option string) : string :=
  match t with
  | Some s => s
  | None => ""
  end.

Definition log_json_strlen (r : Z * log_entry) : nat :=
  Nat.min 4095
    (strlen "{'id':" + strlen (fmt_d (wrap_int (fst r)))
     + strlen ",'ts':'" + TIMESTAMP_STRLEN
     + strlen "','action':'" + strlen (log_action (snd r))
     + strlen "','user':'" + strlen (column_text (log_user (snd r)))
     + strlen "','content':'" + strlen (column_text (log_content (snd r)))
     + strlen "','semaphore':"
     + strlen (fmt_d (wrap_int (log_semaphore_value (snd r))))
     + strlen "}")%nat.

(** The rows of the loop, with a comma before every row but the first. *)
Fixpoint rows_strlen {A : Type} (row_strlen : A -> nat) (rows : list A)
  : nat :=
  match rows with
  | [] => 0%nat
  | r :: rest =>
      (row_strlen r
       + match rest with
         | [] => 0
         | _ :: _ => 1 + rows_strlen row_strlen rest
         end)%nat
  end.

Definition messages_json_strlen (rows : list message_row) : nat :=
  (strlen "{'messages':[" + rows_strlen message_json_strlen rows
   + strlen "]}")%nat.

Definition logs_json_strlen (rows : list (Z * log_entry)) : nat :=
  (strlen "{'logs':[" + rows_strlen log_json_strlen rows
   + strlen "]}")%nat.

(** [out_json] is the size in bytes of the buffer the caller passes; its
    [NULL] test is left out.  The rows written to it are returned as
    they are, not as JSON text, and the call overruns the buffer when
    the text with its NUL is longer than the buffer.  The loop reads
    rows while the engine delivers them. *)
Definition list_messages (page limit : Z) (out_json : nat) (w : world)
  : outcome (Z * list message_row * world) :=
  if negb (g_db_initialized (db w)) then Returns (-1, [], w) else
  if (page <? 1) || (limit <? 1) || (limit >? 100)
  then Returns (-4, [], w) else
  let offset := page_offset page limit in
  let rows :=
    if chat_step_ok (db w)
    then select_page msg_created_at limit offset (messages (db w))
    else [] in
  if (out_json <=? messages_json_strlen rows)%nat then Overrun else
  let semaphore_value :=
    Semaphore.value_read w (Semaphore.get_semaphore_status w) in
  let log_content :=
    snprintf 256 ("Listed messages (page " ++ fmt_d page ++ ", limit "
                  ++ fmt_d limit ++ ")") in
  Returns
    (0, rows,
     log_transaction (Some "READ") None (Some log_content) semaphore_value
                     w).

Definition get_logs (page limit : Z) (out_json : nat) (w : world)
  : outcome (Z * list (Z * log_entry)) :=
  if negb (g_db_initialized (db w)) then Returns (-1, []) else
  if (page <? 1) || (limit <? 1) || (limit >? 100)
  then Returns (-4, []) else
  let offset := page_offset page limit in
  let rows :=
    if logs_step_ok (db w)
    then select_page (fun r => log_ts (snd r)) limit offset
                     (transactions (db w))
    else [] in
  if (out_json <=? logs_json_strlen rows)%nat then Overrun else
  Returns (0, rows).

End Db.

(** ** db_simple.c: the flat-file store *)

Module DbSimple.

Definition set_messages_file
  (records : list (timestamp * string * string)) (f : simple_db_t)
  : simple_db_t :=
  mk_simple (simple_initialized f) records (g_logs_file f) (fopen_ok f).

Definition set_logs_file (records : list log_entry) (f : simple_db_t)
  : simple_db_t :=
  mk_simple (simple_initialized f) (g_messages_file f) records (fopen_ok f).

(** One [fprintf] of the format "%s|%s|%s|%s|%d" and a line feed: one
    record of the logs file. *)
Definition insert_log_entry (action user content : option string)
  (semaphore_value : Z) (w : world) : Z * world :=
  if negb (simple_initialized (simple w)) then (-1, w) else
  match action with
  | None => (-4, w)
  | Some a =>
    let timestamp := now w in
    if negb (fopen_ok (simple w)) then (-5, w) else
    (0, set_simple
          (set_logs_file
             (g_logs_file (simple w)
                ++ [mk_log timestamp a user content semaphore_value])%list
             (simple w)) w)
  end.

(** One [fprintf] of the format "%s|%s|%s" and a line feed: one record
    of the messages file, which is more than one line of it when the
    user or the message holds a line feed. *)
Definition create_message (username message : option string) (w : world)
  : Z * option timestamp * world :=
  if negb (simple_initialized (simple w)) then (-1, None, w) else
  match username, message with
  | Some u, Some m =>
    if (strlen u =? 0)%nat || (MAX_USERNAME_LEN <? strlen u)%nat
       || (strlen m =? 0)%nat || (MAX_MESSAGE_LEN <? strlen m)%nat
    then (-4, None, w) else
    let ownership_status := validate_semaphore_ownership u w in
    if negb (ownership_status =? 0) then (ownership_status, None, w) else
    let timestamp := now w in
    if negb (fopen_ok (simple w)) then (-5, None, w) else
    let w1 :=
      set_simple
        (set_messages_file
           (g_messages_file (simple w) ++ [(timestamp, u, m)])%list
           (simple w)) w in
    let (_, w2) := insert_log_entry (Some "CREATE") username message 0 w1 in
    (0, Some timestamp, w2)
  | _, _ => (-4, None, w)
  end.

(** [update_message] and [delete_message] hand [username] to [strcmp]
    without a [NULL] test, so they take a string. *)
Definition update_message (id : Z) (username message : string) (w : world)
  : Z * world :=
  if negb (simple_initialized (simple w)) then (-1, w) else
  let ownership_status := validate_semaphore_ownership username w in
  if negb (ownership_status =? 0) then (ownership_status, w) else
  let updated_message :=
    snprintf (MAX_MESSAGE_LEN + 50)
             ("[UPDATED ID:" ++ fmt_d id ++ "] " ++ message) in
  let '(result, _, w1) :=
    create_message (Some username) (Some updated_message) w in
  (result, w1).

Definition delete_message (id : Z) (username : string) (w : world)
  : Z * world :=
  if negb (simple_initialized (simple w)) then (-1, w) else
  let ownership_status := validate_semaphore_ownership username w in
  if negb (ownership_status =? 0) then (ownership_status, w) else
  let log_content := snprintf 256 ("Deleted message ID " ++ fmt_d id) in
  let (_, w1) :=
    insert_log_entry (Some "DELETE") (Some username) (Some log_content) 0 w in
  (0, w1).

End DbSimple.

(** ** admin.c *)

Module Admin.

Definition admin_users : list string :=
  ["admin"; "administrator"; "root"; "sysadmin"].

Definition is_admin_user (username : option string) : bool :=
  match username with
  | None => false
  | Some u =>
    if (strlen u =? 0)%nat then false
    else existsb (strcmp_eq u) admin_users
  end.

(** [out_json] is the size of the caller's buffer, handed on to
    [get_logs]. *)
Definition admin_get_logs (admin_user : option string) (page limit : Z)
  (out_json : nat) (w : world)
  : outcome (Z * list (Z * log_entry) * world) :=
  match admin_user with
  | None => Returns (-4, [], w)
  | Some a =>
    if (strlen a =? 0)%nat || (MAX_ADMIN_USERNAME_LEN <=? strlen a)%nat
    then Returns (-4, [], w) else
    if negb (is_admin_user admin_user) then Returns (-2, [], w) else
    if (page <? 1) || (limit <? 1) || (limit >? 100)
    then Returns (-4, [], w) else
    match Db.get_logs page limit out_json w with
    | Overrun => Overrun
    | Returns (result, rows) =>
      if negb (result =? 0) then Returns (result, rows, w) else
      let semaphore_value :=
        Semaphore.value_read w (Semaphore.get_semaphore_status w) in
      let log_content :=
        snprintf 256 ("Admin accessed logs (page " ++ fmt_d page
                      ++ ", limit " ++ fmt_d limit ++ ")") in
      Returns
        (0, rows,
         Db.log_transaction (Some "ADMIN_ACTION") admin_user
                            (Some log_content) semaphore_value w)
    end
  end.

(** The JSON object [admin_get_system_status] writes, field by field. *)
Record system_status := mk_system_status {
  ss_timestamp : timestamp;
  ss_value : Z;
  ss_holder : string;
  ss_available : bool;
  ss_admin_user : string
}.

Definition admin_get_system_status (admin_user : option string) (w : world)
  : Z * option system_status * world :=
  match admin_user with
  | None => (-4, None, w)
  | Some a =>
    if (strlen a =? 0)%nat || (MAX_ADMIN_USERNAME_LEN <=? strlen a)%nat
    then (-4, None, w) else
    if negb (is_admin_user admin_user) then (-2, None, w) else
    match Semaphore.get_semaphore_status w with
    | Semaphore.StatusError _ => (-1, None, w)
    | Semaphore.StatusOk current_holder semaphore_value =>
      (0,
       Some (mk_system_status (now w) semaphore_value current_holder
                              (semaphore_value =? 1) a),
       Db.log_transaction (Some "ADMIN_ACTION") admin_user
                          (Some "Retrieved system status") semaphore_value w)
    end
  end.

Definition admin_force_release_semaphore (admin_user : option string)
  (w : world) : Z * world :=
  match admin_user with
  | None => (-4, w)
  | Some a =>
    if (strlen a =? 0)%nat || (MAX_ADMIN_USERNAME_LEN <=? strlen a)%nat
    then (-4, w) else
    if negb (is_admin_user admin_user) then (-2, w) else
    match Semaphore.get_semaphore_status w with
    | Semaphore.StatusError _ => (-1, w)
    | Semaphore.StatusOk current_holder semaphore_value =>
      if semaphore_value =? 1 then (0, w) else
      let log_content :=
        snprintf 256 ("Admin forced release of semaphore from user '"
                      ++ current_holder ++ "'") in
      let w1 :=
        Db.log_transaction (Some "ADMIN_ACTION") admin_user
                           (Some log_content) 0 w in
      let (release_result, w2) :=
        Semaphore.release_writer (Some current_holder) w1 in
      if negb (release_result =? 0) then (-1, w2) else (0, w2)
    end
  end.

End Admin.

(** ** handlers.c *)

Module Handlers.

(** The tree [cJSON_Parse] builds from the request text; the parser itself
    belongs to the cJSON library and is not modelled.  A number carries
    its [valueint]. *)
#[local] Unset Elimination Schemes.
Inductive cJSON :=
| cJSON_NULL
| cJSON_False
| cJSON_True
| cJSON_Number (valueint : Z)
| cJSON_String (valuestring : string)
| cJSON_Array (items : list cJSON)
| cJSON_Object (members : list (string * cJSON)).
#[local] Set Elimination Schemes.

Definition tolower (c : ascii) : ascii :=
  let n := nat_of_ascii c in
  if (65 <=? n)%nat && (n <=? 90)%nat then ascii_of_nat (n + 32) else c.

Fixpoint case_insensitive_eq (a b : string) : bool :=
  match a, b with
  | EmptyString, EmptyString => true
  | String x a', String y b' =>
      Ascii.eqb (tolower x) (tolower y) && case_insensitive_eq a' b'
  | _, _ => false
  end.

(** [cJSON_GetObjectItem]: the first member whose name matches, letter
    case ignored; [NULL] when there is none or the node has no named
    members. *)
Definition cJSON_GetObjectItem (object : cJSON) (name : string)
  : option cJSON :=
  match object with
  | cJSON_Object members =>
      match find (fun kv => case_insensitive_eq name (fst kv)) members with
      | Some kv => Some (snd kv)
      | None => None
      end
  | _ => None
  end.

Inductive command_type_t :=
| CMD_TRY_ACQUIRE
| CMD_RELEASE
| CMD_CREATE_MESSAGE
| CMD_UPDATE_MESSAGE
| CMD_DELETE_MESSAGE
| CMD_LIST_MESSAGES
| CMD_GET_STATUS
| CMD_GET_LOGS
| CMD_TOGGLE_WRITER.

Record command_t := mk_command {
  type : command_type_t;
  user : string;
  message : string;
  id : Z;
  page : Z;
  limit : Z;
  enabled : bool
}.

(** [memset(cmd, 0, ...); cmd->page = 1; cmd->limit = 50;] *)
Definition initial_command : command_t :=
  mk_command CMD_TRY_ACQUIRE "" "" 0 1 50 false.

Definition action_type (action : string) : option command_type_t :=
  if strcmp_eq action "TRY_ACQUIRE" then Some CMD_TRY_ACQUIRE
  else if strcmp_eq action "RELEASE" then Some CMD_RELEASE
  else if strcmp_eq action "CREATE" then Some CMD_CREATE_MESSAGE
  else if strcmp_eq action "UPDATE" then Some CMD_UPDATE_MESSAGE
  else if strcmp_eq action "DELETE" then Some CMD_DELETE_MESSAGE
  else if strcmp_eq action "LIST" then Some CMD_LIST_MESSAGES
  else if strcmp_eq action "STATUS" then Some CMD_GET_STATUS
  else if strcmp_eq action "LOGS" then Some CMD_GET_LOGS
  else if strcmp_eq action "TOGGLE" then Some CMD_TOGGLE_WRITER
  else None.

(** [input] is the tree of the request text, [None] when [cJSON_Parse]
    returns [NULL].  The result is the return value and [*cmd]. *)
Definition parse_json_command (input : option cJSON) : Z * command_t :=
  match input with
  | None => (-4, initial_command)
  | Some json =>
    match cJSON_GetObjectItem json "action" with
    | Some (cJSON_String action) =>
      match action_type action with
      | None => (-4, initial_command)
      | Some t =>
        let user :=
          match cJSON_GetObjectItem json "user" with
          | Some (cJSON_String s) => strncpy s (MAX_USERNAME_LEN - 1)
          | _ => ""
          end in
        let message :=
          match cJSON_GetObjectItem json "message" with
          | Some (cJSON_String s) => strncpy s (MAX_MESSAGE_LEN - 1)
          | _ => ""
          end in
        let id :=
          match cJSON_GetObjectItem json "id" with
          | Some (cJSON_Number n) => n
          | _ => 0
          end in
        let page :=
          match cJSON_GetObjectItem json "page" with
          | Some (cJSON_Number n) => if n <? 1 then 1 else n
          | _ => 1
          end in
        let limit :=
          match cJSON_GetObjectItem json "limit" with
          | Some (cJSON_Number n) =>
              let l := if n <? 1 then 1 else n in
              if l >? 100 then 100 else l
          | _ => 50
          end in
        let enabled :=
          match cJSON_GetObjectItem json "enabled" with
          | Some cJSON_True => true
          | _ => false
          end in
        (0, mk_command t user message id page limit enabled)
      end
    | _ => (-4, initial_command)
    end
  end.

(** What [resp->data] holds, by the fields of the JSON text written. *)
Inductive response_data :=
| NoData
| SemaphoreData (semaphore : Z) (holder : string)
| TimestampData (ts : timestamp)
| IdData (id : Z)
| MessagesData (rows : list message_row)
| LogsData (rows : list (Z * log_entry))
| WriterEnabledData (writer_enabled : bool).

Record response_t := mk_response {
  status : Z;
  error : string;
  data : response_data
}.

(** [execute_command] returns [resp->status] on every path, so the
    response alone is returned.  [resp->data], of [MAX_JSON_LEN] bytes,
    is the buffer the two listing calls are given. *)
Definition execute_command (cmd : command_t) (w : world)
  : outcome (response_t * world) :=
  match type cmd with
  | CMD_TRY_ACQUIRE =>
    Returns
    (if (strlen (user cmd) =? 0)%nat
    then (mk_response (-4) "Username required for TRY_ACQUIRE" NoData, w)
    else
      let (st, w1) := Semaphore.try_acquire_writer (Some (user cmd)) w in
      if st =? 0 then (mk_response st "" (SemaphoreData 0 (user cmd)), w1)
      else if st =? -3 then
        (mk_response st "Semaphore unavailable"
           match Semaphore.get_semaphore_status w1 with
           | Semaphore.StatusOk current_holder semaphore_value =>
               SemaphoreData semaphore_value current_holder
           | Semaphore.StatusError _ =>
               (* not reached: -3 is only returned once initialised *)
               SemaphoreData (stack_int w1) ""
           end, w1)
      else if st =? -2 then (mk_response st "Writer access disabled" NoData, w1)
      else (mk_response st "Failed to acquire semaphore" NoData, w1))
  | CMD_RELEASE =>
    Returns
    (if (strlen (user cmd) =? 0)%nat
    then (mk_response (-4) "Username required for RELEASE" NoData, w)
    else
      let (st, w1) := Semaphore.release_writer (Some (user cmd)) w in
      if st =? 0 then (mk_response st "" (SemaphoreData 1 ""), w1)
      else if st =? -2 then
        (mk_response st "Permission denied - not semaphore holder" NoData, w1)
      else (mk_response st "Failed to release semaphore" NoData, w1))
  | CMD_CREATE_MESSAGE =>
    Returns
    (if (strlen (user cmd) =? 0)%nat || (strlen (message cmd) =? 0)%nat
    then (mk_response (-4) "Username and message required for CREATE" NoData,
          w)
    else
      let '(st, ts, w1) :=
        Db.create_message (Some (user cmd)) (Some (message cmd)) w in
      if st =? 0 then
        (mk_response st ""
           match ts with Some t => TimestampData t | None => NoData end, w1)
      else if st =? -2 then
        (mk_response st "Permission denied - semaphore not held" NoData, w1)
      else if st =? -5 then (mk_response st "Database error" NoData, w1)
      else (mk_response st "Failed to create message" NoData, w1))
  | CMD_UPDATE_MESSAGE =>
    Returns
    (if (strlen (user cmd) =? 0)%nat || (strlen (message cmd) =? 0)%nat
       || (id cmd <=? 0)
    then (mk_response (-4)
            "Username, message, and valid ID required for UPDATE" NoData, w)
    else
      let (st, w1) :=
        Db.update_message (id cmd) (Some (user cmd)) (Some (message cmd)) w in
      if st =? 0 then (mk_response st "" (IdData (id cmd)), w1)
      else if st =? -2 then
        (mk_response st "Permission denied - message not found or not owned"
                     NoData, w1)
      else if st =? -5 then (mk_response st "Database error" NoData, w1)
      else (mk_response st "Failed to update message" NoData, w1))
  | CMD_DELETE_MESSAGE =>
    Returns
    (if (strlen (user cmd) =? 0)%nat || (id cmd <=? 0)
    then (mk_response (-4) "Username and valid ID required for DELETE" NoData,
          w)
    else
      let (st, w1) := Db.delete_message (id cmd) (Some (user cmd)) w in
      if st =? 0 then (mk_response st "" (IdData (id cmd)), w1)
      else if st =? -2 then
        (mk_response st "Permission denied - message not found or not owned"
                     NoData, w1)
      else if st =? -5 then (mk_response st "Database error" NoData, w1)
      else (mk_response st "Failed to delete message" NoData, w1))
  | CMD_LIST_MESSAGES =>
    match Db.list_messages (page cmd) (limit cmd) MAX_JSON_LEN w with
    | Overrun => Overrun
    | Returns (st, rows, w1) =>
      Returns
      (if st =? 0 then (mk_response st "" (MessagesData rows), w1)
       else if st =? -4 then
         (mk_response st "Invalid page or limit parameters" NoData, w1)
       else if st =? -5 then (mk_response st "Database error" NoData, w1)
       else (mk_response st "Failed to list messages" NoData, w1))
    end
  | CMD_GET_STATUS =>
    Returns
    match Semaphore.get_semaphore_status w with
    | Semaphore.StatusOk current_holder semaphore_value =>
        (mk_response 0 "" (SemaphoreData semaphore_value current_holder), w)
    | Semaphore.StatusError c =>
        (mk_response c "Failed to get semaphore status" NoData, w)
    end
  | CMD_GET_LOGS =>
    match Db.get_logs (page cmd) (limit cmd) MAX_JSON_LEN w with
    | Overrun => Overrun
    | Returns (st, rows) =>
      Returns
      (if st =? 0 then (mk_response st "" (LogsData rows), w)
       else if st =? -4 then
         (mk_response st "Invalid page or limit parameters" NoData, w)
       else if st =? -5 then (mk_response st "Database error" NoData, w)
       else (mk_response st "Failed to get logs" NoData, w))
    end
  | CMD_TOGGLE_WRITER =>
    Returns
    (if (strlen (user cmd) =? 0)%nat
    then (mk_response (-4) "Username required for TOGGLE" NoData, w)
    else
      let (st, w1) :=
        Semaphore.admin_toggle_writer (enabled cmd) (Some (user cmd)) w in
      if st =? 0 then
        (mk_response st "" (WriterEnabledData (enabled cmd)), w1)
      else (mk_response st "Failed to toggle writer access" NoData, w1))
  end.

(** The text [handle_command] writes to [json_output]. *)
Inductive json_output :=
| OutError (error : string)
| OutOk (data : response_data).

Definition handle_command (json_input : option cJSON) (w : world)
  : outcome (Z * json_output * world) :=
  let (parse_result, cmd) := parse_json_command json_input in
  if negb (parse_result =? 0)
  then Returns (parse_result, OutError "Invalid JSON command", w)
  else
    match execute_command cmd w with
    | Overrun => Overrun
    | Returns (resp, w1) =>
      if status resp =? 0 then Returns (status resp, OutOk (data resp), w1)
      else
        Returns
          (status resp,
           OutError (if (0 <? strlen (error resp))%nat then error resp
                     else "Unknown error"), w1)
    end.

End Handlers.

(** ** The daemon as a state machine *)

(** One call into the daemon: the arbiter, the relational store, the
    admin gate, or a whole request through the dispatcher.  The two
    listing calls are made with a buffer of [MAX_JSON_LEN] bytes, as the
    dispatcher makes them.  [Outside] is what happens between two calls:
    time passes, the storage engine or the file system starts or stops
    answering. *)
Inductive request :=
| TryAcquire (username : option string)
| Release (username : option string)
| SetEnabled (enabled : bool) (admin_user : option string)
| CreateMessage (username message : option string)
| UpdateMessage (id : Z) (username message : option string)
| DeleteMessage (id : Z) (username : option string)
| ListMessages (page limit : Z)
| GetLogs (admin_user : option string) (page limit : Z)
| GetSystemStatus (admin_user : option string)
| ForceReleaseSemaphore (admin_user : option string)
| Dispatch (json_input : option Handlers.cJSON)
| Outside (t : timestamp) (chat_ok logs_ok files_ok : bool) (junk : Z).

(** The status and the state a call leaves, whatever else it returns. *)
Definition status_and_state {A : Type} (o : outcome (Z * A * world))
  : outcome (Z * world) :=
  match o with
  | Returns (st, _, w1) => Returns (st, w1)
  | Overrun => Overrun
  end.

Definition run (r : request) (w : world) : outcome (Z * world) :=
  match r with
  | TryAcquire u => Returns (Semaphore.try_acquire_writer u w)
  | Release u => Returns (Semaphore.release_writer u w)
  | SetEnabled b a => Returns (Semaphore.admin_toggle_writer b a w)
  | CreateMessage u m => status_and_state (Returns (Db.create_message u m w))
  | UpdateMessage i u m => Returns (Db.update_message i u m w)
  | DeleteMessage i u => Returns (Db.delete_message i u w)
  | ListMessages p l => status_and_state (Db.list_messages p l MAX_JSON_LEN w)
  | GetLogs a p l =>
      status_and_state (Admin.admin_get_logs a p l MAX_JSON_LEN w)
  | GetSystemStatus a =>
      status_and_state (Returns (Admin.admin_get_system_status a w))
  | ForceReleaseSemaphore a =>
      Returns (Admin.admin_force_release_semaphore a w)
  | Dispatch j => status_and_state (Handlers.handle_command j w)
  | Outside t chat_ok logs_ok files_ok junk =>
      Returns (0, set_environment t chat_ok logs_ok files_ok junk w)
  end.

(** A sequence of calls, one after the other, as far as they return. *)
Fixpoint run_all (rs : list request) (w : world) : outcome world :=
  match rs with
  | [] => Returns w
  | r :: rs' =>
      match run r w with
      | Returns (_, w1) => run_all rs' w1
      | Overrun => Overrun
      end
  end.

(** The state [init_semaphore], [init_databases] and [init_logger] leave:
    the permit free and writing enabled, the store and the log file open
    with whatever they held before. *)
Definition booted (w : world) : Prop :=
  g_initialized w = true
  /\ g_semaphore_state w = mk_semaphore_state false "" true
  /\ g_db_initialized (db w) = true
  /\ logger_initialized (logger w) = true
  /\ log_file (logger w) <> None.

Inductive reachable : world -> Prop :=
| reachable_boot (w : world) : booted w -> reachable w
| reachable_step (r : request) (w : world) (st : Z) (w' : world) :
    reachable w -> run r w = Returns (st, w') -> reachable w'.

(** A fresh installation right after start-up. *)
Definition fresh : world :=
  mk_world true (mk_semaphore_state false "" true)
           (mk_db true [] 0 [] 0 true true)
           (mk_logger true (Some []))
           (mk_simple true [] [] true)
           0 0.

(** A well-formed identity: what [try_acquire_writer] accepts. *)
Definition identity_ok (u : string) : Prop :=
  (0 < strlen u < MAX_USERNAME_LEN)%nat.

(** The permit as [Status()] shows it. *)
Definition held_by (a : string) (w : world) : Prop :=
  g_initialized w = true
  /\ write_mutex (g_semaphore_state w) = true
  /\ current_holder (g_semaphore_state w) = a
  /\ identity_ok a.

Definition permit_free (w : world) : Prop :=
  g_initialized w = true
  /\ write_mutex (g_semaphore_state w) = false
  /\ current_holder (g_semaphore_state w) = "".

(** The audit trail: the rows of the [transactions] table and the
    records of the log file. *)
Definition audit_rows (w : world) : list log_entry :=
  map snd (transactions (db w)).

Definition audit_records (w : world) : list log_entry :=
  match log_file (logger w) with
  | Some records => records
  | None => []
  end.

(** ** Vocabulary of the statements *)

(** The arbiter's part of the state. *)
Definition permit (w : world) : bool * semaphore_state_t :=
  (g_initialized w, g_semaphore_state w).

(** Every state the daemon can be in is one of the two. *)
Definition permit_ok (w : world) : Prop :=
  permit_free w \/ exists a, held_by a w.

(** The arbiter, storage or admin call a decoded command is routed to;
    [None] for the two commands that only read. *)
Definition route (cmd : Handlers.command_t) : option request :=
  match Handlers.type cmd with
  | Handlers.CMD_TRY_ACQUIRE =>
      if (strlen (Handlers.user cmd) =? 0)%nat then None
      else Some (TryAcquire (Some (Handlers.user cmd)))
  | Handlers.CMD_RELEASE =>
      if (strlen (Handlers.user cmd) =? 0)%nat then None
      else Some (Release (Some (Handlers.user cmd)))
  | Handlers.CMD_CREATE_MESSAGE =>
      if (strlen (Handlers.user cmd) =? 0)%nat
         || (strlen (Handlers.message cmd) =? 0)%nat then None
      else Some (CreateMessage (Some (Handlers.user cmd))
                               (Some (Handlers.message cmd)))
  | Handlers.CMD_UPDATE_MESSAGE =>
      if (strlen (Handlers.user cmd) =? 0)%nat
         || (strlen (Handlers.message cmd) =? 0)%nat
         || (Handlers.id cmd <=? 0) then None
      else Some (UpdateMessage (Handlers.id cmd) (Some (Handlers.user cmd))
                               (Some (Handlers.message cmd)))
  | Handlers.CMD_DELETE_MESSAGE =>
      if (strlen (Handlers.user cmd) =? 0)%nat || (Handlers.id cmd <=? 0)
      then None
      else Some (DeleteMessage (Handlers.id cmd) (Some (Handlers.user cmd)))
  | Handlers.CMD_LIST_MESSAGES =>
      Some (ListMessages (Handlers.page cmd) (Handlers.limit cmd))
  | Handlers.CMD_GET_STATUS => None
  | Handlers.CMD_GET_LOGS => None
  | Handlers.CMD_TOGGLE_WRITER =>
      if (strlen (Handlers.user cmd) =? 0)%nat then None
      else Some (SetEnabled (Handlers.enabled cmd)
                            (Some (Handlers.user cmd)))
  end.

(** The requests that end the hold of [a]: a release in the name of [a]
    and a force-release by a privileged identity, called directly or
    through the dispatcher. *)
Definition ends_hold_call (a : string) (r : request) : bool :=
  match r with
  | Release (Some u) => strcmp_eq u a
  | ForceReleaseSemaphore admin => Admin.is_admin_user admin
  | _ => false
  end.

Definition ends_hold (a : string) (r : request) : bool :=
  match r with
  | Dispatch j =>
      let (rc, cmd) := Handlers.parse_json_command j in
      (rc =? 0)
      && match route cmd with
         | Some r' => ends_hold_call a r'
         | None => false
         end
  | _ => ends_hold_call a r
  end.

Definition keeps_hold (a : string) (rs : list request) : Prop :=
  forallb (fun r => negb (ends_hold a r)) rs = true.

(** The state in which "alice" has just acquired the permit of a fresh
    installation. *)
Definition alice_holds : world :=
  snd (Semaphore.try_acquire_writer (Some "alice") fresh).

(** The same state after "alice" has posted "hi". *)
Definition alice_posted : world :=
  snd (Db.create_message (Some "alice") (Some "hi") alice_holds).

(** The request [{"action": action, "user": user, "enabled": enabled}]. *)
Definition user_request (action user : string) (enabled : bool)
  : option Handlers.cJSON :=
  Some (Handlers.cJSON_Object
          [("action", Handlers.cJSON_String action);
           ("user", Handlers.cJSON_String user);
           ("enabled",
            if enabled then Handlers.cJSON_True else Handlers.cJSON_False)]).

(** The request [{"action": "LIST", "page": page, "limit": limit}]. *)
Definition list_request (page limit : Z) : option Handlers.cJSON :=
  Some (Handlers.cJSON_Object
          [("action", Handlers.cJSON_String "LIST");
           ("page", Handlers.cJSON_Number page);
           ("limit", Handlers.cJSON_Number limit)]).

(** The rows the two listing calls read for a page. *)
Definition page_of_messages (page limit : Z) (w : world)
  : list message_row :=
  if chat_step_ok (db w)
  then select_page msg_created_at limit (page_offset page limit)
                   (messages (db w))
  else [].

Definition page_of_logs (page limit : Z) (w : world)
  : list (Z * log_entry) :=
  if logs_step_ok (db w)
  then select_page (fun r => log_ts (snd r)) limit (page_offset page limit)
                   (transactions (db w))
  else [].

(** The daemon fully started, with the audit table taking rows and the
    log file open. *)
Definition audit_ready (w : world) : Prop :=
  g_initialized w = true
  /\ g_db_initialized (db w) = true
  /\ logger_initialized (logger w) = true
  /\ log_file (logger w) <> None
  /\ logs_step_ok (db w) = true.

(** The requests that go through [log_transaction] when they succeed. *)
Definition logged (r : request) : bool :=
  match r with
  | CreateMessage _ _ | UpdateMessage _ _ _ | DeleteMessage _ _
  | GetLogs _ _ _ | GetSystemStatus _ | ForceReleaseSemaphore _ => true
  | _ => false
  end.

(** The call appended exactly the entry [e] to both sinks: one row to
    the audit table and one record to the log file. *)
Definition appended (e : log_entry) (w w' : world) : Prop :=
  audit_records w' = (audit_records w ++ [e])%list
  /\ audit_rows w' = (audit_rows w ++ [e])%list.

Definition audit_unchanged (w w' : world) : Prop :=
  audit_records w' = audit_records w /\ audit_rows w' = audit_rows w.

(** A force-release asked while Status() reports the permit free. *)
Definition free_force_release (r : request) (w : world) : Prop :=
  (exists admin, r = ForceReleaseSemaphore admin)
  /\ Semaphore.get_semaphore_status w = Semaphore.StatusOk "" 1.

(** The call appended exactly one entry, whose permit value is 0 or 1
    and is the value Status() reported when the call was made. *)
Definition one_entry (w w' : world) : Prop :=
  exists (e : log_entry) (h : string),
    appended e w w'
    /\ (log_semaphore_value e = 0 \/ log_semaphore_value e = 1)
    /\ Semaphore.get_semaphore_status w
       = Semaphore.StatusOk h (log_semaphore_value e).

(** ** Vocabulary of the further properties *)

(** The message table and its id counter. *)
Definition chat (w : world) : list message_row * Z :=
  (messages (db w), messages_seq (db w)).

(** Ids are unique and none is above the counter. *)
Definition ids_ok (w : world) : Prop :=
  NoDup (map msg_id (messages (db w)))
  /\ Forall (fun r => msg_id r <= messages_seq (db w)) (messages (db w)).

(** The rows of everyone but [h]. *)
Definition rows_of_others (h : string) (rows : list message_row)
  : list message_row :=
  filter (fun r => negb (strcmp_eq (msg_username r) h)) rows.

(** What the [UPDATE] statement makes of a row. *)
Definition updated_row (id : Z) (username message : string)
  (r : message_row) : message_row :=
  if Db.row_matches id username r
  then mk_message (msg_id r) (msg_username r) message (msg_created_at r)
  else r.

(** The four things a call can do to the message table: nothing, or, for
    the holder [u], one insert, one update or one delete. *)
Inductive chat_effect (w w' : world) : Prop :=
| chat_same : chat w' = chat w -> chat_effect w w'
| chat_insert (u m : string) :
    Semaphore.get_semaphore_status w = Semaphore.StatusOk u 0 ->
    chat w'
    = ((messages (db w)
          ++ [mk_message (messages_seq (db w) + 1) u m (now w)])%list,
       messages_seq (db w) + 1) ->
    chat_effect w w'
| chat_update (i : Z) (u m : string) :
    Semaphore.get_semaphore_status w = Semaphore.StatusOk u 0 ->
    chat w'
    = (map (updated_row i u m) (messages (db w)), messages_seq (db w)) ->
    chat_effect w w'
| chat_delete (i : Z) (u : string) :
    Semaphore.get_semaphore_status w = Semaphore.StatusOk u 0 ->
    chat w'
    = (filter (fun r => negb (Db.row_matches i u r)) (messages (db w)),
       messages_seq (db w)) ->
    chat_effect w w'.

(** [log_semaphore_event] as linked with the relational store. *)
Definition db_log_semaphore_event :=
  Logger.log_semaphore_event Db.insert_log_entry.

(** An audit row the schema of [transactions] admits, and a record of
    the log file with a permit value of 0 or 1. *)
Definition row_ok (e : log_entry) : Prop :=
  Db.check_transaction (log_action e) (log_content e) (log_semaphore_value e)
  = true.

Definition record_ok (e : log_entry) : Prop :=
  log_semaphore_value e = 0 \/ log_semaphore_value e = 1.

(** Both sinks have only grown, by at most [n] entries each, all of them
    well-formed. *)
Definition audit_grew (n : nat) (w w' : world) : Prop :=
  exists rows records : list log_entry,
    audit_rows w' = (audit_rows w ++ rows)%list
    /\ audit_records w' = (audit_records w ++ records)%list
    /\ (List.length rows <= n)%nat /\ (List.length records <= n)%nat
    /\ Forall row_ok rows /\ Forall record_ok records.

(** The action name of each command type, as [parse_json_command] spells
    them. *)
Definition action_name (t : Handlers.command_type_t) : string :=
  match t with
  | Handlers.CMD_TRY_ACQUIRE => "TRY_ACQUIRE"
  | Handlers.CMD_RELEASE => "RELEASE"
  | Handlers.CMD_CREATE_MESSAGE => "CREATE"
  | Handlers.CMD_UPDATE_MESSAGE => "UPDATE"
  | Handlers.CMD_DELETE_MESSAGE => "DELETE"
  | Handlers.CMD_LIST_MESSAGES => "LIST"
  | Handlers.CMD_GET_STATUS => "STATUS"
  | Handlers.CMD_GET_LOGS => "LOGS"
  | Handlers.CMD_TOGGLE_WRITER => "TOGGLE"
  end.

(** A name of exactly 63 characters. *)
Definition name63 : string :=
  "aaaaaaaaaaaaaaaaaaaaaaaaaaaaaaaaaaaaaaaaaaaaaaaaaaaaaaaaaaaaaaa".

(** A table with two authors: "bob" has posted "yo" and released the
    permit, then "alice" has acquired it and posted "hi". *)
Definition two_authors : world :=
  let w1 := snd (Semaphore.try_acquire_writer (Some "bob") fresh) in
  let w2 := snd (Db.create_message (Some "bob") (Some "yo") w1) in
  let w3 := snd (Semaphore.release_writer (Some "bob") w2) in
  let w4 := snd (Semaphore.try_acquire_writer (Some "alice") w3) in
  snd (Db.create_message (Some "alice") (Some "hi") w4).

(** The page a LIST or LOGS command asks for is too long for the
    response buffer. *)
Definition page_too_long (cmd : Handlers.command_t) (w : world) : Prop :=
  match Handlers.type cmd with
  | Handlers.CMD_LIST_MESSAGES =>
      (MAX_JSON_LEN
       <= Db.messages_json_strlen
            (page_of_messages (Handlers.page cmd) (Handlers.limit cmd) w))
      %nat
  | Handlers.CMD_GET_LOGS =>
      (MAX_JSON_LEN
       <= Db.logs_json_strlen
            (page_of_logs (Handlers.page cmd) (Handlers.limit cmd) w))%nat
  | _ => False
  end.

(** A text of [n] characters of two bytes each, such as the UTF-8
    encoding of [n] accented letters: [n] to the engine, [2 * n] to
    [strlen]. *)
Fixpoint two_byte_characters (n : nat) : string :=
  match n with
  | O => ""
  | S k =>
      String (ascii_of_nat 195) (String (ascii_of_nat 169)
                                        (two_byte_characters k))
  end.

(** A text of [n] letters. *)
Fixpoint letters (n : nat) : string :=
  match n with
  | O => ""
  | S k => String "a" (letters k)
  end.

(** alice, holding the permit, has posted five messages of 2000 letters. *)
Definition crowded : world :=
  let post w :=
    snd (Db.create_message (Some "alice") (Some (letters 2000)) w) in
  post (post (post (post (post alice_holds)))).

(** ** main.c *)

(** The HTTP front end of the daemon.  It is linked with [semaphore.c] and
    [db_simple.c], and its request handler calls the arbiter only.  A
    request is the text [recv] left in the buffer, at most 4095
    characters, up to its first NUL; the reply is the text handed to
    [send]. *)

Module Main.

(** The characters the C literals escape. *)
Definition dquote : ascii := ascii_of_nat 34.
Definition tab : ascii := ascii_of_nat 9.
Definition CR : ascii := ascii_of_nat 13.
Definition LF : ascii := ascii_of_nat 10.
Definition CRLF : string := String CR (String LF "").

(** A word between two escaped quotes of a C literal. *)
Definition quoted (s : string) : string :=
  String dquote (s ++ String dquote "").

(** [strstr] and [strchr] return a pointer into their argument: the rest
    of the string from the first match on. *)
Fixpoint strstr (haystack needle : string) : option string :=
  if String.prefix needle haystack then Some haystack else
  match haystack with
  | EmptyString => None
  | String _ rest => strstr rest needle
  end.

Fixpoint strchr (s : string) (c : ascii) : option string :=
  match s with
  | EmptyString => None
  | String x rest => if Ascii.eqb x c then Some s else strchr rest c
  end.

(** [p += n] on a pointer into a string that has [n] characters left. *)
Fixpoint advance (n : nat) (p : string) : string :=
  match n, p with
  | S k, String _ rest => advance k rest
  | _, _ => p
  end.

Definition send_http_response (status content : string) : string :=
  snprintf 4096
    ("HTTP/1.1 " ++ status ++ CRLF
     ++ "Content-Type: application/json" ++ CRLF
     ++ "Content-Length: " ++ fmt_d (Z.of_nat (strlen content)) ++ CRLF
     ++ "Access-Control-Allow-Origin: *" ++ CRLF
     ++ "Access-Control-Allow-Methods: GET, POST, OPTIONS" ++ CRLF
     ++ "Access-Control-Allow-Headers: Content-Type" ++ CRLF
     ++ CRLF
     ++ content).

Fixpoint skip_blanks (p : string) : string :=
  match p with
  | String x rest =>
      if Ascii.eqb x " " || Ascii.eqb x tab then skip_blanks rest else p
  | EmptyString => p
  end.

(** [None] is the return value -1; [Some name] is 0 with [name] written
    to [username].  [username_size] is at least 1. *)
Definition extract_username_from_json (body : string) (username_size : nat)
  : option string :=
  match strstr body (quoted "username" ++ ":") with
  | None => None
  | Some at_key =>
    match strchr at_key ":" with
    | None => None
    | Some at_colon =>
      match skip_blanks (advance 1 at_colon) with
      | String x username_start =>
        if negb (Ascii.eqb x dquote) then None else
        match strchr username_start dquote with
        | None => None
        | Some username_end =>
          let len := (strlen username_start - strlen username_end)%nat in
          let len :=
            if (username_size <=? len)%nat then (username_size - 1)%nat
            else len in
          Some (strncpy username_start len)
        end
      | EmptyString => None
      end
    end
  end.

(** [sscanf(buffer, "%15s %255s", method, path)]: [%Ns] skips white space
    and then takes up to [N] characters that are not white space. *)
Definition isspace (c : ascii) : bool :=
  let n := nat_of_ascii c in
  ((9 <=? n) && (n <=? 13) || (n =? 32))%nat.

Fixpoint skip_space (p : string) : string :=
  match p with
  | String x rest => if isspace x then skip_space rest else p
  | EmptyString => p
  end.

Fixpoint scan_word (width : nat) (p : string) : string * string :=
  match width, p with
  | S n, String x rest =>
      if isspace x then ("", p)
      else let (word, p') := scan_word n rest in (String x word, p')
  | _, _ => ("", p)
  end.

(** [Some] when both conversions succeed, that is when [sscanf]
    returns 2. *)
Definition sscanf_method_path (buffer : string) : option (string * string) :=
  let (method, p) := scan_word 15 (skip_space buffer) in
  if (strlen method =? 0)%nat then None else
  let (path, _) := scan_word 255 (skip_space p) in
  if (strlen path =? 0)%nat then None else Some (method, path).

(** The JSON texts of the replies. *)
Definition error_text (message : string) : string :=
  "{" ++ quoted "error" ++ ":" ++ quoted message ++ "}".

Definition status_text (status message : string) : string :=
  "{" ++ quoted "status" ++ ":" ++ quoted status ++ ","
  ++ quoted "message" ++ ":" ++ quoted message ++ "}".

Definition holder_text (status message holder : string) : string :=
  snprintf 2048
    ("{" ++ quoted "status" ++ ":" ++ quoted status ++ ","
     ++ quoted "message" ++ ":" ++ quoted message ++ ","
     ++ quoted "holder" ++ ":" ++ quoted holder ++ "}").

Definition value_text (value : Z) (holder : string) : string :=
  snprintf 2048
    ("{" ++ quoted "status" ++ ":" ++ quoted "success" ++ ","
     ++ quoted "semaphore_value" ++ ":" ++ fmt_d value ++ ","
     ++ quoted "holder" ++ ":" ++ quoted holder ++ "}").

(** The [username] of the request body, as the two POST routes read it. *)
Definition body_username (body : option string) : option string :=
  match body with
  | None => None
  | Some b => extract_username_from_json b 64
  end.

(** [received] is [None] when [recv] returns 0 or less; [stack_holder] is
    what the uninitialised [current_holder] local holds.  The reply is
    [None] when nothing is sent. *)
Definition handle_http_request (received : option string)
  (stack_holder : string) (w : world) : option string * world :=
  match received with
  | None => (None, w)
  | Some buffer =>
    match sscanf_method_path buffer with
    | None =>
        (Some (send_http_response "400 Bad Request"
                 (error_text "Invalid HTTP request")), w)
    | Some (method, path) =>
      if strcmp_eq method "OPTIONS"
      then (Some (send_http_response "200 OK" ""), w) else
      let body :=
        match strstr buffer (CRLF ++ CRLF) with
        | Some at_blank_line => Some (advance 4 at_blank_line)
        | None => None
        end in
      if strcmp_eq path "/api/semaphore/acquire" && strcmp_eq method "POST"
      then
        match body_username body with
        | None =>
            (Some (send_http_response "400 Bad Request"
                     (status_text "error"
                        "Username required in request body")), w)
        | Some username =>
          let (result, w1) :=
            Semaphore.try_acquire_writer (Some username) w in
          if result =? 0 then
            (Some (send_http_response "200 OK"
                     (holder_text "success" "Semaphore acquired" username)),
             w1)
          else if result =? -3 then
            let current_holder :=
              match Semaphore.get_semaphore_status w1 with
              | Semaphore.StatusOk holder _ => holder
              | Semaphore.StatusError _ => stack_holder
              end in
            (Some (send_http_response "409 Conflict"
                     (holder_text "error" "Semaphore unavailable"
                                  current_holder)), w1)
          else
            (Some (send_http_response "500 Internal Server Error"
                     (status_text "error" "Failed to acquire semaphore")),
             w1)
        end
      else if strcmp_eq path "/api/semaphore/release"
              && strcmp_eq method "POST"
      then
        match body_username body with
        | None =>
            (Some (send_http_response "400 Bad Request"
                     (status_text "error"
                        "Username required in request body")), w)
        | Some username =>
          let (result, w1) := Semaphore.release_writer (Some username) w in
          if result =? 0 then
            (Some (send_http_response "200 OK"
                     (status_text "success" "Semaphore released")), w1)
          else if result =? -2 then
            (Some (send_http_response "403 Forbidden"
                     (status_text "error"
                        "Permission denied - not semaphore holder")), w1)
          else
            (Some (send_http_response "500 Internal Server Error"
                     (status_text "error" "Cannot release semaphore")), w1)
        end
      else if strcmp_eq path "/api/semaphore/status"
              && strcmp_eq method "GET"
      then
        match Semaphore.get_semaphore_status w with
        | Semaphore.StatusOk holder value =>
            (Some (send_http_response "200 OK" (value_text value holder)),
             w)
        | Semaphore.StatusError _ =>
            (Some (send_http_response "500 Internal Server Error"
                     (status_text "error" "Cannot get status")), w)
        end
      else
        (Some (send_http_response "404 Not Found"
                 (status_text "error" "Endpoint not found")), w)
    end
  end.

End Main.

(** A POST request as a browser sends it: request line, one header, a
    blank line and a JSON body that carries the user name. *)
Definition http_post (request_line username : string) : string :=
  request_line ++ Main.CRLF
  ++ "Content-Type: application/json" ++ Main.CRLF
  ++ Main.CRLF
  ++ "{" ++ Main.quoted "username" ++ ":" ++ Main.quoted username ++ "}".

Definition acquire_request (username : string) : string :=
  http_post "POST /api/semaphore/acquire HTTP/1.1" username.

Definition release_request (username : string) : string :=
  http_post "POST /api/semaphore/release HTTP/1.1" username.

(** The blanks [extract_username_from_json] skips after the colon. *)
Definition blanks (p : string) : Prop := Main.skip_blanks p = "".

(** A call that touches nothing but the holder of the permit. *)
Definition arbiter_only (w w' : world) : Prop :=
  db w' = db w /\ logger w' = logger w /\ simple w' = simple w
  /\ now w' = now w
  /\ g_initialized w' = g_initialized w
  /\ writer_enabled (g_semaphore_state w')
     = writer_enabled (g_semaphore_state w)
  /\ (permit_ok w -> permit_ok w').

(** * Properties *)

(** Case analysis on whatever the goal branches on. *)
Ltac break_match :=
  match goal with
  | |- context [match ?x with _ => _ end] => destruct x eqn:?
  end.

(** The cases of a call that did not answer -4 are closed by the
    status code itself. *)
Ltac invalid_by_cases :=
  repeat (break_match; cbn [fst snd negb]);
  let H := fresh in
  intros H; try reflexivity; try discriminate H; congruence.


(** The same, innermost branch first. *)
Ltac break_inner :=
  match goal with
  | |- context [match ?x with _ => _ end] =>
      lazymatch x with
      | context [match _ with _ => _ end] => fail
      | _ => destruct x eqn:?
      end
  end.
(** ** Frame lemmas: what each call leaves alone *)

Lemma set_sem_same (w : world) : set_sem (g_semaphore_state w) w = w.
Proof. destruct w; reflexivity. Qed.

Lemma status_permit (w w' : world) :
  permit w' = permit w ->
  Semaphore.get_semaphore_status w' = Semaphore.get_semaphore_status w.
Proof.
  unfold permit, Semaphore.get_semaphore_status; intros H.
  injection H as -> ->; reflexivity.
Qed.

Lemma db_insert_log_entry_permit a u c v w :
  permit (snd (Db.insert_log_entry a u c v w)) = permit w.
Proof.
  unfold Db.insert_log_entry.
  repeat (break_match; cbn [snd]); reflexivity.
Qed.

Lemma db_log_transaction_permit a u c v w :
  permit (Db.log_transaction a u c v w) = permit w.
Proof.
  unfold Db.log_transaction, Logger.log_transaction.
  destruct (negb (logger_initialized (logger w))); [reflexivity|].
  destruct a as [a|]; [|reflexivity].
  destruct (negb (v =? 0) && negb (v =? 1)); [reflexivity|].
  pose proof (db_insert_log_entry_permit (Some a) u c v w) as H.
  destruct (Db.insert_log_entry (Some a) u c v w) as [st w1]; simpl in H.
  rewrite <- H. unfold Logger.file_append.
  destruct (log_file (logger w1)); reflexivity.
Qed.

Lemma create_message_permit u m w :
  permit (snd (Db.create_message u m w)) = permit w.
Proof.
  unfold Db.create_message.
  repeat (break_match; simpl; try reflexivity);
    rewrite db_log_transaction_permit; reflexivity.
Qed.

Lemma update_message_permit i u m w :
  permit (snd (Db.update_message i u m w)) = permit w.
Proof.
  unfold Db.update_message.
  repeat (break_match; simpl; try reflexivity);
    rewrite db_log_transaction_permit; reflexivity.
Qed.

Lemma delete_message_permit i u w :
  permit (snd (Db.delete_message i u w)) = permit w.
Proof.
  unfold Db.delete_message.
  repeat (break_match; simpl; try reflexivity);
    rewrite db_log_transaction_permit; reflexivity.
Qed.

(** ** The two listing calls, when they return *)

Lemma list_messages_returns p l n w st rows w' :
  Db.list_messages p l n w = Returns (st, rows, w') ->
  (st = -1 /\ g_db_initialized (db w) = false /\ rows = [] /\ w' = w)
  \/ (st = -4 /\ g_db_initialized (db w) = true
      /\ ((p <? 1) || (l <? 1) || (l >? 100)) = true
      /\ rows = [] /\ w' = w)
  \/ (st = 0 /\ g_db_initialized (db w) = true
      /\ ((p <? 1) || (l <? 1) || (l >? 100)) = false
      /\ rows = (if chat_step_ok (db w)
                 then select_page msg_created_at l (page_offset p l)
                                  (messages (db w))
                 else [])
      /\ (Db.messages_json_strlen rows < n)%nat
      /\ w' = Db.log_transaction (Some "READ") None
                 (Some (snprintf 256
                          ("Listed messages (page " ++ fmt_d p
                           ++ ", limit " ++ fmt_d l ++ ")")))
                 (Semaphore.value_read w (Semaphore.get_semaphore_status w))
                 w).
Proof.
  unfold Db.list_messages.
  destruct (g_db_initialized (db w)); cbn [negb];
    [|intros H; injection H as <- <- <-; left; auto].
  destruct ((p <? 1) || (l <? 1) || (l >? 100));
    [intros H; injection H as <- <- <-; right; left; auto|].
  destruct (n <=? _)%nat eqn:Hn; [discriminate|].
  apply Nat.leb_gt in Hn.
  intros H; injection H as <- <- <-. right; right. auto 10.
Qed.

Lemma list_messages_fits p l n w :
  g_db_initialized (db w) = true ->
  ((p <? 1) || (l <? 1) || (l >? 100)) = false ->
  (Db.messages_json_strlen
     (if chat_step_ok (db w)
      then select_page msg_created_at l (page_offset p l) (messages (db w))
      else []) < n)%nat ->
  exists rows w', Db.list_messages p l n w = Returns (0, rows, w').
Proof.
  intros Hi Hp Hn. unfold Db.list_messages. rewrite Hi, Hp. cbn [negb].
  apply Nat.leb_gt in Hn. rewrite Hn. eauto.
Qed.

Lemma get_logs_returns p l n w st rows :
  Db.get_logs p l n w = Returns (st, rows) ->
  (st = -1 /\ g_db_initialized (db w) = false /\ rows = [])
  \/ (st = -4 /\ g_db_initialized (db w) = true
      /\ ((p <? 1) || (l <? 1) || (l >? 100)) = true /\ rows = [])
  \/ (st = 0 /\ g_db_initialized (db w) = true
      /\ ((p <? 1) || (l <? 1) || (l >? 100)) = false
      /\ rows = (if logs_step_ok (db w)
                 then select_page (fun r => log_ts (snd r)) l
                                  (page_offset p l) (transactions (db w))
                 else [])
      /\ (Db.logs_json_strlen rows < n)%nat).
Proof.
  unfold Db.get_logs.
  destruct (g_db_initialized (db w)); cbn [negb];
    [|intros H; injection H as <- <-; left; auto].
  destruct ((p <? 1) || (l <? 1) || (l >? 100));
    [intros H; injection H as <- <-; right; left; auto|].
  destruct (n <=? _)%nat eqn:Hn; [discriminate|].
  apply Nat.leb_gt in Hn.
  intros H; injection H as <- <-. right; right. auto 10.
Qed.

Lemma get_logs_fits p l n w :
  g_db_initialized (db w) = true ->
  ((p <? 1) || (l <? 1) || (l >? 100)) = false ->
  (Db.logs_json_strlen
     (if logs_step_ok (db w)
      then select_page (fun r => log_ts (snd r)) l (page_offset p l)
                       (transactions (db w))
      else []) < n)%nat ->
  exists rows, Db.get_logs p l n w = Returns (0, rows).
Proof.
  intros Hi Hp Hn. unfold Db.get_logs. rewrite Hi, Hp. cbn [negb].
  apply Nat.leb_gt in Hn. rewrite Hn. eauto.
Qed.

(** [admin_get_logs] returns with the state unchanged, or with status 0
    and one ADMIN_ACTION entry logged. *)
Lemma admin_get_logs_returns a p l n w st rows w' :
  Admin.admin_get_logs a p l n w = Returns (st, rows, w') ->
  (st <> 0 /\ rows = [] /\ w' = w)
  \/ (exists admin,
         a = Some admin /\ Admin.is_admin_user a = true
         /\ st = 0
         /\ Db.get_logs p l n w = Returns (0, rows)
         /\ w' = Db.log_transaction (Some "ADMIN_ACTION") a
                    (Some (snprintf 256
                             ("Admin accessed logs (page " ++ fmt_d p
                              ++ ", limit " ++ fmt_d l ++ ")")))
                    (Semaphore.value_read w
                       (Semaphore.get_semaphore_status w)) w).
Proof.
  unfold Admin.admin_get_logs.
  destruct a as [admin|];
    [|intros H; injection H as <- <- <-; left; repeat split; lia].
  destruct (_ || _);
    [intros H; injection H as <- <- <-; left; repeat split; lia|].
  destruct (Admin.is_admin_user (Some admin)) eqn:Ha; cbn [negb];
    [|intros H; injection H as <- <- <-; left; repeat split; lia].
  destruct ((p <? 1) || (l <? 1) || (l >? 100)) eqn:Hp;
    [intros H; injection H as <- <- <-; left; repeat split; lia|].
  destruct (Db.get_logs p l n w) as [[result rows0]|] eqn:Hg;
    [|discriminate].
  destruct (get_logs_returns _ _ _ _ _ _ Hg)
    as [(-> & _ & ->)|[(-> & _ & _ & ->)|(-> & _)]]; cbn [negb Z.eqb].
  - intros H; injection H as <- <- <-; left; repeat split; lia.
  - intros H; injection H as <- <- <-; left; repeat split; lia.
  - intros H; injection H as <- <- <-. right. exists admin. auto 10.
Qed.

Lemma list_messages_permit p l n w st rows w' :
  Db.list_messages p l n w = Returns (st, rows, w') -> permit w' = permit w.
Proof.
  intros H.
  destruct (list_messages_returns _ _ _ _ _ _ _ H)
    as [(_ & _ & _ & ->)|[(_ & _ & _ & _ & ->)|(_ & _ & _ & _ & _ & ->)]];
    try reflexivity.
  apply db_log_transaction_permit.
Qed.

Lemma admin_get_logs_permit a p l n w st rows w' :
  Admin.admin_get_logs a p l n w = Returns (st, rows, w') ->
  permit w' = permit w.
Proof.
  intros H.
  destruct (admin_get_logs_returns _ _ _ _ _ _ _ _ H)
    as [(_ & _ & ->)|(admin & _ & _ & _ & _ & ->)]; [reflexivity|].
  apply db_log_transaction_permit.
Qed.

Lemma admin_get_system_status_permit a w :
  permit (snd (Admin.admin_get_system_status a w)) = permit w.
Proof.
  unfold Admin.admin_get_system_status.
  repeat (break_match; simpl; try reflexivity);
    rewrite db_log_transaction_permit; reflexivity.
Qed.

(** ** C strings *)

Lemma strncpy_short (s : string) (n : nat) :
  (strlen s <= n)%nat -> strncpy s n = s.
Proof.
  unfold strncpy, strlen. revert n.
  induction s as [|c s IH]; intros [|n] H; simpl in *; try reflexivity.
  - lia.
  - rewrite IH by lia. reflexivity.
Qed.

Lemma strlen_strncpy (s : string) (n : nat) :
  (strlen (strncpy s n) <= n)%nat.
Proof.
  unfold strncpy, strlen. revert n.
  induction s as [|c s IH]; intros [|n]; simpl; try lia.
  specialize (IH n). lia.
Qed.

Lemma strlen_snprintf (size : nat) (text : string) :
  (strlen (snprintf size text) <= size - 1)%nat.
Proof. apply strlen_strncpy. Qed.

Lemma strlen_zero (s : string) : (strlen s =? 0)%nat = true <-> s = "".
Proof.
  destruct s; simpl; split; intros H; try reflexivity; discriminate.
Qed.

Lemma strlen_nonzero (s : string) : (strlen s =? 0)%nat = false <-> s <> "".
Proof.
  destruct s; simpl; split; intros H; try reflexivity; try discriminate;
    congruence.
Qed.

(** The engine never counts more characters than there are bytes, and
    it counts at least one in a text that is not empty. *)
Lemma length_from_le (b : bool) (s : string) :
  (length_from b s <= strlen s)%nat.
Proof.
  unfold strlen. revert b.
  induction s as [|c s IH]; intros b; cbn [length_from String.length];
    [lia|].
  destruct (b && continues_character c).
  - specialize (IH true). lia.
  - specialize (IH (starts_character c)). lia.
Qed.

Lemma sql_length_le (s : string) : (sql_length s <= strlen s)%nat.
Proof. apply length_from_le. Qed.

Lemma sql_length_pos (s : string) :
  (0 < strlen s)%nat -> (0 < sql_length s)%nat.
Proof.
  destruct s as [|c s]; unfold sql_length, strlen; cbn; lia.
Qed.

Lemma two_byte_characters_length (n : nat) :
  sql_length (two_byte_characters n) = n
  /\ strlen (two_byte_characters n) = (2 * n)%nat.
Proof.
  unfold sql_length, strlen. split.
  - induction n as [|n IH]; [reflexivity|].
    cbn [two_byte_characters length_from andb].
    change (starts_character (ascii_of_nat 195)) with true.
    change (continues_character (ascii_of_nat 169)) with true.
    cbn [andb]. f_equal.
    destruct n as [|n]; [reflexivity|].
    cbn [two_byte_characters length_from] in *.
    change (continues_character (ascii_of_nat 195)) with false.
    rewrite andb_false_r.
    change (continues_character (ascii_of_nat 195)) with false in IH.
    cbn [andb] in IH. exact IH.
  - induction n as [|n IH]; [reflexivity|].
    cbn [two_byte_characters String.length]. rewrite IH. lia.
Qed.

(** So the audit table takes a content of 1001 such characters, which is
    2002 bytes long. *)
Example content_is_counted_in_characters :
  Db.check_transaction "CREATE" (Some (two_byte_characters 1001)) 0 = true
  /\ strlen (two_byte_characters 1001) = 2002%nat.
Proof.
  unfold Db.check_transaction.
  destruct (two_byte_characters_length 1001) as [-> ->].
  split; reflexivity.
Qed.

Lemma lengths_pass_checks (u m : string) :
  (0 < strlen u <= MAX_USERNAME_LEN)%nat ->
  (0 < strlen m <= MAX_MESSAGE_LEN)%nat ->
  Db.check_username u && Db.check_message m = true.
Proof.
  intros [Hu1 Hu2] [Hm1 Hm2].
  pose proof (sql_length_le u). pose proof (sql_length_le m).
  pose proof (sql_length_pos u Hu1). pose proof (sql_length_pos m Hm1).
  unfold Db.check_username, Db.check_message,
    MAX_USERNAME_LEN, MAX_MESSAGE_LEN in *.
  repeat (apply andb_true_iff; split);
    try (apply Nat.ltb_lt; lia); apply Nat.leb_le; lia.
Qed.

Lemma identity_ok_checks (u : string) :
  identity_ok u ->
  (strlen u =? 0)%nat = false /\ (MAX_USERNAME_LEN <=? strlen u)%nat = false.
Proof.
  unfold identity_ok; intros [H1 H2]; split.
  - apply Nat.eqb_neq; lia.
  - apply Nat.leb_gt; lia.
Qed.

Lemma identity_ok_strncpy (u : string) :
  identity_ok u -> strncpy u (MAX_USERNAME_LEN - 1) = u.
Proof.
  unfold identity_ok; intros [_ H]. apply strncpy_short.
  unfold MAX_USERNAME_LEN in *. lia.
Qed.

(** ** semaphore.c, call by call *)

Lemma try_acquire_writer_cases (u : option string) (w : world) :
  (exists a, u = Some a /\ identity_ok a /\ g_initialized w = true
             /\ write_mutex (g_semaphore_state w) = false
             /\ writer_enabled (g_semaphore_state w) = true
             /\ Semaphore.try_acquire_writer u w
                = (0, set_sem (mk_semaphore_state true a true) w))
  \/ (exists c, c <> 0 /\ Semaphore.try_acquire_writer u w = (c, w)).
Proof.
  unfold Semaphore.try_acquire_writer.
  destruct (g_initialized w) eqn:Hi; cbn [negb];
    [|right; exists (-1); split; [lia|reflexivity]].
  destruct u as [a|]; [|right; exists (-4); split; [lia|reflexivity]].
  destruct (strlen a =? 0)%nat eqn:H0;
    [right; exists (-4); split; [lia|reflexivity]|].
  destruct (MAX_USERNAME_LEN <=? strlen a)%nat eqn:H1;
    [right; exists (-4); split; [lia|reflexivity]|].
  assert (Hok : identity_ok a).
  { apply Nat.eqb_neq in H0. apply Nat.leb_gt in H1.
    unfold identity_ok. lia. }
  destruct (writer_enabled (g_semaphore_state w)) eqn:He; simpl;
    [|right; exists (-2); split; [lia|reflexivity]].
  unfold Semaphore.mutex_trylock.
  destruct (write_mutex (g_semaphore_state w)) eqn:Hm; simpl.
  - right; exists (-3); split; [lia|]. now rewrite set_sem_same.
  - left; exists a. rewrite identity_ok_strncpy by assumption.
    unfold Semaphore.set_holder; simpl. rewrite He.
    split; [reflexivity|]. split; [exact Hok|]. repeat split; auto.
Qed.

Lemma release_writer_cases (u : option string) (w : world) :
  (exists a, u = Some a /\ a <> "" /\ g_initialized w = true
             /\ current_holder (g_semaphore_state w) = a
             /\ Semaphore.release_writer u w
                = (0, set_sem (mk_semaphore_state false ""
                         (writer_enabled (g_semaphore_state w))) w))
  \/ (exists c, c <> 0 /\ Semaphore.release_writer u w = (c, w)).
Proof.
  unfold Semaphore.release_writer.
  destruct (g_initialized w) eqn:Hi; cbn [negb];
    [|right; exists (-1); split; [lia|reflexivity]].
  destruct u as [a|]; [|right; exists (-4); split; [lia|reflexivity]].
  destruct (strlen a =? 0)%nat eqn:H0;
    [right; exists (-4); split; [lia|reflexivity]|].
  apply strlen_nonzero in H0.
  unfold strcmp_eq.
  destruct (String.eqb (current_holder (g_semaphore_state w)) a) eqn:He;
    simpl.
  - apply String.eqb_eq in He. left; exists a. repeat split; auto.
  - right; exists (-2); split; [lia|reflexivity].
Qed.

Lemma admin_toggle_writer_cases (b : bool) (a : option string) (w : world) :
  (exists n, a = Some n /\ n <> "" /\ g_initialized w = true
             /\ Semaphore.admin_toggle_writer b a w
                = (0, set_sem (Semaphore.set_enabled b (g_semaphore_state w))
                              w))
  \/ (exists c, c <> 0 /\ Semaphore.admin_toggle_writer b a w = (c, w)).
Proof.
  unfold Semaphore.admin_toggle_writer.
  destruct (g_initialized w) eqn:Hi; cbn [negb];
    [|right; exists (-1); split; [lia|reflexivity]].
  destruct a as [n|]; [|right; exists (-4); split; [lia|reflexivity]].
  destruct (strlen n =? 0)%nat eqn:H0;
    [right; exists (-4); split; [lia|reflexivity]|].
  apply strlen_nonzero in H0. left; exists n. repeat split; auto.
Qed.

Lemma status_held (a : string) (w : world) :
  held_by a w ->
  Semaphore.get_semaphore_status w = Semaphore.StatusOk a 0.
Proof.
  intros (Hi & _ & Hh & Hok).
  unfold Semaphore.get_semaphore_status. rewrite Hi, Hh; simpl.
  destruct (identity_ok_checks a Hok) as [-> _]; simpl.
  now rewrite identity_ok_strncpy.
Qed.

Lemma status_free (w : world) :
  permit_free w ->
  Semaphore.get_semaphore_status w = Semaphore.StatusOk "" 1.
Proof.
  intros (Hi & _ & Hh).
  unfold Semaphore.get_semaphore_status. rewrite Hi, Hh; reflexivity.
Qed.

(** ** The dispatcher routes *)

Lemma execute_command_route (cmd : Handlers.command_t) (w : world) :
  match route cmd with
  | Some r =>
      match Handlers.execute_command cmd w with
      | Returns (resp, w1) => run r w = Returns (Handlers.status resp, w1)
      | Overrun => run r w = Overrun
      end
  | None =>
      forall resp w1,
        Handlers.execute_command cmd w = Returns (resp, w1) -> w1 = w
  end.
Proof.
  unfold route, Handlers.execute_command.
  destruct (Handlers.type cmd); cbn [run status_and_state].
  - destruct (strlen (Handlers.user cmd) =? 0)%nat;
      [intros resp w1 H; now injection H as _ <-|].
    cbn [run]. destruct (Semaphore.try_acquire_writer _ w) as [st w1].
    repeat (break_inner; cbn [Handlers.status]; try reflexivity).
  - destruct (strlen (Handlers.user cmd) =? 0)%nat;
      [intros resp w1 H; now injection H as _ <-|].
    cbn [run]. destruct (Semaphore.release_writer _ w) as [st w1].
    repeat (break_inner; cbn [Handlers.status]; try reflexivity).
  - destruct (_ || _); [intros resp w1 H; now injection H as _ <-|].
    cbn [run status_and_state].
    destruct (Db.create_message _ _ w) as [[st ts] w1].
    repeat (break_inner; cbn [Handlers.status]; try reflexivity).
  - destruct (_ || _); [intros resp w1 H; now injection H as _ <-|].
    cbn [run]. destruct (Db.update_message _ _ _ w) as [st w1].
    repeat (break_inner; cbn [Handlers.status]; try reflexivity).
  - destruct (_ || _); [intros resp w1 H; now injection H as _ <-|].
    cbn [run]. destruct (Db.delete_message _ _ w) as [st w1].
    repeat (break_inner; cbn [Handlers.status]; try reflexivity).
  - cbn [run status_and_state].
    destruct (Db.list_messages _ _ _ w) as [[[st rows] w1]|];
      [|reflexivity].
    cbn [status_and_state].
    repeat (break_inner; cbn [Handlers.status]; try reflexivity).
  - intros resp w1 H. injection H as H.
    destruct (Semaphore.get_semaphore_status w);
      now injection H as _ <-.
  - intros resp w1.
    destruct (Db.get_logs _ _ _ w) as [[st rows]|]; [|discriminate].
    intros H. injection H as H. revert H.
    repeat break_inner; intros H; now injection H as _ <-.
  - destruct (strlen (Handlers.user cmd) =? 0)%nat;
      [intros resp w1 H; now injection H as _ <-|].
    cbn [run]. destruct (Semaphore.admin_toggle_writer _ _ w) as [st w1].
    repeat (break_inner; cbn [Handlers.status]; try reflexivity).
Qed.

Lemma run_dispatch (j : option Handlers.cJSON) (w : world) :
  run (Dispatch j) w =
  let (rc, cmd) := Handlers.parse_json_command j in
  if negb (rc =? 0) then Returns (rc, w)
  else match Handlers.execute_command cmd w with
       | Returns (resp, w1) => Returns (Handlers.status resp, w1)
       | Overrun => Overrun
       end.
Proof.
  unfold run, Handlers.handle_command.
  destruct (Handlers.parse_json_command j) as [rc cmd].
  destruct (negb (rc =? 0)); [reflexivity|].
  destruct (Handlers.execute_command cmd w) as [[resp w1]|];
    [|reflexivity].
  destruct (Handlers.status resp =? 0); reflexivity.
Qed.

(** A request through the dispatcher changes the state as the call it is
    routed to does, or not at all. *)
Lemma dispatch_world (j : option Handlers.cJSON) (w : world) (st : Z)
  (w' : world) :
  run (Dispatch j) w = Returns (st, w') ->
  w' = w
  \/ exists cmd r, Handlers.parse_json_command j = (0, cmd)
                   /\ route cmd = Some r
                   /\ run r w = Returns (st, w').
Proof.
  rewrite run_dispatch.
  destruct (Handlers.parse_json_command j) as [rc cmd].
  destruct (rc =? 0) eqn:Hrc; cbn [negb];
    [|intros H; injection H as _ <-; left; reflexivity].
  apply Z.eqb_eq in Hrc; subst rc.
  pose proof (execute_command_route cmd w) as H.
  destruct (route cmd) as [r|] eqn:Hr.
  - destruct (Handlers.execute_command cmd w) as [[resp w1]|];
      [|discriminate].
    intros H'; injection H' as <- <-.
    right; exists cmd, r. auto.
  - destruct (Handlers.execute_command cmd w) as [[resp w1]|];
      [|discriminate].
    intros H'; injection H' as <- <-. left. now apply (H resp).
Qed.

(** ** The hold of an identity *)

Lemma held_by_permit (a : string) (w w' : world) :
  permit w' = permit w -> held_by a w -> held_by a w'.
Proof.
  unfold permit, held_by; intros H; injection H as -> ->; auto.
Qed.

Lemma permit_free_permit (w w' : world) :
  permit w' = permit w -> permit_free w -> permit_free w'.
Proof.
  unfold permit, permit_free; intros H; injection H as -> ->; auto.
Qed.

Lemma permit_ok_permit (w w' : world) :
  permit w' = permit w -> permit_ok w -> permit_ok w'.
Proof.
  intros H [Hf|[a Ha]]; [left|right; exists a];
    eauto using held_by_permit, permit_free_permit.
Qed.

Lemma is_admin_user_short (a : string) :
  Admin.is_admin_user (Some a) = true ->
  (strlen a =? 0)%nat = false
  /\ (MAX_ADMIN_USERNAME_LEN <=? strlen a)%nat = false.
Proof.
  unfold Admin.is_admin_user.
  destruct (strlen a =? 0)%nat; [discriminate|].
  unfold Admin.admin_users, strcmp_eq; cbn [existsb].
  intros H; split; [reflexivity|].
  repeat (apply orb_true_iff in H; destruct H as [H|H]);
    try discriminate; apply String.eqb_eq in H; subst a; reflexivity.
Qed.

Lemma force_release_not_admin (a : option string) (w : world) :
  Admin.is_admin_user a = false ->
  snd (Admin.admin_force_release_semaphore a w) = w.
Proof.
  unfold Admin.admin_force_release_semaphore; intros H.
  destruct a as [n|]; [|reflexivity].
  destruct (_ || _); [reflexivity|]. rewrite H. reflexivity.
Qed.

(** What [run] stands for, call by call. *)
Lemma run_returns (r : request) (w : world) (st : Z) (w' : world) :
  run r w = Returns (st, w') ->
  match r with
  | TryAcquire u => Semaphore.try_acquire_writer u w = (st, w')
  | Release u => Semaphore.release_writer u w = (st, w')
  | SetEnabled b a => Semaphore.admin_toggle_writer b a w = (st, w')
  | CreateMessage u m => exists ts, Db.create_message u m w = (st, ts, w')
  | UpdateMessage i u m => Db.update_message i u m w = (st, w')
  | DeleteMessage i u => Db.delete_message i u w = (st, w')
  | ListMessages p l =>
      exists rows,
        Db.list_messages p l MAX_JSON_LEN w = Returns (st, rows, w')
  | GetLogs a p l =>
      exists rows,
        Admin.admin_get_logs a p l MAX_JSON_LEN w = Returns (st, rows, w')
  | GetSystemStatus a =>
      exists ss, Admin.admin_get_system_status a w = (st, ss, w')
  | ForceReleaseSemaphore a =>
      Admin.admin_force_release_semaphore a w = (st, w')
  | Dispatch j =>
      exists out, Handlers.handle_command j w = Returns (st, out, w')
  | Outside t chat_ok logs_ok files_ok junk =>
      st = 0 /\ w' = set_environment t chat_ok logs_ok files_ok junk w
  end.
Proof.
  destruct r; cbn [run status_and_state]; intros H.
  - now injection H.
  - now injection H.
  - now injection H.
  - destruct (Db.create_message username message w) as [[s ts] w1].
    injection H as <- <-. now exists ts.
  - now injection H.
  - now injection H.
  - destruct (Db.list_messages page limit MAX_JSON_LEN w)
      as [[[s rows] w1]|]; [|discriminate].
    injection H as <- <-. now exists rows.
  - destruct (Admin.admin_get_logs admin_user page limit MAX_JSON_LEN w)
      as [[[s rows] w1]|]; [|discriminate].
    injection H as <- <-. now exists rows.
  - destruct (Admin.admin_get_system_status admin_user w) as [[s ss] w1].
    injection H as <- <-. now exists ss.
  - now injection H.
  - destruct (Handlers.handle_command json_input w) as [[[s out] w1]|];
      [|discriminate].
    injection H as <- <-. now exists out.
  - injection H as <- <-. auto.
Qed.

(** Every call but the two listing calls and the dispatcher returns. *)
Lemma run_total (r : request) (w : world) :
  match r with
  | ListMessages _ _ | GetLogs _ _ _ | Dispatch _ => True
  | _ => exists st w', run r w = Returns (st, w')
  end.
Proof.
  destruct r; cbn [run status_and_state]; try exact I;
    try (destruct (Db.create_message username message w) as [[s ts] w1]);
    try (destruct (Admin.admin_get_system_status admin_user w)
           as [[s ss] w1]);
    cbn [status_and_state];
    match goal with
    | |- exists st w', Returns ?x = _ => exists (fst x), (snd x)
    end; try reflexivity; now destruct (_ : Z * world).
Qed.

(** The state a call leaves differs from the one it was made in by the
    permit only through the arbiter. *)
Lemma run_state (r : request) (w : world) (st : Z) (w' : world) :
  run r w = Returns (st, w') ->
  match r with
  | TryAcquire u => w' = snd (Semaphore.try_acquire_writer u w)
  | Release u => w' = snd (Semaphore.release_writer u w)
  | SetEnabled b a => w' = snd (Semaphore.admin_toggle_writer b a w)
  | CreateMessage u m => w' = snd (Db.create_message u m w)
  | UpdateMessage i u m => w' = snd (Db.update_message i u m w)
  | DeleteMessage i u => w' = snd (Db.delete_message i u w)
  | GetSystemStatus a => w' = snd (Admin.admin_get_system_status a w)
  | ForceReleaseSemaphore a =>
      w' = snd (Admin.admin_force_release_semaphore a w)
  | Outside t chat_ok logs_ok files_ok junk =>
      w' = set_environment t chat_ok logs_ok files_ok junk w
  | _ => True
  end.
Proof.
  intros H. apply run_returns in H.
  destruct r; try exact I;
    match type of H with
    | exists _, _ => destruct H as [? H]; now rewrite H
    | _ /\ _ => now destruct H
    | _ => now rewrite H
    end.
Qed.

(** A call that is neither a release in the name of the holder nor a
    privileged force-release leaves the holder in place. *)
Lemma call_keeps_hold (a : string) (r : request) (w : world) (st : Z)
  (w' : world) :
  match r with Dispatch _ => False | _ => True end ->
  held_by a w -> ends_hold_call a r = false ->
  run r w = Returns (st, w') -> held_by a w'.
Proof.
  intros Hr Hh He H.
  pose proof (run_state r w st w' H) as Hs. apply run_returns in H.
  destruct r; try contradiction; try subst w'.
  - destruct (try_acquire_writer_cases username w)
      as [(u & _ & _ & _ & Hm & _)|(c & _ & ->)]; [|exact Hh].
    destruct Hh as (_ & Hm' & _). congruence.
  - destruct (release_writer_cases username w)
      as [(u & -> & _ & _ & Hu & _)|(c & _ & ->)]; [|exact Hh].
    destruct Hh as (_ & _ & Hh & _). cbn in He. unfold strcmp_eq in He.
    apply String.eqb_neq in He. congruence.
  - destruct (admin_toggle_writer_cases enabled admin_user w)
      as [(n & _ & _ & _ & ->)|(c & _ & ->)]; [|exact Hh].
    destruct Hh as (H1 & H2 & H3 & H4).
    split; [exact H1|split; [exact H2|split; [exact H3|exact H4]]].
  - eapply held_by_permit; eauto using create_message_permit.
  - eapply held_by_permit; eauto using update_message_permit.
  - eapply held_by_permit; eauto using delete_message_permit.
  - destruct H as [rows H].
    exact (held_by_permit a w w' (list_messages_permit _ _ _ _ _ _ _ H) Hh).
  - destruct H as [rows H].
    exact (held_by_permit a w w'
             (admin_get_logs_permit _ _ _ _ _ _ _ _ H) Hh).
  - eapply held_by_permit; eauto using admin_get_system_status_permit.
  - cbn in He. rewrite force_release_not_admin by assumption. exact Hh.
  - exact Hh.
Qed.

Lemma route_not_dispatch (cmd : Handlers.command_t) (r : request) :
  route cmd = Some r -> match r with Dispatch _ => False | _ => True end.
Proof.
  unfold route; destruct (Handlers.type cmd);
    repeat (break_match; try discriminate);
    intros H; injection H as <-; exact I.
Qed.

Lemma run_keeps_hold (a : string) (r : request) (w : world) (st : Z)
  (w' : world) :
  held_by a w -> ends_hold a r = false ->
  run r w = Returns (st, w') -> held_by a w'.
Proof.
  intros Hh He H.
  destruct r;
    try (eapply call_keeps_hold; [| | |exact H];
         [exact I|assumption|assumption]).
  destruct (dispatch_world json_input w st w' H)
    as [->|(cmd & r & Hp & Hr & H')]; [exact Hh|].
  cbn [ends_hold] in He. rewrite Hp, Hr in He. cbn in He.
  eapply call_keeps_hold; [| | |exact H'];
    [exact (route_not_dispatch cmd r Hr)|exact Hh|exact He].
Qed.

Lemma run_all_keeps_hold (a : string) (rs : list request) (w w' : world) :
  held_by a w -> keeps_hold a rs ->
  run_all rs w = Returns w' -> held_by a w'.
Proof.
  unfold keeps_hold. revert w.
  induction rs as [|r rs IH]; intros w Hh Hk H; cbn [run_all] in H.
  - now injection H as <-.
  - cbn [forallb] in Hk. apply andb_true_iff in Hk as [Hr Hk].
    apply negb_true_iff in Hr.
    destruct (run r w) as [[st w1]|] eqn:Hrun; [|discriminate].
    apply (IH w1); [|exact Hk|exact H].
    eapply run_keeps_hold; eauto.
Qed.

(** ** Free or held by one identity: an invariant *)

Lemma force_release_cases (a : option string) (w : world) :
  snd (Admin.admin_force_release_semaphore a w) = w
  \/ exists h w1, permit w1 = permit w
                  /\ snd (Admin.admin_force_release_semaphore a w)
                     = snd (Semaphore.release_writer (Some h) w1).
Proof.
  unfold Admin.admin_force_release_semaphore.
  destruct a as [n|]; [|left; reflexivity].
  destruct (_ || _); [left; reflexivity|].
  destruct (negb _); [left; reflexivity|].
  destruct (Semaphore.get_semaphore_status w) as [c|h v];
    [left; reflexivity|].
  destruct (v =? 1); [left; reflexivity|].
  right.
  match goal with
  | |- context [Semaphore.release_writer (Some h) ?w1] => exists h, w1
  end.
  split; [apply db_log_transaction_permit|].
  destruct (Semaphore.release_writer _ _) as [rc w2]; cbn [snd].
  destruct (negb (rc =? 0)); reflexivity.
Qed.

Lemma release_permit_ok (u : option string) (w : world) :
  permit_ok w -> permit_ok (snd (Semaphore.release_writer u w)).
Proof.
  intros Hok.
  destruct (release_writer_cases u w)
    as [(a & _ & _ & Hi & _ & ->)|(c & _ & ->)]; [|exact Hok].
  left. split; [exact Hi|split; reflexivity].
Qed.

Lemma call_permit_ok (r : request) (w : world) (st : Z) (w' : world) :
  match r with Dispatch _ => False | _ => True end ->
  permit_ok w -> run r w = Returns (st, w') -> permit_ok w'.
Proof.
  intros Hr Hok H.
  pose proof (run_state r w st w' H) as Hs. apply run_returns in H.
  destruct r; try contradiction; try subst w'.
  - destruct (try_acquire_writer_cases username w)
      as [(a & _ & Ha & Hi & _ & _ & ->)|(c & _ & ->)]; [|exact Hok].
    right; exists a.
    split; [exact Hi|split; [reflexivity|split; [reflexivity|exact Ha]]].
  - now apply release_permit_ok.
  - destruct (admin_toggle_writer_cases enabled admin_user w)
      as [(n & _ & _ & _ & ->)|(c & _ & ->)]; [|exact Hok].
    destruct Hok as [(H1 & H2 & H3)|(a & H1 & H2 & H3 & H4)].
    + left. split; [exact H1|split; [exact H2|exact H3]].
    + right; exists a.
      split; [exact H1|split; [exact H2|split; [exact H3|exact H4]]].
  - eapply permit_ok_permit; eauto using create_message_permit.
  - eapply permit_ok_permit; eauto using update_message_permit.
  - eapply permit_ok_permit; eauto using delete_message_permit.
  - destruct H as [rows H].
    exact (permit_ok_permit w w' (list_messages_permit _ _ _ _ _ _ _ H)
             Hok).
  - destruct H as [rows H].
    exact (permit_ok_permit w w'
             (admin_get_logs_permit _ _ _ _ _ _ _ _ H) Hok).
  - eapply permit_ok_permit; eauto using admin_get_system_status_permit.
  - destruct (force_release_cases admin_user w) as [->|(h & w1 & Hp & ->)];
      [exact Hok|].
    apply release_permit_ok. eapply permit_ok_permit; eauto.
  - exact Hok.
Qed.

Lemma run_permit_ok (r : request) (w : world) (st : Z) (w' : world) :
  permit_ok w -> run r w = Returns (st, w') -> permit_ok w'.
Proof.
  intros Hok H.
  destruct r; try (eapply call_permit_ok; [| |exact H]; [exact I|assumption]).
  destruct (dispatch_world json_input w st w' H)
    as [->|(cmd & r & _ & Hr & H')]; [exact Hok|].
  eapply call_permit_ok; [| |exact H'];
    [exact (route_not_dispatch cmd r Hr)|exact Hok].
Qed.

Lemma reachable_permit_ok (w : world) : reachable w -> permit_ok w.
Proof.
  induction 1 as [w (Hi & Hs & _)|r w st w' _ IH Hrun].
  - left. unfold permit_free. rewrite Hs. auto.
  - eapply run_permit_ok; eauto.
Qed.

Lemma acquire_from_free (u : option string) (w w' : world) :
  permit_ok w -> Semaphore.try_acquire_writer u w = (0, w') ->
  permit_free w /\ exists a, u = Some a /\ held_by a w'.
Proof.
  intros Hok Hr.
  destruct (try_acquire_writer_cases u w)
    as [(a & -> & Ha & Hi & Hm & _ & He)|(c & Hc & He)];
    rewrite He in Hr; [|congruence].
  injection Hr as <-. split.
  - destruct Hok as [Hf|(b & _ & Hm' & _)]; [exact Hf|congruence].
  - exists a. split; [reflexivity|].
    split; [exact Hi|split; [reflexivity|split; [reflexivity|exact Ha]]].
Qed.

Lemma fresh_booted : booted fresh.
Proof.
  unfold booted, fresh; cbn.
  repeat split; try reflexivity. discriminate.
Qed.


(** ** C1: single-holder exclusivity *)

(** C1, as the claim states it, fails: while "alice" holds the permit an
    administrator disables writing, and "bob"'s TryAcquire is then turned
    away with permission-denied (-2), not resource-unavailable (-3). *)
Lemma C1_counterexample :
  ~ (forall (a b : string) (w w1 w2 : world) (rs : list request),
        a <> b -> reachable w ->
        Semaphore.try_acquire_writer (Some a) w = (0, w1) ->
        keeps_hold a rs ->
        run_all rs w1 = Returns w2 ->
        fst (Semaphore.try_acquire_writer (Some b) w2) = -3
        /\ Semaphore.get_semaphore_status w2 = Semaphore.StatusOk a 0).
Proof.
  intros H.
  destruct (H "alice" "bob" fresh
              (snd (Semaphore.try_acquire_writer (Some "alice") fresh))
              (snd (Semaphore.admin_toggle_writer false (Some "admin")
                      (snd (Semaphore.try_acquire_writer (Some "alice")
                                                         fresh))))
              [SetEnabled false (Some "admin")]) as [Hc _].
  - discriminate.
  - apply reachable_boot, fresh_booted.
  - reflexivity.
  - reflexivity.
  - reflexivity.
  - vm_compute in Hc. discriminate.
Qed.

(** C1, amended.  Every reachable state is free or held by exactly one
    well-formed identity, and a TryAcquire succeeds only from the free
    state.  Once [a]'s TryAcquire has succeeded, then after any requests
    that have returned, other than a release in [a]'s name or a
    privileged force-release, Status() reports holder [a] with value 0
    and every TryAcquire, by anyone, fails and changes nothing: a
    well-formed identity gets resource-unavailable (-3) while writing is
    enabled and permission-denied (-2) while it is disabled. *)
Theorem C1_single_holder_exclusivity :
  forall (a : string) (w w1 : world),
    reachable w ->
    Semaphore.try_acquire_writer (Some a) w = (0, w1) ->
    permit_free w
    /\ (forall w', reachable w' -> permit_ok w')
    /\ forall (rs : list request) (w2 : world),
         keeps_hold a rs ->
         run_all rs w1 = Returns w2 ->
         Semaphore.get_semaphore_status w2 = Semaphore.StatusOk a 0
         /\ forall b : option string,
              exists c : Z,
                Semaphore.try_acquire_writer b w2 = (c, w2)
                /\ c <> 0
                /\ forall n : string,
                     b = Some n -> identity_ok n ->
                     c = if writer_enabled (g_semaphore_state w2)
                         then -3 else -2.
Proof.
  intros a w w1 Hreach Hacq.
  destruct (acquire_from_free (Some a) w w1 (reachable_permit_ok w Hreach)
              Hacq) as [Hfree (a' & Ha' & Hheld)].
  injection Ha' as <-.
  split; [exact Hfree|]. split; [exact reachable_permit_ok|].
  intros rs w2 Hk Hrun.
  pose proof (run_all_keeps_hold a rs w1 w2 Hheld Hk Hrun) as Hh.
  split; [now apply status_held|].
  intros b.
  destruct (try_acquire_writer_cases b w2)
    as [(n & _ & _ & _ & Hm & _)|(c & Hc & He)].
  - destruct Hh as (_ & Hm' & _). congruence.
  - exists c. split; [exact He|]. split; [exact Hc|].
    intros n -> Hn. revert He.
    unfold Semaphore.try_acquire_writer.
    destruct Hh as (-> & Hm & _). cbn [negb].
    destruct (identity_ok_checks n Hn) as [-> ->].
    destruct (writer_enabled (g_semaphore_state w2)); cbn [negb].
    + unfold Semaphore.mutex_trylock. rewrite Hm. cbn. congruence.
    + congruence.
Qed.

Lemma C1_witness :
  exists w2 : world,
    run_all [TryAcquire (Some "bob"); Release (Some "bob");
             SetEnabled false (Some "root")]
            (snd (Semaphore.try_acquire_writer (Some "alice") fresh))
    = Returns w2
    /\ Semaphore.get_semaphore_status w2 = Semaphore.StatusOk "alice" 0.
Proof.
  assert (Hb : booted fresh).
  { unfold booted, fresh; cbn.
    repeat split; try reflexivity. discriminate. }
  destruct (C1_single_holder_exclusivity "alice" fresh
              (snd (Semaphore.try_acquire_writer (Some "alice") fresh))
              (reachable_boot fresh Hb) eq_refl) as (_ & _ & H).
  eexists. split; [reflexivity|].
  exact (proj1 (H [TryAcquire (Some "bob"); Release (Some "bob");
                   SetEnabled false (Some "root")] _ eq_refl eq_refl)).
Defined.

(** ** C2: ownership-gated mutation *)

Lemma status_values (w : world) (h : string) (v : Z) :
  Semaphore.get_semaphore_status w = Semaphore.StatusOk h v ->
  (v = 0 /\ h <> "" \/ v = 1 /\ h = "") /\ g_initialized w = true.
Proof.
  unfold Semaphore.get_semaphore_status.
  destruct (g_initialized w); cbn [negb]; [|discriminate].
  destruct (strlen (current_holder (g_semaphore_state w)) =? 0)%nat eqn:H0;
    cbn [negb]; intros H; injection H as <- <-; split; auto.
  left; split; [reflexivity|].
  apply strlen_nonzero in H0.
  destruct (current_holder (g_semaphore_state w)); [congruence|].
  discriminate.
Qed.

Lemma validate_ok (u : string) (w : world) :
  validate_semaphore_ownership u w = 0 <->
  Semaphore.get_semaphore_status w = Semaphore.StatusOk u 0.
Proof.
  unfold validate_semaphore_ownership. split.
  - destruct (Semaphore.get_semaphore_status w) as [c|h v] eqn:Hs;
      [discriminate|].
    destruct (status_values w h v Hs) as [[[-> _]|[-> _]] _]; cbn.
    + unfold strcmp_eq. destruct (String.eqb h u) eqn:He; cbn;
        [|discriminate].
      apply String.eqb_eq in He. now subst.
    + discriminate.
  - intros ->. cbn. unfold strcmp_eq. now rewrite String.eqb_refl.
Qed.

Lemma validate_denied (u h : string) (v : Z) (w : world) :
  Semaphore.get_semaphore_status w = Semaphore.StatusOk h v ->
  h <> u -> validate_semaphore_ownership u w = -2.
Proof.
  unfold validate_semaphore_ownership; intros -> Hne.
  destruct (v =? 1); [reflexivity|].
  unfold strcmp_eq. apply String.eqb_neq in Hne. now rewrite Hne.
Qed.

Lemma lengths_accepted (u m : string) :
  (0 < strlen u <= MAX_USERNAME_LEN)%nat ->
  (0 < strlen m <= MAX_MESSAGE_LEN)%nat ->
  (strlen u =? 0)%nat || (MAX_USERNAME_LEN <? strlen u)%nat
  || (strlen m =? 0)%nat || (MAX_MESSAGE_LEN <? strlen m)%nat = false.
Proof.
  intros [Hu1 Hu2] [Hm1 Hm2].
  repeat (apply orb_false_iff; split);
    try (apply Nat.eqb_neq; lia); apply Nat.ltb_ge; lia.
Qed.

(** C2.  For a request within the storage contract (user of 1..64 and
    body of 1..2000 characters) on an initialised store: CreateMessage
    returns 0 only when Status() reports the user as holder; when Status()
    reports the permit free or held by someone else, it returns
    permission-denied (-2) and leaves the whole state, the message table
    included, as it was. *)
Theorem C2_ownership_gated_create :
  forall (user body : string) (w : world),
    g_db_initialized (db w) = true ->
    (0 < strlen user <= MAX_USERNAME_LEN)%nat ->
    (0 < strlen body <= MAX_MESSAGE_LEN)%nat ->
    (forall ts w',
        Db.create_message (Some user) (Some body) w = (0, ts, w') ->
        Semaphore.get_semaphore_status w = Semaphore.StatusOk user 0)
    /\ (forall h v,
           Semaphore.get_semaphore_status w = Semaphore.StatusOk h v ->
           h <> user ->
           Db.create_message (Some user) (Some body) w = (-2, None, w)
           /\ messages (db (snd (Db.create_message (Some user) (Some body)
                                                   w)))
              = messages (db w)).
Proof.
  intros user body w Hdb Hu Hm.
  pose proof (lengths_accepted user body Hu Hm) as Hlen.
  split.
  - intros ts w'. unfold Db.create_message.
    rewrite Hdb, Hlen. cbn [negb].
    destruct (validate_semaphore_ownership user w =? 0) eqn:Hv; cbn [negb].
    + intros _. apply validate_ok. now apply Z.eqb_eq.
    + intros H. injection H as H _ _. apply Z.eqb_neq in Hv. congruence.
  - intros h v Hs Hne.
    assert (Hc : Db.create_message (Some user) (Some body) w
                 = (-2, None, w)).
    { unfold Db.create_message. rewrite Hdb, Hlen. cbn [negb].
      rewrite (validate_denied user h v w Hs Hne). reflexivity. }
    rewrite Hc. split; reflexivity.
Qed.

Lemma C2_witness :
  Db.create_message (Some "bob") (Some "hi") alice_holds
  = (-2, None, alice_holds).
Proof.
  refine (proj1 (proj2 (C2_ownership_gated_create "bob" "hi" alice_holds
                          eq_refl _ _) "alice" 0 eq_refl _)).
  - unfold MAX_USERNAME_LEN, MAX_MESSAGE_LEN, strlen; simpl; lia.
  - unfold MAX_USERNAME_LEN, MAX_MESSAGE_LEN, strlen; simpl; lia.
  - intros H; discriminate H.
Defined.

(** ** C3: privilege before everything *)

(** C3 does not hold of the dispatcher.  "mallory" is not on the
    allow-list, and [admin_get_logs] turns that user away with
    permission-denied (-2) in every state; but a LOGS request in that
    name is answered with status 0 and the audit rows, and a TOGGLE
    request in that name is answered with status 0 and switches writing
    off. *)
Theorem C3_dispatcher_skips_privilege_check :
  Admin.is_admin_user (Some "mallory") = false
  /\ (forall (w : world) (page limit : Z) (out_json : nat),
         Admin.admin_get_logs (Some "mallory") page limit out_json w
         = Returns (-2, [], w))
  /\ Handlers.handle_command (user_request "LOGS" "mallory" false)
                             alice_posted
     = Returns
         (0,
          Handlers.OutOk
            (Handlers.LogsData
               [(1, mk_log 0 "CREATE" (Some "alice") (Some "hi") 0)]),
          alice_posted)
  /\ exists w' : world,
       Handlers.handle_command (user_request "TOGGLE" "mallory" false)
                               alice_posted
       = Returns (0, Handlers.OutOk (Handlers.WriterEnabledData false), w')
       /\ writer_enabled (g_semaphore_state w') = false.
Proof.
  split; [reflexivity|]. split; [intros; reflexivity|].
  split; [vm_compute; reflexivity|].
  eexists. split; vm_compute; reflexivity.
Qed.

(** ** C4: audit completeness *)

Lemma log_transaction_appends (a : string) (u c : option string) (v : Z)
  (w : world) :
  audit_ready w -> v = 0 \/ v = 1 ->
  Db.check_transaction a c v = true ->
  appended (mk_log (now w) a u c v) w (Db.log_transaction (Some a) u c v w).
Proof.
  intros (_ & Hdb & Hl & Hf & Hok) Hv Hc.
  unfold Db.log_transaction, Logger.log_transaction, Db.insert_log_entry.
  rewrite Hl, Hdb, Hok, Hc. cbn [negb andb].
  replace (negb (v =? 0) && negb (v =? 1)) with false
    by (destruct Hv; subst v; reflexivity).
  unfold Logger.file_append, appended, audit_records, audit_rows.
  cbn [logger set_db db]. destruct (log_file (logger w)); [|congruence].
  cbn. split; [reflexivity|]. now rewrite map_app.
Qed.

Lemma check_short_content (a : string) (size : nat) (text : string)
  (v : Z) :
  existsb (strcmp_eq a) Db.transaction_actions = true ->
  (size <= 2001)%nat -> v = 0 \/ v = 1 ->
  Db.check_transaction a (Some (snprintf size text)) v = true.
Proof.
  intros Ha Hs Hv. unfold Db.check_transaction. rewrite Ha. cbn [andb].
  apply andb_true_iff. split.
  - apply Nat.leb_le. pose proof (strlen_snprintf size text).
    pose proof (sql_length_le (snprintf size text)). lia.
  - destruct Hv; subst v; reflexivity.
Qed.

Lemma log_after_messages_appends (a : string) (u c : option string)
  (v : Z) (rows : list message_row) (seq : Z) (w : world) :
  audit_ready w -> v = 0 \/ v = 1 ->
  Db.check_transaction a c v = true ->
  appended (mk_log (now w) a u c v) w
    (Db.log_transaction (Some a) u c v
       (set_db (Db.set_messages rows seq (db w)) w)).
Proof.
  intros Hr Hv Hc.
  exact (log_transaction_appends a u c v
           (set_db (Db.set_messages rows seq (db w)) w) Hr Hv Hc).
Qed.

Lemma status_after_validate (u : string) (w w1 : world) :
  validate_semaphore_ownership u w = 0 -> permit w1 = permit w ->
  Semaphore.value_read w1 (Semaphore.get_semaphore_status w1) = 0.
Proof.
  intros Hv Hp. rewrite (status_permit w w1 Hp).
  apply validate_ok in Hv. rewrite Hv. reflexivity.
Qed.

Lemma status_ready (w : world) :
  g_initialized w = true ->
  exists h v, Semaphore.get_semaphore_status w = Semaphore.StatusOk h v
              /\ (v = 0 \/ v = 1).
Proof.
  intros Hi. unfold Semaphore.get_semaphore_status. rewrite Hi.
  cbn [negb]. destruct (negb _); eauto.
Qed.

Lemma create_message_logged (u m : option string) (w w' : world)
  (ts : option timestamp) :
  audit_ready w -> Db.create_message u m w = (0, ts, w') -> one_entry w w'.
Proof.
  intros Hr H. unfold Db.create_message in H.
  destruct (negb (g_db_initialized (db w))); [discriminate|].
  destruct u as [u|]; [|discriminate]. destruct m as [m|]; [|discriminate].
  destruct (_ || _) eqn:Hlen in H; [discriminate|].
  destruct (validate_semaphore_ownership u w =? 0) eqn:Hv;
    cbn [negb] in H;
    [|apply Z.eqb_neq in Hv; injection H as H _ _; congruence].
  apply Z.eqb_eq in Hv.
  unfold Db.step_create_message in H.
  destruct (chat_step_ok (db w) && Db.check_username u
            && Db.check_message m) eqn:Hstep;
    cbn [negb] in H; [|discriminate].
  rewrite (status_after_validate u w) in H by (exact Hv || reflexivity).
  injection H as _ <-.
  exists (mk_log (now w) "CREATE" (Some u) (Some m) 0), u.
  split; [|split; [left; reflexivity|now apply validate_ok]].
  apply log_after_messages_appends; [exact Hr|left; reflexivity|].
  apply andb_true_iff in Hstep as [_ Hm].
  unfold Db.check_message in Hm. apply andb_true_iff in Hm as [_ Hm].
  unfold Db.check_transaction. cbn. now rewrite Hm.
Qed.

Lemma update_message_logged (i : Z) (u m : option string) (w w' : world) :
  audit_ready w -> Db.update_message i u m w = (0, w') -> one_entry w w'.
Proof.
  intros Hr H. unfold Db.update_message in H.
  destruct (negb (g_db_initialized (db w))); [discriminate|].
  destruct u as [u|]; [|discriminate]. destruct m as [m|]; [|discriminate].
  destruct (_ || _) eqn:Hlen in H; [discriminate|].
  destruct (validate_semaphore_ownership u w =? 0) eqn:Hv;
    cbn [negb] in H;
    [|apply Z.eqb_neq in Hv; injection H as H _; congruence].
  apply Z.eqb_eq in Hv.
  unfold Db.step_update_message in H.
  destruct (chat_step_ok (db w) && _) eqn:Hstep in H;
    cbn [negb] in H; [|discriminate].
  destruct (_ =? 0)%nat in H; [discriminate|].
  rewrite (status_after_validate u w) in H by (exact Hv || reflexivity).
  injection H as <-.
  eexists _, u. split.
  - apply log_after_messages_appends; [exact Hr|left; reflexivity|].
    apply check_short_content; [reflexivity|lia|left; reflexivity].
  - split; [left; reflexivity|now apply validate_ok].
Qed.

Lemma delete_message_logged (i : Z) (u : option string) (w w' : world) :
  audit_ready w -> Db.delete_message i u w = (0, w') -> one_entry w w'.
Proof.
  intros Hr H. unfold Db.delete_message in H.
  destruct (negb (g_db_initialized (db w))); [discriminate|].
  destruct u as [u|]; [|discriminate].
  destruct (_ || _) eqn:Hlen in H; [discriminate|].
  destruct (validate_semaphore_ownership u w =? 0) eqn:Hv;
    cbn [negb] in H;
    [|apply Z.eqb_neq in Hv; injection H as H _; congruence].
  apply Z.eqb_eq in Hv.
  unfold Db.step_delete_message in H.
  destruct (chat_step_ok (db w)); cbn [negb] in H; [|discriminate].
  destruct (_ =? 0)%nat in H; [discriminate|].
  rewrite (status_after_validate u w) in H by (exact Hv || reflexivity).
  injection H as <-.
  eexists _, u. split.
  - apply log_after_messages_appends; [exact Hr|left; reflexivity|].
    apply check_short_content; [reflexivity|lia|left; reflexivity].
  - split; [left; reflexivity|now apply validate_ok].
Qed.

Lemma admin_get_logs_logged (a : option string) (p l : Z) (n : nat)
  (w w' : world) (rows : list (Z * log_entry)) :
  audit_ready w ->
  Admin.admin_get_logs a p l n w = Returns (0, rows, w') ->
  one_entry w w'.
Proof.
  intros Hr H.
  destruct (admin_get_logs_returns _ _ _ _ _ _ _ _ H)
    as [(H0 & _)|(admin & -> & _ & _ & _ & ->)]; [congruence|].
  destruct (status_ready w (proj1 Hr)) as (h & v & Hs & Hv).
  rewrite Hs. cbn [Semaphore.value_read].
  eexists _, h. split.
  - apply log_transaction_appends; [exact Hr|exact Hv|].
    apply check_short_content; [reflexivity|lia|exact Hv].
  - split; [exact Hv|exact Hs].
Qed.

Lemma admin_get_system_status_logged (a : option string) (w w' : world)
  (ss : option Admin.system_status) :
  audit_ready w -> Admin.admin_get_system_status a w = (0, ss, w') ->
  one_entry w w'.
Proof.
  intros Hr H. unfold Admin.admin_get_system_status in H.
  destruct a as [a|]; [|discriminate].
  destruct (_ || _) in H; [discriminate|].
  destruct (negb _) in H; [discriminate|].
  destruct (status_ready w (proj1 Hr)) as (h & v & Hs & Hv).
  rewrite Hs in H. injection H as _ <-.
  eexists _, h. split.
  - apply log_transaction_appends; [exact Hr|exact Hv|].
    unfold Db.check_transaction. destruct Hv; subst v; reflexivity.
  - split; [exact Hv|exact Hs].
Qed.

Lemma force_release_logged (a : option string) (w w' : world) :
  audit_ready w -> Admin.admin_force_release_semaphore a w = (0, w') ->
  one_entry w w'
  \/ Semaphore.get_semaphore_status w = Semaphore.StatusOk "" 1 /\ w' = w.
Proof.
  intros Hr H. unfold Admin.admin_force_release_semaphore in H.
  destruct a as [a|]; [|discriminate].
  destruct (_ || _) in H; [discriminate|].
  destruct (negb _) in H; [discriminate|].
  destruct (Semaphore.get_semaphore_status w) as [c|h v] eqn:Hs;
    [discriminate|].
  destruct (status_values w h v Hs) as [[[-> Hh]|[-> ->]] _];
    cbn [Z.eqb] in H; [|right; injection H as <-; auto].
  left.
  match type of H with
  | context [Semaphore.release_writer (Some h) ?w1] =>
      assert (Ha : appended
                     (mk_log (now w) "ADMIN_ACTION" (Some a)
                        (Some (snprintf 256
                                 ("Admin forced release of semaphore from user '"
                                  ++ h ++ "'"))) 0) w w1);
      [|destruct (release_writer_cases (Some h) w1)
          as [(n & _ & _ & _ & _ & He)|(c & Hc & He)];
        rewrite He in H]
  end.
  - apply log_transaction_appends; [exact Hr|left; reflexivity|].
    apply check_short_content; [reflexivity|lia|left; reflexivity].
  - cbn [negb Z.eqb] in H. injection H as <-.
    eexists _, h. split; [exact Ha|]. split; [left; reflexivity|].
    exact Hs.
  - destruct (c =? 0) eqn:Hc0; cbn [negb] in H; [|discriminate].
    apply Z.eqb_eq in Hc0. contradiction.
Qed.

(** A call that answers invalid-input has changed nothing. *)
Lemma create_message_invalid (u m : option string) (w : world) :
  fst (fst (Db.create_message u m w)) = -4 ->
  snd (Db.create_message u m w) = w.
Proof.
  unfold Db.create_message, Db.step_create_message. invalid_by_cases.
Qed.

Lemma update_message_invalid (i : Z) (u m : option string) (w : world) :
  fst (Db.update_message i u m w) = -4 ->
  snd (Db.update_message i u m w) = w.
Proof.
  unfold Db.update_message, Db.step_update_message. invalid_by_cases.
Qed.

Lemma delete_message_invalid (i : Z) (u : option string) (w : world) :
  fst (Db.delete_message i u w) = -4 -> snd (Db.delete_message i u w) = w.
Proof.
  unfold Db.delete_message, Db.step_delete_message. invalid_by_cases.
Qed.

Lemma list_messages_invalid (p l : Z) (n : nat) (w w' : world)
  (rows : list message_row) :
  Db.list_messages p l n w = Returns (-4, rows, w') -> w' = w.
Proof.
  intros H.
  destruct (list_messages_returns _ _ _ _ _ _ _ H)
    as [(_ & _ & _ & ->)|[(_ & _ & _ & _ & ->)|(H0 & _)]];
    try reflexivity; discriminate.
Qed.

Lemma admin_get_logs_invalid (a : option string) (p l : Z) (n : nat)
  (w w' : world) (rows : list (Z * log_entry)) :
  Admin.admin_get_logs a p l n w = Returns (-4, rows, w') -> w' = w.
Proof.
  intros H.
  destruct (admin_get_logs_returns _ _ _ _ _ _ _ _ H)
    as [(_ & _ & ->)|(admin & _ & _ & H0 & _)];
    [reflexivity|discriminate].
Qed.

Lemma admin_get_system_status_invalid (a : option string) (w : world) :
  fst (fst (Admin.admin_get_system_status a w)) = -4 ->
  snd (Admin.admin_get_system_status a w) = w.
Proof. unfold Admin.admin_get_system_status. invalid_by_cases. Qed.

Lemma force_release_invalid (a : option string) (w : world) :
  fst (Admin.admin_force_release_semaphore a w) = -4 ->
  snd (Admin.admin_force_release_semaphore a w) = w.
Proof. unfold Admin.admin_force_release_semaphore. invalid_by_cases. Qed.

Lemma call_invalid_input (r : request) (w w' : world) :
  match r with Dispatch _ => False | _ => True end ->
  run r w = Returns (-4, w') -> w' = w.
Proof.
  intros Hr H. apply run_returns in H.
  destruct r; try contradiction.
  - destruct (try_acquire_writer_cases username w)
      as [(a & _ & _ & _ & _ & _ & He)|(c & _ & He)];
      rewrite He in H; [discriminate|now injection H].
  - destruct (release_writer_cases username w)
      as [(a & _ & _ & _ & _ & He)|(c & _ & He)];
      rewrite He in H; [discriminate|now injection H].
  - destruct (admin_toggle_writer_cases enabled admin_user w)
      as [(a & _ & _ & _ & He)|(c & _ & He)];
      rewrite He in H; [discriminate|now injection H].
  - destruct H as [ts H].
    pose proof (create_message_invalid username message w) as Hi.
    rewrite H in Hi. now apply Hi.
  - pose proof (update_message_invalid id username message w) as Hi.
    rewrite H in Hi. now apply Hi.
  - pose proof (delete_message_invalid id username w) as Hi.
    rewrite H in Hi. now apply Hi.
  - destruct H as [rows H]. exact (list_messages_invalid _ _ _ _ _ _ H).
  - destruct H as [rows H]. exact (admin_get_logs_invalid _ _ _ _ _ _ _ H).
  - destruct H as [ss H].
    pose proof (admin_get_system_status_invalid admin_user w) as Hi.
    rewrite H in Hi. now apply Hi.
  - pose proof (force_release_invalid admin_user w) as Hi.
    rewrite H in Hi. now apply Hi.
  - destruct H; discriminate.
Qed.

Lemma run_invalid_input (r : request) (w w' : world) :
  run r w = Returns (-4, w') -> w' = w.
Proof.
  intros H.
  destruct r; try (refine (call_invalid_input _ w w' _ H); exact I).
  destruct (dispatch_world json_input w (-4) w' H)
    as [->|(cmd & r & _ & Hr & H')]; [reflexivity|].
  exact (call_invalid_input r w w' (route_not_dispatch cmd r Hr) H').
Qed.

(** C4, as the claim states it, fails: a successful TryAcquire writes
    no audit entry, and neither does the successful force-release of a
    free permit. *)
Lemma C4_counterexample :
  ~ (forall (u : option string) (w w' : world),
        audit_ready w -> reachable w ->
        run (TryAcquire u) w = Returns (0, w') ->
        exists e : log_entry, appended e w w')
  /\ ~ (forall (admin : option string) (w w' : world),
           audit_ready w -> reachable w ->
           run (ForceReleaseSemaphore admin) w = Returns (0, w') ->
           exists e : log_entry, appended e w w').
Proof.
  assert (Hr : audit_ready fresh).
  { unfold audit_ready, fresh; cbn.
    repeat split; try reflexivity. discriminate. }
  pose proof (reachable_boot fresh fresh_booted) as Hb.
  split; intros H.
  - destruct (H (Some "alice") fresh _ Hr Hb eq_refl) as (e & He & _).
    vm_compute in He. destruct e; discriminate He.
  - destruct (H (Some "admin") fresh _ Hr Hb eq_refl) as (e & He & _).
    vm_compute in He. destruct e; discriminate He.
Qed.

(** The same holds of a successful Release and of a successful
    SetEnabled. *)
Example release_and_toggle_write_no_entry :
  run (Release (Some "alice")) alice_holds = Returns (0, fresh)
  /\ exists w' : world,
       run (SetEnabled false (Some "admin")) fresh = Returns (0, w')
       /\ audit_unchanged fresh w'.
Proof.
  split; [reflexivity|]. eexists. split; [reflexivity|].
  vm_compute. split; reflexivity.
Qed.

(** C4, amended.  With the daemon started, the audit table taking rows
    and the log file open: every successful CreateMessage, UpdateMessage,
    DeleteMessage, admin GetLogs and admin GetSystemStatus, and every
    successful ForceReleaseSemaphore of a held permit, appends exactly
    one entry: one row to the audit table and the same record to the log
    file; its permit value is 0 or 1 and is the value Status() reported
    when the call was made.  A successful ForceReleaseSemaphore of a free
    permit writes no entry and changes nothing.  A request answered with
    invalid-input (-4), whatever its kind and also through the
    dispatcher, leaves the state, both audit sinks included, as it
    was. *)
Theorem C4_audit_completeness :
  forall (r : request) (w : world) (st : Z) (w' : world),
    audit_ready w ->
    run r w = Returns (st, w') ->
    (logged r = true -> st = 0 ->
     (free_force_release r w -> w' = w /\ audit_unchanged w w')
     /\ (~ free_force_release r w -> one_entry w w'))
    /\ (st = -4 -> w' = w /\ audit_unchanged w w').
Proof.
  intros r w st w' Hr Hrun. split.
  - intros Hl ->. pose proof (run_returns r w 0 w' Hrun) as H.
    assert (Hcases : one_entry w w'
                     \/ free_force_release r w /\ w' = w).
    { destruct r; try discriminate Hl.
      - left. destruct H as [ts H]. eapply create_message_logged; eauto.
      - left. eapply update_message_logged; eauto.
      - left. eapply delete_message_logged; eauto.
      - left. destruct H as [rows H]. eapply admin_get_logs_logged; eauto.
      - left. destruct H as [ss H].
        eapply admin_get_system_status_logged; eauto.
      - destruct (force_release_logged admin_user w w' Hr H)
          as [Ho|[H1 H2]]; [left; exact Ho|right].
        split; [|exact H2]. split; [now exists admin_user|exact H1]. }
    split.
    + intros Hfree.
      assert (Hw : w' = w).
      { destruct Hcases as [Ho|[_ Hw]]; [|exact Hw].
        destruct Hfree as [[admin ->] Hs].
        unfold Admin.admin_force_release_semaphore in H.
        destruct admin as [a|]; [|discriminate].
        destruct (_ || _) in H; [discriminate|].
        destruct (negb _) in H; [discriminate|].
        rewrite Hs in H. cbn [Z.eqb] in H. now injection H. }
      subst w'. split; [reflexivity|split; reflexivity].
    + intros Hn. destruct Hcases as [Ho|[Hf _]]; [exact Ho|contradiction].
  - intros ->. rewrite (run_invalid_input r w w' Hrun).
    split; [reflexivity|split; reflexivity].
Qed.

Lemma C4_witness :
  exists w' : world,
    run (CreateMessage (Some "alice") (Some "hi")) alice_holds
    = Returns (0, w')
    /\ one_entry alice_holds w'.
Proof.
  eexists. split; [reflexivity|].
  refine (proj2 (proj1 (C4_audit_completeness
                          (CreateMessage (Some "alice") (Some "hi"))
                          alice_holds 0 _ _ eq_refl)
                       eq_refl eq_refl) _).
  - unfold audit_ready, alice_holds, fresh; cbn.
    repeat split; try reflexivity. intros H; discriminate H.
  - intros [[admin H] _]. discriminate H.
Defined.

(** ** C5: release needs ownership, and fails without a trace *)

(** C5.  On an initialised arbiter and for a non-empty identity:
    Release fails with permission-denied (-2) whenever the current holder
    differs from the identity, and then the state, hence what Status()
    reports, is what it was; when the identity holds the permit, Release
    returns 0 and the permit is free afterwards. *)
Theorem C5_release_ownership :
  forall (identity : string) (w : world),
    g_initialized w = true ->
    identity <> "" ->
    (current_holder (g_semaphore_state w) <> identity ->
     Semaphore.release_writer (Some identity) w = (-2, w)
     /\ Semaphore.get_semaphore_status
          (snd (Semaphore.release_writer (Some identity) w))
        = Semaphore.get_semaphore_status w)
    /\ (current_holder (g_semaphore_state w) = identity ->
        fst (Semaphore.release_writer (Some identity) w) = 0
        /\ permit_free (snd (Semaphore.release_writer (Some identity) w))
        /\ Semaphore.get_semaphore_status
             (snd (Semaphore.release_writer (Some identity) w))
           = Semaphore.StatusOk "" 1).
Proof.
  intros identity w Hi Hne.
  apply strlen_nonzero in Hne.
  unfold Semaphore.release_writer. rewrite Hi, Hne. cbn [negb].
  unfold strcmp_eq. split.
  - intros Hd. apply String.eqb_neq in Hd. rewrite Hd. cbn [negb snd].
    split; reflexivity.
  - intros He. apply String.eqb_eq in He. rewrite He. cbn [negb fst snd].
    assert (Hf : permit_free
                   (set_sem
                      (Semaphore.mutex_unlock
                         (Semaphore.set_holder "" (g_semaphore_state w)))
                      w)).
    { split; [exact Hi|split; reflexivity]. }
    split; [reflexivity|]. split; [exact Hf|now apply status_free].
Qed.

Lemma C5_witness :
  Semaphore.release_writer (Some "bob") alice_holds = (-2, alice_holds).
Proof.
  refine (proj1 (proj1 (C5_release_ownership "bob" alice_holds eq_refl _)
                   _)).
  - intros H; discriminate H.
  - intros H; discriminate H.
Defined.

(** ** C6: the global disable gate *)

Lemma acquire_free_enabled (u : string) (w : world) :
  g_initialized w = true -> identity_ok u ->
  write_mutex (g_semaphore_state w) = false ->
  writer_enabled (g_semaphore_state w) = true ->
  Semaphore.try_acquire_writer (Some u) w
  = (0, set_sem (mk_semaphore_state true u true) w).
Proof.
  intros Hi Hu Hm He.
  destruct (identity_ok_checks u Hu) as [H0 H1].
  unfold Semaphore.try_acquire_writer, Semaphore.mutex_trylock.
  rewrite Hi, H0, H1, He, Hm. cbn.
  now rewrite identity_ok_strncpy.
Qed.

(** C6.  On an initialised arbiter, for a non-empty admin name and a
    well-formed identity: SetEnabled(false) returns 0, and from then on,
    as long as the flag stays off, every TryAcquire returns
    permission-denied (-2) and changes nothing; after SetEnabled(true)
    the TryAcquire of a free permit returns 0 and makes the identity the
    holder; and no SetEnabled call changes the mutex, the holder or what
    Status() reports. *)
Theorem C6_global_disable_gate :
  forall (admin u : string) (w : world),
    g_initialized w = true ->
    admin <> "" ->
    identity_ok u ->
    (fst (Semaphore.admin_toggle_writer false (Some admin) w) = 0
     /\ forall w' : world,
          g_initialized w' = true ->
          writer_enabled (g_semaphore_state w') = false ->
          Semaphore.try_acquire_writer (Some u) w' = (-2, w'))
    /\ writer_enabled
         (g_semaphore_state
            (snd (Semaphore.admin_toggle_writer false (Some admin) w)))
       = false
    /\ (permit_free w ->
        fst (Semaphore.try_acquire_writer (Some u)
               (snd (Semaphore.admin_toggle_writer true (Some admin) w)))
        = 0
        /\ held_by u
             (snd (Semaphore.try_acquire_writer (Some u)
                     (snd (Semaphore.admin_toggle_writer true (Some admin)
                                                         w)))))
    /\ forall b : bool,
         let w' := snd (Semaphore.admin_toggle_writer b (Some admin) w) in
         current_holder (g_semaphore_state w')
         = current_holder (g_semaphore_state w)
         /\ write_mutex (g_semaphore_state w')
            = write_mutex (g_semaphore_state w)
         /\ Semaphore.get_semaphore_status w'
            = Semaphore.get_semaphore_status w.
Proof.
  intros admin u w Hi Ha Hu.
  apply strlen_nonzero in Ha.
  assert (Ht : forall b,
             Semaphore.admin_toggle_writer b (Some admin) w
             = (0, set_sem (Semaphore.set_enabled b (g_semaphore_state w))
                           w)).
  { intros b. unfold Semaphore.admin_toggle_writer.
    rewrite Hi, Ha. reflexivity. }
  destruct (identity_ok_checks u Hu) as [H0 H1].
  split; [split|split; [|split]].
  - now rewrite Ht.
  - intros w' Hi' Hd. unfold Semaphore.try_acquire_writer.
    rewrite Hi', H0, H1, Hd. reflexivity.
  - now rewrite Ht.
  - intros (_ & Hm & Hh). rewrite Ht. cbn [snd].
    rewrite acquire_free_enabled; try assumption; try reflexivity.
    cbn [fst snd]. split; [reflexivity|].
    split; [exact Hi|split; [reflexivity|split; [reflexivity|exact Hu]]].
  - intros b w'. subst w'. rewrite Ht. cbn [snd].
    split; [reflexivity|]. split; reflexivity.
Qed.

Lemma C6_witness :
  Semaphore.try_acquire_writer (Some "bob")
    (snd (Semaphore.admin_toggle_writer false (Some "admin") fresh))
  = (-2, snd (Semaphore.admin_toggle_writer false (Some "admin") fresh)).
Proof.
  refine (proj2 (proj1 (C6_global_disable_gate "admin" "bob" fresh
                          eq_refl _ _))
                (snd (Semaphore.admin_toggle_writer false (Some "admin")
                                                    fresh))
                eq_refl eq_refl).
  - intros H; discriminate H.
  - unfold identity_ok, MAX_USERNAME_LEN, strlen; simpl; lia.
Defined.

(** ** C7: pagination bounds *)

Lemma pagination_in_range (page limit : Z) :
  1 <= page -> 1 <= limit <= 100 ->
  (page <? 1) || (limit <? 1) || (limit >? 100) = false.
Proof.
  intros Hp Hl.
  replace (page <? 1) with false by (symmetry; apply Z.ltb_ge; lia).
  replace (limit <? 1) with false by (symmetry; apply Z.ltb_ge; lia).
  replace (limit >? 100) with false
    by (symmetry; rewrite Z.gtb_ltb; apply Z.ltb_ge; lia).
  reflexivity.
Qed.

(** With page and limit in range, [list_messages] overruns its buffer
    when the text of the page does not fit, and otherwise returns 0 and
    the page. *)
Lemma list_messages_accepts (page limit : Z) (out_json : nat) (w : world) :
  g_db_initialized (db w) = true ->
  1 <= page -> 1 <= limit <= 100 ->
  (Db.list_messages page limit out_json w = Overrun
   <-> (out_json <= Db.messages_json_strlen (page_of_messages page limit w))
       %nat)
  /\ (forall st rows w',
         Db.list_messages page limit out_json w = Returns (st, rows, w') ->
         st = 0 /\ rows = page_of_messages page limit w)
  /\ ((Db.messages_json_strlen (page_of_messages page limit w) < out_json)
      %nat ->
      exists w',
        Db.list_messages page limit out_json w
        = Returns (0, page_of_messages page limit w, w')).
Proof.
  intros Hdb Hp Hl. unfold Db.list_messages, page_of_messages.
  rewrite Hdb, (pagination_in_range page limit Hp Hl). cbn [negb].
  destruct (out_json <=? _)%nat eqn:Hn;
    [apply Nat.leb_le in Hn|apply Nat.leb_gt in Hn].
  - split; [split; [intros _; exact Hn|reflexivity]|].
    split; [discriminate|lia].
  - split; [split; [discriminate|lia]|].
    split; [intros st rows w' H; injection H as <- <- _; auto|].
    intros _. eauto.
Qed.

Lemma parse_list_request (page limit : Z) :
  Handlers.parse_json_command (list_request page limit)
  = (0,
     Handlers.mk_command Handlers.CMD_LIST_MESSAGES "" "" 0
       (if page <? 1 then 1 else page)
       (if (if limit <? 1 then 1 else limit) >? 100 then 100
        else if limit <? 1 then 1 else limit)
       false).
Proof. reflexivity. Qed.

Lemma clamped (page limit : Z) :
  (if page <? 1 then 1 else page) = Z.max 1 page
  /\ (if (if limit <? 1 then 1 else limit) >? 100 then 100
      else if limit <? 1 then 1 else limit)
     = Z.min 100 (Z.max 1 limit).
Proof.
  split.
  - destruct (Z.ltb_spec page 1); lia.
  - destruct (Z.ltb_spec limit 1).
    + replace (1 >? 100) with false by reflexivity. lia.
    + rewrite Z.gtb_ltb. destruct (Z.ltb_spec 100 limit); lia.
Qed.

(** A LIST request is the storage call with the clamped page and limit
    and the response buffer. *)
Lemma handle_list_request (page limit : Z) (w : world) :
  Handlers.handle_command (list_request page limit) w
  = match Db.list_messages (Z.max 1 page) (Z.min 100 (Z.max 1 limit))
                           MAX_JSON_LEN w with
    | Overrun => Overrun
    | Returns (st, rows, w1) =>
        if st =? 0
        then Returns (st, Handlers.OutOk (Handlers.MessagesData rows), w1)
        else if st =? -4
        then Returns (st, Handlers.OutError
                            "Invalid page or limit parameters", w1)
        else if st =? -5
        then Returns (st, Handlers.OutError "Database error", w1)
        else Returns (st, Handlers.OutError "Failed to list messages", w1)
    end.
Proof.
  unfold Handlers.handle_command.
  rewrite parse_list_request. cbn [Z.eqb negb].
  unfold Handlers.execute_command.
  cbn [Handlers.type Handlers.page Handlers.limit].
  destruct (clamped page limit) as [-> ->].
  destruct (Db.list_messages _ _ _ w) as [[[st rows] w1]|]; [|reflexivity].
  destruct (st =? 0) eqn:H0; cbn [Handlers.status Handlers.data];
    rewrite ?H0; [reflexivity|].
  destruct (st =? -4); cbn [Handlers.status Handlers.error];
    rewrite ?H0; [reflexivity|].
  destruct (st =? -5); cbn [Handlers.status Handlers.error];
    rewrite ?H0; reflexivity.
Qed.

(** C7, as the claim states it, fails: a LIST request with limit 0, and
    one with limit 150, is accepted with status 0. *)
Lemma C7_counterexample :
  ~ (forall (w : world) (page limit : Z),
        booted w -> limit = 0 \/ limit = 150 ->
        exists out w',
          Handlers.handle_command (list_request page limit) w
          = Returns (-4, out, w')).
Proof.
  intros H.
  destruct (H fresh 1 0 fresh_booted (or_introl eq_refl)) as (out & w' & H').
  vm_compute in H'. discriminate H'.
Qed.

(** C7, amended.  The decoder clamps the page of a LIST request to at
    least 1 and its limit to 1..100, so limit 0 is read as 1 and limit
    150 as 100.  On an initialised store such a request is never
    answered invalid-input: it is answered with status 0 when the JSON
    text of the page fits the response buffer of 8192 bytes, and
    overruns that buffer when it does not.  [list_messages] called
    directly with limit 0 or limit 150 returns invalid-input (-4) and
    changes nothing, whatever its buffer; with page 1 and limit 100 it
    reads the first 100 rows from offset 0, and returns them with status
    0 exactly when their text fits its buffer. *)
Theorem C7_pagination_bounds :
  forall w : world,
    g_db_initialized (db w) = true ->
    (forall page limit : Z,
        exists cmd : Handlers.command_t,
          Handlers.parse_json_command (list_request page limit) = (0, cmd)
          /\ Handlers.type cmd = Handlers.CMD_LIST_MESSAGES
          /\ Handlers.page cmd = Z.max 1 page
          /\ Handlers.limit cmd = Z.min 100 (Z.max 1 limit))
    /\ (forall page limit : Z,
           let rows :=
             page_of_messages (Z.max 1 page) (Z.min 100 (Z.max 1 limit)) w in
           (forall st out w',
               Handlers.handle_command (list_request page limit) w
               = Returns (st, out, w') ->
               st = 0 /\ out = Handlers.OutOk (Handlers.MessagesData rows))
           /\ ((Db.messages_json_strlen rows < MAX_JSON_LEN)%nat ->
               exists w',
                 Handlers.handle_command (list_request page limit) w
                 = Returns (0, Handlers.OutOk (Handlers.MessagesData rows),
                            w'))
           /\ ((MAX_JSON_LEN <= Db.messages_json_strlen rows)%nat ->
               Handlers.handle_command (list_request page limit) w
               = Overrun))
    /\ (forall (page : Z) (out_json : nat),
           Db.list_messages page 0 out_json w = Returns (-4, [], w)
           /\ Db.list_messages page 150 out_json w = Returns (-4, [], w))
    /\ page_offset 1 100 = 0
    /\ page_of_messages 1 100 w
       = (if chat_step_ok (db w)
          then firstn 100 (skipn 0 (order_by_desc msg_created_at
                                                  (messages (db w))))
          else [])
    /\ (forall out_json : nat,
           (forall st rows w',
               Db.list_messages 1 100 out_json w = Returns (st, rows, w') ->
               st = 0 /\ rows = page_of_messages 1 100 w)
           /\ ((Db.messages_json_strlen (page_of_messages 1 100 w)
                < out_json)%nat ->
               exists w',
                 Db.list_messages 1 100 out_json w
                 = Returns (0, page_of_messages 1 100 w, w'))).
Proof.
  intros w Hdb.
  split; [|split; [|split; [|split; [|split]]]].
  - intros page limit. eexists. split; [apply parse_list_request|].
    cbn [Handlers.type Handlers.page Handlers.limit].
    destruct (clamped page limit) as [-> ->]. repeat split.
  - intros page limit rows. subst rows.
    rewrite handle_list_request.
    destruct (list_messages_accepts (Z.max 1 page)
                (Z.min 100 (Z.max 1 limit)) MAX_JSON_LEN w Hdb)
      as (Hover & Hret & Hfit); try lia.
    split; [|split].
    + intros st out w'.
      destruct (Db.list_messages _ _ _ w) as [[[s rows] w1]|];
        [|discriminate].
      destruct (Hret s rows w1 eq_refl) as [-> ->]. cbn [Z.eqb].
      intros H. injection H as <- <- _. auto.
    + intros Hn. destruct (Hfit Hn) as (w' & ->). cbn [Z.eqb]. eauto.
    + intros Hn. apply Hover in Hn. now rewrite Hn.
  - intros page out_json. unfold Db.list_messages. rewrite Hdb. cbn [negb].
    replace (0 <? 1) with true by reflexivity.
    replace (150 >? 100) with true by reflexivity.
    rewrite !orb_true_r. split; reflexivity.
  - reflexivity.
  - reflexivity.
  - intros out_json.
    destruct (list_messages_accepts 1 100 out_json w Hdb)
      as (_ & Hret & Hfit); try lia.
    split; assumption.
Qed.

Lemma C7_witness :
  exists w' : world,
    Handlers.handle_command (list_request 1 150) alice_posted
    = Returns
        (0,
         Handlers.OutOk
           (Handlers.MessagesData (page_of_messages 1 100 alice_posted)),
         w').
Proof.
  refine (proj1 (proj2 (proj1 (proj2 (C7_pagination_bounds alice_posted
                                        eq_refl)) 1 150)) _).
  vm_compute. lia.
Defined.

(** The overrun happens: a page of five messages of 2000 letters takes
    more than 8192 bytes of JSON text, and the LIST request for it has
    no answer. *)
Example full_page_overruns_response :
  List.length (messages (db crowded)) = 5%nat
  /\ (MAX_JSON_LEN
      <= Db.messages_json_strlen (page_of_messages 1 10 crowded))%nat
  /\ Handlers.handle_command (list_request 1 10) crowded = Overrun.
Proof.
  split; [vm_compute; reflexivity|]. split.
  - apply Nat.leb_le. vm_compute. reflexivity.
  - vm_compute. reflexivity.
Qed.

(** ** C8: force-release of a free permit *)

Lemma force_release_free (admin : string) (w : world) :
  Admin.is_admin_user (Some admin) = true -> permit_free w ->
  Admin.admin_force_release_semaphore (Some admin) w = (0, w).
Proof.
  intros Ha Hf. unfold Admin.admin_force_release_semaphore.
  destruct (is_admin_user_short admin Ha) as [-> ->].
  rewrite Ha, (status_free w Hf). reflexivity.
Qed.

(** C8, as the claim states it, fails: the force-release of a free
    permit appends no ADMIN_ACTION entry. *)
Lemma C8_counterexample :
  ~ (forall (admin : string) (w : world),
        Admin.is_admin_user (Some admin) = true ->
        reachable w -> permit_free w ->
        fst (Admin.admin_force_release_semaphore (Some admin) w) = 0
        /\ exists e : log_entry,
             audit_records
               (snd (Admin.admin_force_release_semaphore (Some admin) w))
             = (audit_records w ++ [e])%list
             /\ log_action e = "ADMIN_ACTION").
Proof.
  intros H.
  destruct (H "admin" fresh eq_refl (reachable_boot fresh fresh_booted))
    as (_ & e & He & _).
  - split; [reflexivity|split; reflexivity].
  - vm_compute in He. discriminate He.
Qed.

(** C8, amended.  ForceReleaseSemaphore called by a privileged identity
    while the permit is free returns 0 and leaves the whole state as it
    was: the permit stays free, and neither the audit table nor the log
    file gains an entry, of type release or ADMIN_ACTION. *)
Theorem C8_force_release_noop :
  forall (admin : string) (w : world),
    Admin.is_admin_user (Some admin) = true ->
    permit_free w ->
    Admin.admin_force_release_semaphore (Some admin) w = (0, w)
    /\ permit_free (snd (Admin.admin_force_release_semaphore (Some admin) w))
    /\ audit_rows (snd (Admin.admin_force_release_semaphore (Some admin) w))
       = audit_rows w
    /\ audit_records
         (snd (Admin.admin_force_release_semaphore (Some admin) w))
       = audit_records w.
Proof.
  intros admin w Ha Hf.
  rewrite (force_release_free admin w Ha Hf). cbn [snd].
  repeat split; try reflexivity; apply Hf.
Qed.

Lemma C8_witness :
  Admin.admin_force_release_semaphore (Some "root") fresh = (0, fresh).
Proof.
  refine (proj1 (C8_force_release_noop "root" fresh eq_refl _)).
  split; [reflexivity|split; reflexivity].
Defined.

(** ** C9: the two storage implementations *)

Lemma changes_of_zero (id : Z) (user : string) (rows : list message_row) :
  Db.changes_of id user rows = 0%nat <->
  forall r, In r rows -> ~ (msg_id r = id /\ msg_username r = user).
Proof.
  unfold Db.changes_of. induction rows as [|r rows IH]; cbn [filter].
  - split; [intros _ r []|reflexivity].
  - destruct (Db.row_matches id user r) eqn:Hm; cbn [List.length].
    + split; [discriminate|]. intros H. exfalso.
      apply (H r (or_introl eq_refl)).
      unfold Db.row_matches, strcmp_eq in Hm.
      apply andb_true_iff in Hm as [H1 H2].
      apply Z.eqb_eq in H1. apply String.eqb_eq in H2. auto.
    + rewrite IH. split.
      * intros H r' [<-|Hin]; [|now apply H].
        intros [H1 H2]. unfold Db.row_matches, strcmp_eq in Hm.
        apply Z.eqb_eq in H1. apply String.eqb_eq in H2.
        rewrite H1, H2 in Hm. discriminate.
      * intros H r' Hin. apply H. now right.
Qed.

(** C9, as the claim states it, fails: with "alice" holding the permit
    and no message stored, the call UpdateMessage(1, "alice", "x") is
    not-found-or-not-owned (-2) in the relational store and a success in
    the flat-file store. *)
Lemma C9_counterexample :
  ~ (forall (id : Z) (user body : string) (w : world),
        fst (Db.update_message id (Some user) (Some body) w)
        = fst (DbSimple.update_message id user body w)).
Proof.
  intros H. specialize (H 1 "alice" "x" alice_holds).
  vm_compute in H. discriminate H.
Qed.

(** C9, amended.  With both stores initialised and user and body within
    the storage contract, the two implementations of UpdateMessage run
    the same ownership gate first: when it refuses, both return its code
    and change nothing.  When it passes, the relational store (its engine
    working) returns -2 exactly when no message with that id authored by
    the user exists, and 0 otherwise; the flat-file store (its file
    opening, the prefixed body within 2000 characters) never looks the
    id up: it returns 0 and appends the message
    "[UPDATED ID:<id>] <body>" in the user's name. *)
Theorem C9_update_message_implementations :
  forall (id : Z) (user body : string) (w : world),
    g_db_initialized (db w) = true ->
    simple_initialized (simple w) = true ->
    (0 < strlen user <= MAX_USERNAME_LEN)%nat ->
    (0 < strlen body <= MAX_MESSAGE_LEN)%nat ->
    (validate_semaphore_ownership user w <> 0 ->
     Db.update_message id (Some user) (Some body) w
     = (validate_semaphore_ownership user w, w)
     /\ DbSimple.update_message id user body w
        = (validate_semaphore_ownership user w, w))
    /\ (validate_semaphore_ownership user w = 0 ->
        chat_step_ok (db w) = true ->
        (fst (Db.update_message id (Some user) (Some body) w) = -2 <->
         forall r, In r (messages (db w)) ->
                   ~ (msg_id r = id /\ msg_username r = user))
        /\ (fst (Db.update_message id (Some user) (Some body) w) = -2
            \/ fst (Db.update_message id (Some user) (Some body) w) = 0))
    /\ (validate_semaphore_ownership user w = 0 ->
        fopen_ok (simple w) = true ->
        (strlen ("[UPDATED ID:" ++ fmt_d id ++ "] " ++ body)
         <= MAX_MESSAGE_LEN)%nat ->
        fst (DbSimple.update_message id user body w) = 0
        /\ g_messages_file
             (simple (snd (DbSimple.update_message id user body w)))
           = (g_messages_file (simple w)
                ++ [(now w, user,
                     ("[UPDATED ID:" ++ fmt_d id ++ "] " ++ body)%string)])%list).
Proof.
  intros id user body w Hdb Hs Hu Hb.
  pose proof (lengths_accepted user body Hu Hb) as Hlen.
  split; [|split].
  - intros Hv. apply Z.eqb_neq in Hv.
    unfold Db.update_message, DbSimple.update_message.
    rewrite Hdb, Hs, Hlen, Hv. split; reflexivity.
  - intros Hv Hok.
    rewrite <- changes_of_zero.
    unfold Db.update_message, Db.step_update_message.
    rewrite Hdb, Hlen, Hv, Hok. cbn [negb Z.eqb andb].
    assert (Hcm : Db.check_message body = true).
    { pose proof (lengths_pass_checks user body Hu Hb) as Hck.
      now apply andb_true_iff in Hck as [_ Hck]. }
    rewrite Hcm, orb_true_r. cbn [negb].
    destruct (Db.changes_of id user (messages (db w)) =? 0)%nat eqn:Hc;
      cbn [fst].
    + apply Nat.eqb_eq in Hc. split; [tauto|left; reflexivity].
    + apply Nat.eqb_neq in Hc.
      split; [split; [discriminate|contradiction]|right; reflexivity].
  - intros Hv Hf Hl.
    unfold DbSimple.update_message. rewrite Hs, Hv. cbn [negb Z.eqb].
    assert (Hsn : snprintf (MAX_MESSAGE_LEN + 50)
                    ("[UPDATED ID:" ++ fmt_d id ++ "] " ++ body)
                  = "[UPDATED ID:" ++ fmt_d id ++ "] " ++ body).
    { apply strncpy_short. unfold MAX_MESSAGE_LEN in *. lia. }
    rewrite Hsn.
    set (updated := "[UPDATED ID:" ++ fmt_d id ++ "] " ++ body) in *.
    assert (Hup : (0 < strlen updated <= MAX_MESSAGE_LEN)%nat).
    { split; [|exact Hl]. subst updated. cbn. lia. }
    unfold DbSimple.create_message, DbSimple.insert_log_entry.
    rewrite Hs, (lengths_accepted user updated Hu Hup), Hv, Hf.
    cbn. rewrite Hs, Hf. cbn. split; reflexivity.
Qed.

Lemma C9_witness :
  fst (DbSimple.update_message 1 "alice" "x" alice_holds) = 0
  /\ g_messages_file
       (simple (snd (DbSimple.update_message 1 "alice" "x" alice_holds)))
     = [(0, "alice", "[UPDATED ID:1] x")].
Proof.
  refine (proj2 (proj2 (C9_update_message_implementations
                          1 "alice" "x" alice_holds eq_refl eq_refl _ _))
                eq_refl eq_refl _);
    unfold MAX_USERNAME_LEN, MAX_MESSAGE_LEN, strlen; simpl; lia.
Defined.

(** ** C10: malformed identities at the arbiter *)

(** C10.  On an initialised arbiter, TryAcquire and Release called with
    a NULL or an empty identity return invalid-input (-4) and leave the
    state as it was, whatever the permit and the enabled flag are; and
    TryAcquire returns -4, state untouched, for every identity of 64
    characters or more. *)
Theorem C10_arbiter_input_validation :
  forall w : world,
    g_initialized w = true ->
    Semaphore.try_acquire_writer None w = (-4, w)
    /\ Semaphore.try_acquire_writer (Some "") w = (-4, w)
    /\ Semaphore.release_writer None w = (-4, w)
    /\ Semaphore.release_writer (Some "") w = (-4, w)
    /\ forall u : string,
         (MAX_USERNAME_LEN <= strlen u)%nat ->
         Semaphore.try_acquire_writer (Some u) w = (-4, w).
Proof.
  intros w Hi.
  unfold Semaphore.try_acquire_writer, Semaphore.release_writer.
  rewrite Hi. cbn [negb].
  repeat (split; [reflexivity|]).
  intros u Hu.
  destruct (strlen u =? 0)%nat; [reflexivity|].
  apply Nat.leb_le in Hu. now rewrite Hu.
Qed.

Lemma C10_witness :
  Semaphore.try_acquire_writer None alice_holds = (-4, alice_holds)
  /\ Semaphore.release_writer (Some "") alice_holds = (-4, alice_holds).
Proof.
  pose proof (C10_arbiter_input_validation alice_holds eq_refl)
    as (H1 & _ & _ & H4 & _).
  exact (conj H1 H4).
Defined.

(** * Further properties *)

(** ** semaphore.c *)

Lemma acquire_release_back (u : string) (w : world) :
  permit_free w ->
  writer_enabled (g_semaphore_state w) = true ->
  identity_ok u ->
  Semaphore.release_writer (Some u)
    (set_sem (mk_semaphore_state true u true) w)
  = (0, w).
Proof.
  intros (Hi & Hm & Hh) He Hu.
  unfold Semaphore.release_writer. cbn [g_initialized set_sem].
  rewrite Hi. cbn [negb g_semaphore_state current_holder].
  destruct (identity_ok_checks u Hu) as [-> _].
  unfold strcmp_eq. rewrite String.eqb_refl. cbn [negb].
  f_equal. destruct w as [gi [m h e] d l s n j]; cbn in *.
  subst. reflexivity.
Qed.

(** X1.  Acquire and release undo each other: on an initialised arbiter
    with the permit free and writing enabled, a TryAcquire by a
    well-formed identity followed by a Release in the same name returns 0
    twice and ends in the very state it started from. *)
Theorem X1_acquire_release_round_trip :
  forall (u : string) (w : world),
    permit_free w ->
    writer_enabled (g_semaphore_state w) = true ->
    identity_ok u ->
    exists w1 : world,
      Semaphore.try_acquire_writer (Some u) w = (0, w1)
      /\ held_by u w1
      /\ Semaphore.release_writer (Some u) w1 = (0, w).
Proof.
  intros u w Hf He Hu.
  exists (set_sem (mk_semaphore_state true u true) w).
  split; [apply acquire_free_enabled; try assumption; apply Hf|].
  split; [|now apply acquire_release_back].
  destruct Hf as (Hi & _ & _).
  split; [exact Hi|split; [reflexivity|split; [reflexivity|exact Hu]]].
Qed.

Lemma X1_witness :
  exists w1 : world,
    Semaphore.try_acquire_writer (Some "alice") fresh = (0, w1)
    /\ held_by "alice" w1
    /\ Semaphore.release_writer (Some "alice") w1 = (0, fresh).
Proof.
  refine (X1_acquire_release_round_trip "alice" fresh _ eq_refl _).
  - split; [reflexivity|split; reflexivity].
  - unfold identity_ok, MAX_USERNAME_LEN, strlen; simpl; lia.
Defined.

(** X2.  After [cleanup_semaphore] the arbiter answers nothing: TryAcquire,
    Release, SetEnabled and Status all fail with -1 whatever their
    arguments and change nothing, a second cleanup changes nothing, and
    the ownership gate of the store reports a general error (-1), not
    permission-denied. *)
Theorem X2_cleanup_disables_arbiter :
  forall (w : world) (u a : option string) (b : bool) (name : string),
    let w' := Semaphore.cleanup_semaphore w in
    Semaphore.try_acquire_writer u w' = (-1, w')
    /\ Semaphore.release_writer u w' = (-1, w')
    /\ Semaphore.admin_toggle_writer b a w' = (-1, w')
    /\ Semaphore.get_semaphore_status w' = Semaphore.StatusError (-1)
    /\ Semaphore.cleanup_semaphore w' = w'
    /\ validate_semaphore_ownership name w' = -1.
Proof.
  intros w u a b name w'.
  assert (Hi : g_initialized w' = false).
  { subst w'. unfold Semaphore.cleanup_semaphore.
    destruct (g_initialized w) eqn:Hi; cbn [negb]; [reflexivity|exact Hi]. }
  unfold Semaphore.try_acquire_writer, Semaphore.release_writer,
    Semaphore.admin_toggle_writer, Semaphore.get_semaphore_status,
    Semaphore.cleanup_semaphore, validate_semaphore_ownership,
    Semaphore.get_semaphore_status.
  rewrite Hi. cbn [negb]. repeat split.
Qed.

(** X3.  A restart forgets the hold and the disable switch: whatever the
    state, [cleanup_semaphore] followed by [init_semaphore] leaves the
    arbiter initialised with the permit free and writing enabled, and
    touches neither the store nor the logger; [init_semaphore] on an
    arbiter that is already initialised changes nothing. *)
Theorem X3_restart_resets_permit :
  forall w : world,
    let w' := snd (Semaphore.init_semaphore (Semaphore.cleanup_semaphore w)) in
    fst (Semaphore.init_semaphore (Semaphore.cleanup_semaphore w)) = 0
    /\ permit_free w'
    /\ writer_enabled (g_semaphore_state w') = true
    /\ db w' = db w /\ logger w' = logger w
    /\ (g_initialized w = true -> Semaphore.init_semaphore w = (0, w)).
Proof.
  intros w w'. subst w'.
  unfold Semaphore.init_semaphore, Semaphore.cleanup_semaphore.
  destruct (g_initialized w) eqn:Hi; cbn [negb g_initialized fst snd].
  - repeat split.
  - rewrite Hi. cbn. repeat split. discriminate.
Qed.

Lemma X3_witness :
  Semaphore.init_semaphore alice_holds = (0, alice_holds).
Proof.
  exact (proj2 (proj2 (proj2 (proj2 (proj2
           (X3_restart_resets_permit alice_holds))))) eq_refl).
Defined.

(** ** db.c: the message table *)

Lemma insert_log_entry_chat a u c v w :
  chat (snd (Db.insert_log_entry a u c v w)) = chat w.
Proof.
  unfold Db.insert_log_entry.
  repeat (break_match; cbn [snd]); reflexivity.
Qed.

Lemma log_transaction_chat a u c v w :
  chat (Db.log_transaction a u c v w) = chat w.
Proof.
  unfold Db.log_transaction, Logger.log_transaction.
  destruct (negb (logger_initialized (logger w))); [reflexivity|].
  destruct a as [a|]; [|reflexivity].
  destruct (negb (v =? 0) && negb (v =? 1)); [reflexivity|].
  pose proof (insert_log_entry_chat (Some a) u c v w) as H.
  destruct (Db.insert_log_entry (Some a) u c v w) as [st w1]; cbn [snd] in H.
  rewrite <- H. unfold Logger.file_append.
  destruct (log_file (logger w1)); reflexivity.
Qed.

Lemma log_transaction_db_flags a u c v w :
  g_db_initialized (db (Db.log_transaction a u c v w))
  = g_db_initialized (db w)
  /\ chat_step_ok (db (Db.log_transaction a u c v w)) = chat_step_ok (db w).
Proof.
  unfold Db.log_transaction, Logger.log_transaction, Db.insert_log_entry,
    Logger.file_append.
  repeat (break_inner; cbn [fst snd]); split; reflexivity.
Qed.

Lemma validated_status (u : string) (w : world) :
  negb (validate_semaphore_ownership u w =? 0) = false ->
  Semaphore.get_semaphore_status w = Semaphore.StatusOk u 0.
Proof.
  intros H. apply negb_false_iff, Z.eqb_eq in H. now apply validate_ok.
Qed.

Lemma create_message_effect (u m : option string) (w : world) :
  chat_effect w (snd (Db.create_message u m w)).
Proof.
  unfold Db.create_message, Db.step_create_message.
  repeat (break_inner; cbn [fst snd negb]);
    try (apply chat_same; reflexivity); try discriminate.
  eapply chat_insert; [eapply validated_status; eassumption|].
  rewrite log_transaction_chat. reflexivity.
Qed.

Lemma update_message_effect (i : Z) (u m : option string) (w : world) :
  chat_effect w (snd (Db.update_message i u m w)).
Proof.
  unfold Db.update_message, Db.step_update_message.
  repeat (break_inner; cbn [fst snd negb]);
    try (apply chat_same; reflexivity); try discriminate;
    (eapply chat_update; [eapply validated_status; eassumption|]);
    rewrite ?log_transaction_chat; reflexivity.
Qed.

Lemma delete_message_effect (i : Z) (u : option string) (w : world) :
  chat_effect w (snd (Db.delete_message i u w)).
Proof.
  unfold Db.delete_message, Db.step_delete_message.
  repeat (break_inner; cbn [fst snd negb]);
    try (apply chat_same; reflexivity); try discriminate;
    (eapply chat_delete; [eapply validated_status; eassumption|]);
    rewrite ?log_transaction_chat; reflexivity.
Qed.

Lemma release_writer_chat (u : option string) (w : world) :
  chat (snd (Semaphore.release_writer u w)) = chat w.
Proof.
  destruct (release_writer_cases u w)
    as [(a & _ & _ & _ & _ & ->)|(c & _ & ->)]; reflexivity.
Qed.

Lemma force_release_chat (a : option string) (w : world) :
  chat (snd (Admin.admin_force_release_semaphore a w)) = chat w.
Proof.
  unfold Admin.admin_force_release_semaphore.
  destruct a as [n|]; [|reflexivity].
  destruct (_ || _); [reflexivity|].
  destruct (negb _); [reflexivity|].
  destruct (Semaphore.get_semaphore_status w) as [c|h v]; [reflexivity|].
  destruct (v =? 1); [reflexivity|].
  match goal with
  | |- context [Semaphore.release_writer ?u ?w1] =>
      pose proof (release_writer_chat u w1) as H;
      destruct (Semaphore.release_writer u w1) as [rc w2]
  end.
  cbn [snd] in H. rewrite log_transaction_chat in H.
  destruct (negb (rc =? 0)); exact H.
Qed.

Lemma list_messages_chat (p l : Z) (n : nat) (w w' : world) (st : Z)
  (rows : list message_row) :
  Db.list_messages p l n w = Returns (st, rows, w') -> chat w' = chat w.
Proof.
  intros H.
  destruct (list_messages_returns _ _ _ _ _ _ _ H)
    as [(_ & _ & _ & ->)|[(_ & _ & _ & _ & ->)|(_ & _ & _ & _ & _ & ->)]];
    try reflexivity.
  apply log_transaction_chat.
Qed.

Lemma admin_get_logs_chat (a : option string) (p l : Z) (n : nat)
  (w w' : world) (st : Z) (rows : list (Z * log_entry)) :
  Admin.admin_get_logs a p l n w = Returns (st, rows, w') ->
  chat w' = chat w.
Proof.
  intros H.
  destruct (admin_get_logs_returns _ _ _ _ _ _ _ _ H)
    as [(_ & _ & ->)|(admin & _ & _ & _ & _ & ->)]; [reflexivity|].
  apply log_transaction_chat.
Qed.

Lemma admin_get_system_status_chat (a : option string) (w : world) :
  chat (snd (Admin.admin_get_system_status a w)) = chat w.
Proof.
  unfold Admin.admin_get_system_status.
  repeat (break_inner; cbn [fst snd]); try reflexivity;
    apply log_transaction_chat.
Qed.

Lemma call_chat_effect (r : request) (w : world) (st : Z) (w' : world) :
  match r with Dispatch _ => False | _ => True end ->
  run r w = Returns (st, w') -> chat_effect w w'.
Proof.
  intros Hr H.
  pose proof (run_state r w st w' H) as Hs. apply run_returns in H.
  destruct r; try contradiction; try subst w'.
  - destruct (try_acquire_writer_cases username w)
      as [(a & _ & _ & _ & _ & _ & ->)|(c & _ & ->)];
      apply chat_same; reflexivity.
  - destruct (release_writer_cases username w)
      as [(a & _ & _ & _ & _ & ->)|(c & _ & ->)];
      apply chat_same; reflexivity.
  - destruct (admin_toggle_writer_cases enabled admin_user w)
      as [(a & _ & _ & _ & ->)|(c & _ & ->)];
      apply chat_same; reflexivity.
  - apply create_message_effect.
  - apply update_message_effect.
  - apply delete_message_effect.
  - apply chat_same. destruct H as [rows H].
    exact (list_messages_chat _ _ _ _ _ _ _ H).
  - apply chat_same. destruct H as [rows H].
    exact (admin_get_logs_chat _ _ _ _ _ _ _ _ H).
  - apply chat_same. apply admin_get_system_status_chat.
  - apply chat_same. apply force_release_chat.
  - apply chat_same. reflexivity.
Qed.

Lemma run_chat_effect (r : request) (w : world) (st : Z) (w' : world) :
  run r w = Returns (st, w') -> chat_effect w w'.
Proof.
  intros H.
  destruct r; try (refine (call_chat_effect _ w st w' _ H); exact I).
  destruct (dispatch_world json_input w st w' H)
    as [->|(cmd & r & _ & Hr & H')].
  - apply chat_same; reflexivity.
  - exact (call_chat_effect r w st w' (route_not_dispatch cmd r Hr) H').
Qed.

Lemma map_id_updated (i : Z) (u m : string) (rows : list message_row) :
  map msg_id (map (updated_row i u m) rows) = map msg_id rows
  /\ map msg_username (map (updated_row i u m) rows) = map msg_username rows
  /\ map msg_created_at (map (updated_row i u m) rows)
     = map msg_created_at rows.
Proof.
  induction rows as [|r rows (IH1 & IH2 & IH3)]; [repeat split|].
  cbn [map]. rewrite IH1, IH2, IH3. unfold updated_row.
  destruct (Db.row_matches i u r); repeat split.
Qed.

(** Deleting rows keeps the remaining ids distinct. *)
Lemma kept_ids_distinct (keep : message_row -> bool)
  (rows : list message_row) :
  NoDup (map msg_id rows) -> NoDup (map msg_id (filter keep rows)).
Proof.
  intros Hnd. induction rows as [|r rows IH]; [exact Hnd|].
  cbn [map filter] in *. apply NoDup_cons_iff in Hnd as [Hfresh Hrest].
  destruct (keep r); [|exact (IH Hrest)].
  cbn [map]. apply NoDup_cons_iff. split; [|exact (IH Hrest)].
  intros Hin. apply Hfresh.
  apply in_map_iff in Hin as (r' & Hid & Hin).
  apply filter_In in Hin as [Hin _].
  apply in_map_iff. exists r'. split; assumption.
Qed.

Lemma chat_effect_ids (w w' : world) :
  chat_effect w w' ->
  ids_ok w -> ids_ok w' /\ messages_seq (db w) <= messages_seq (db w').
Proof.
  unfold ids_ok, chat.
  intros [H|u m _ H|i u m _ H|i u _ H] [Hnd Hle];
    injection H as -> ->.
  - split; [split; assumption|lia].
  - split; [split|lia].
    + rewrite map_app. cbn [map msg_id].
      apply NoDup_app; [exact Hnd|repeat constructor; intros []|].
      intros x Hin [<-|[]].
      apply in_map_iff in Hin as (r & Hr & Hin).
      rewrite Forall_forall in Hle. specialize (Hle r Hin). lia.
    + apply Forall_app. split.
      * eapply Forall_impl; [|exact Hle]. cbn. intros; lia.
      * repeat constructor. cbn. lia.
  - split; [split|lia].
    + destruct (map_id_updated i u m (messages (db w))) as [-> _].
      exact Hnd.
    + rewrite Forall_forall in *. intros r Hin.
      apply in_map_iff in Hin as (r0 & <- & Hin).
      specialize (Hle r0 Hin). unfold updated_row.
      destruct (Db.row_matches i u r0); exact Hle.
  - split; [split|lia].
    + now apply kept_ids_distinct.
    + rewrite Forall_forall in *. intros r Hin.
      apply filter_In in Hin as [Hin _]. now apply Hle.
Qed.

(** X4.  Message ids are never handed out twice: if the ids in the table
    are distinct and none exceeds the counter, this is still so after any
    sequence of requests that have returned, deletions included, and the
    counter has not gone down; so the id of the next insert, the counter
    plus one, is above every id in use. *)
Theorem X4_message_ids_never_reused :
  forall (rs : list request) (w w' : world),
    ids_ok w ->
    run_all rs w = Returns w' ->
    ids_ok w'
    /\ messages_seq (db w) <= messages_seq (db w')
    /\ forall r, In r (messages (db w')) ->
                 msg_id r < messages_seq (db w') + 1.
Proof.
  intros rs. induction rs as [|r rs IH]; intros w w' Hok H;
    cbn [run_all] in H.
  - injection H as <-. split; [exact Hok|]. split; [lia|].
    intros r Hin. destruct Hok as [_ Hle].
    rewrite Forall_forall in Hle. specialize (Hle r Hin). lia.
  - destruct (run r w) as [[st w1]|] eqn:Hrun; [|discriminate].
    destruct (chat_effect_ids w w1 (run_chat_effect r w st w1 Hrun) Hok)
      as [Hok' Hle].
    destruct (IH _ _ Hok' H) as (H1 & H2 & H3).
    split; [exact H1|]. split; [lia|exact H3].
Qed.

Lemma X4_witness :
  exists w' : world,
    run_all [CreateMessage (Some "alice") (Some "hi");
             DeleteMessage 1 (Some "alice");
             CreateMessage (Some "alice") (Some "again")]
            alice_holds
    = Returns w'
    /\ ids_ok w'.
Proof.
  eexists. split; [reflexivity|].
  refine (proj1 (X4_message_ids_never_reused
                   [CreateMessage (Some "alice") (Some "hi");
                    DeleteMessage 1 (Some "alice");
                    CreateMessage (Some "alice") (Some "again")]
                   alice_holds _ _ eq_refl)).
  split; [constructor|constructor].
Defined.

Lemma rows_of_others_effect (w w' : world) (h : string) (v : Z) :
  chat_effect w w' ->
  Semaphore.get_semaphore_status w = Semaphore.StatusOk h v ->
  rows_of_others h (messages (db w')) = rows_of_others h (messages (db w))
  /\ (v = 1 -> chat w' = chat w).
Proof.
  unfold chat, rows_of_others.
  intros [H|u m Hs H|i u m Hs H|i u Hs H] Hst;
    try (rewrite Hs in Hst; injection Hst as <- <-);
    injection H as -> ->.
  - split; reflexivity.
  - split; [|discriminate].
    rewrite filter_app. cbn [filter msg_username].
    unfold strcmp_eq. rewrite String.eqb_refl. cbn. apply app_nil_r.
  - split; [|discriminate].
    induction (messages (db w)) as [|r rows IH]; [reflexivity|].
    cbn [map filter]. rewrite IH. unfold updated_row, Db.row_matches.
    destruct (strcmp_eq (msg_username r) u) eqn:He;
      [|rewrite andb_false_r, He; reflexivity].
    destruct (msg_id r =? i); cbn [andb msg_username]; rewrite He;
      reflexivity.
  - split; [|discriminate].
    induction (messages (db w)) as [|r rows IH]; [reflexivity|].
    cbn [filter]. unfold Db.row_matches at 1.
    destruct (strcmp_eq (msg_username r) u) eqn:He.
    + destruct (msg_id r =? i); cbn [andb negb filter]; rewrite ?He;
        cbn [negb]; exact IH.
    + rewrite andb_false_r. cbn [negb filter]. rewrite He. cbn [negb].
      now rewrite IH.
Qed.

(** X5.  Only the holder's own rows can change.  Whatever the request,
    sent directly or through the dispatcher, once it has returned: the
    rows authored by anyone but the identity Status() reported as holder
    are the same rows in the same order, and when Status() reported the
    permit free, or failed, the table and its id counter are exactly
    what they were. *)
Theorem X5_only_holder_rows_change :
  forall (r : request) (w : world) (st : Z) (w' : world),
    run r w = Returns (st, w') ->
    (forall (h : string) (v : Z),
        Semaphore.get_semaphore_status w = Semaphore.StatusOk h v ->
        rows_of_others h (messages (db w'))
        = rows_of_others h (messages (db w))
        /\ (v = 1 -> chat w' = chat w))
    /\ (forall c : Z,
           Semaphore.get_semaphore_status w = Semaphore.StatusError c ->
           chat w' = chat w).
Proof.
  intros r w st w' Hrun.
  pose proof (run_chat_effect r w st w' Hrun) as He. split.
  - intros h v Hs. now apply rows_of_others_effect.
  - intros c Hs.
    destruct He as [H|u m Hu _|i u m Hu _|i u Hu _];
      [exact H|congruence..].
Qed.

Lemma X5_witness :
  exists w' : world,
    run (DeleteMessage 2 (Some "alice")) two_authors = Returns (0, w')
    /\ rows_of_others "alice" (messages (db w'))
       = [mk_message 1 "bob" "yo" 0].
Proof.
  eexists. split; [reflexivity|].
  exact (proj1 (proj1 (X5_only_holder_rows_change
                         (DeleteMessage 2 (Some "alice")) two_authors 0 _
                         eq_refl)
                      "alice" 0 eq_refl)).
Defined.

Lemma create_message_success (u m : option string) (w w' : world)
  (ts : option timestamp) :
  Db.create_message u m w = (0, ts, w') ->
  exists user body : string,
    u = Some user /\ m = Some body
    /\ (0 < strlen user <= MAX_USERNAME_LEN)%nat
    /\ (0 < strlen body <= MAX_MESSAGE_LEN)%nat
    /\ ts = Some (now w)
    /\ chat_step_ok (db w') = true
    /\ Semaphore.get_semaphore_status w = Semaphore.StatusOk user 0
    /\ chat w'
       = ((messages (db w)
             ++ [mk_message (messages_seq (db w) + 1) user body (now w)])%list,
          messages_seq (db w) + 1)
    /\ permit w' = permit w
    /\ g_db_initialized (db w') = true.
Proof.
  intros H. unfold Db.create_message in H.
  destruct (g_db_initialized (db w)) eqn:Hdb; cbn [negb] in H;
    [|discriminate].
  destruct u as [u|]; [|discriminate]. destruct m as [m|]; [|discriminate].
  destruct (_ || _) eqn:Hlen in H; [discriminate|].
  destruct (validate_semaphore_ownership u w =? 0) eqn:Hv;
    cbn [negb] in H;
    [|apply Z.eqb_neq in Hv; injection H as H _ _; congruence].
  apply Z.eqb_eq in Hv.
  unfold Db.step_create_message in H.
  destruct (chat_step_ok (db w)) eqn:Hok; cbn [andb] in H;
    [|discriminate].
  destruct (Db.check_username u && Db.check_message m) eqn:Hstep;
    cbn [negb] in H; [|discriminate].
  injection H as <- <-.
  exists u, m. split; [reflexivity|]. split; [reflexivity|].
  repeat (apply orb_false_iff in Hlen; destruct Hlen as [Hlen ?]).
  repeat match goal with
         | H : (_ =? _)%nat = false |- _ => apply Nat.eqb_neq in H
         | H : (_ <? _)%nat = false |- _ => apply Nat.ltb_ge in H
         end.
  split; [lia|]. split; [lia|]. split; [reflexivity|].
  match goal with
  | |- context [Db.log_transaction ?a ?b ?c ?d ?e] =>
      destruct (log_transaction_db_flags a b c d e) as [Hf1 Hf2]
  end.
  split; [rewrite Hf2; exact Hok|]. split; [now apply validate_ok|].
  split; [now rewrite log_transaction_chat|].
  split; [now rewrite db_log_transaction_permit|].
  rewrite Hf1. exact Hdb.
Qed.

(** X6.  What a successful CreateMessage stores: it returns the current
    time as timestamp, and the table is the old table followed by one new
    row that carries the next id (the counter plus one), the user, the
    body and that time; the user is the holder, user and body are within
    1..64 and 1..2000 characters, and the permit is untouched. *)
Theorem X6_create_message_stores_one_row :
  forall (u m : option string) (w w' : world) (ts : option timestamp),
    Db.create_message u m w = (0, ts, w') ->
    exists user body : string,
      u = Some user /\ m = Some body
      /\ (0 < strlen user <= MAX_USERNAME_LEN)%nat
      /\ (0 < strlen body <= MAX_MESSAGE_LEN)%nat
      /\ ts = Some (now w)
      /\ Semaphore.get_semaphore_status w = Semaphore.StatusOk user 0
      /\ messages (db w')
         = (messages (db w)
              ++ [mk_message (messages_seq (db w) + 1) user body (now w)])%list
      /\ messages_seq (db w') = messages_seq (db w) + 1
      /\ permit w' = permit w.
Proof.
  intros u m w w' ts H.
  destruct (create_message_success u m w w' ts H)
    as (user & body & Hu & Hm & Hlu & Hlm & Hts & _ & Hs & Hc & Hp & _).
  exists user, body. unfold chat in Hc. injection Hc as Hc1 Hc2.
  repeat (split; [assumption|]). assumption.
Qed.

Lemma X6_witness :
  exists user body : string,
    Some "alice" = Some user /\ Some "hi" = Some body
    /\ (0 < strlen user <= MAX_USERNAME_LEN)%nat
    /\ (0 < strlen body <= MAX_MESSAGE_LEN)%nat
    /\ Some 0 = Some (now alice_holds)
    /\ Semaphore.get_semaphore_status alice_holds
       = Semaphore.StatusOk user 0
    /\ messages (db alice_posted)
       = (messages (db alice_holds)
            ++ [mk_message (messages_seq (db alice_holds) + 1) user body
                           (now alice_holds)])%list
    /\ messages_seq (db alice_posted) = messages_seq (db alice_holds) + 1
    /\ permit alice_posted = permit alice_holds.
Proof.
  exact (X6_create_message_stores_one_row (Some "alice") (Some "hi")
           alice_holds alice_posted (Some 0) eq_refl).
Defined.

Lemma update_message_success (i : Z) (u m : option string) (w w' : world) :
  Db.update_message i u m w = (0, w') ->
  exists user body : string,
    u = Some user /\ m = Some body
    /\ Semaphore.get_semaphore_status w = Semaphore.StatusOk user 0
    /\ Db.changes_of i user (messages (db w)) <> 0%nat
    /\ chat w'
       = (map (updated_row i user body) (messages (db w)),
          messages_seq (db w)).
Proof.
  intros H. unfold Db.update_message in H.
  destruct (negb (g_db_initialized (db w))); [discriminate|].
  destruct u as [u|]; [|discriminate]. destruct m as [m|]; [|discriminate].
  destruct (_ || _) eqn:Hlen in H; [discriminate|].
  destruct (validate_semaphore_ownership u w =? 0) eqn:Hv;
    cbn [negb] in H;
    [|apply Z.eqb_neq in Hv; injection H as H _; congruence].
  apply Z.eqb_eq in Hv.
  unfold Db.step_update_message in H.
  destruct (chat_step_ok (db w) && _) in H; cbn [negb] in H;
    [|discriminate].
  destruct (_ =? 0)%nat eqn:Hc in H; [discriminate|].
  injection H as <-. apply Nat.eqb_neq in Hc.
  exists u, m. split; [reflexivity|]. split; [reflexivity|].
  split; [now apply validate_ok|]. split; [exact Hc|].
  now rewrite log_transaction_chat.
Qed.

Lemma changes_of_nonzero (i : Z) (u : string) (rows : list message_row) :
  Db.changes_of i u rows <> 0%nat ->
  exists r, In r rows /\ msg_id r = i /\ msg_username r = u.
Proof.
  unfold Db.changes_of. induction rows as [|r rows IH]; cbn [filter].
  - intros H; now contradiction H.
  - destruct (Db.row_matches i u r) eqn:Hm.
    + intros _. exists r. split; [now left|].
      unfold Db.row_matches, strcmp_eq in Hm.
      apply andb_true_iff in Hm as [H1 H2].
      apply Z.eqb_eq in H1. apply String.eqb_eq in H2. auto.
    + intros H. destruct (IH H) as (r' & Hin & Hr').
      exists r'. split; [now right|exact Hr'].
Qed.

(** X7.  What a successful UpdateMessage changes: the user is the holder
    and authored at least one row with that id; afterwards the table has
    the same rows in the same order with the same ids, authors and
    timestamps, every row with that id and author carries the new body,
    every other row carries the body it had, and the id counter has not
    moved. *)
Theorem X7_update_message_rewrites_body :
  forall (i : Z) (u m : option string) (w w' : world),
    Db.update_message i u m w = (0, w') ->
    exists user body : string,
      u = Some user /\ m = Some body
      /\ Semaphore.get_semaphore_status w = Semaphore.StatusOk user 0
      /\ (exists r, In r (messages (db w))
                    /\ msg_id r = i /\ msg_username r = user)
      /\ map msg_id (messages (db w')) = map msg_id (messages (db w))
      /\ map msg_username (messages (db w'))
         = map msg_username (messages (db w))
      /\ map msg_created_at (messages (db w'))
         = map msg_created_at (messages (db w))
      /\ map msg_message (messages (db w'))
         = map (fun r => if (msg_id r =? i)
                            && strcmp_eq (msg_username r) user
                         then body else msg_message r)
               (messages (db w))
      /\ messages_seq (db w') = messages_seq (db w).
Proof.
  intros i u m w w' H.
  destruct (update_message_success i u m w w' H)
    as (user & body & Hu & Hm & Hs & Hc & Hch).
  unfold chat in Hch. injection Hch as Hch1 Hch2.
  exists user, body.
  destruct (map_id_updated i user body (messages (db w)))
    as (H1 & H2 & H3).
  rewrite Hch1.
  split; [exact Hu|]. split; [exact Hm|]. split; [exact Hs|].
  split; [now apply changes_of_nonzero|].
  split; [exact H1|]. split; [exact H2|]. split; [exact H3|].
  split; [|exact Hch2].
  rewrite map_map. apply map_ext. intros r.
  unfold updated_row, Db.row_matches.
  destruct ((msg_id r =? i) && strcmp_eq (msg_username r) user);
    reflexivity.
Qed.

Lemma X7_witness :
  map msg_message
      (messages (db (snd (Db.update_message 1 (Some "alice") (Some "bye")
                                            alice_posted))))
  = ["bye"].
Proof.
  destruct (X7_update_message_rewrites_body 1 (Some "alice") (Some "bye")
              alice_posted
              (snd (Db.update_message 1 (Some "alice") (Some "bye")
                                      alice_posted))
              eq_refl)
    as (user & body & Hu & Hm & _ & _ & _ & _ & _ & H & _).
  injection Hu as <-. injection Hm as <-. exact H.
Defined.

Lemma delete_message_success (i : Z) (u : option string) (w w' : world) :
  Db.delete_message i u w = (0, w') ->
  exists user : string,
    u = Some user
    /\ (0 < strlen user <= MAX_USERNAME_LEN)%nat
    /\ g_db_initialized (db w) = true
    /\ chat_step_ok (db w) = true
    /\ Semaphore.get_semaphore_status w = Semaphore.StatusOk user 0
    /\ Db.changes_of i user (messages (db w)) <> 0%nat
    /\ chat w'
       = (filter (fun r => negb (Db.row_matches i user r))
                 (messages (db w)),
          messages_seq (db w))
    /\ permit w' = permit w
    /\ g_db_initialized (db w') = true
    /\ chat_step_ok (db w') = true.
Proof.
  intros H. unfold Db.delete_message in H.
  destruct (g_db_initialized (db w)) eqn:Hdb; cbn [negb] in H;
    [|discriminate].
  destruct u as [u|]; [|discriminate].
  destruct (_ || _) eqn:Hlen in H; [discriminate|].
  destruct (validate_semaphore_ownership u w =? 0) eqn:Hv;
    cbn [negb] in H;
    [|apply Z.eqb_neq in Hv; injection H as H _; congruence].
  apply Z.eqb_eq in Hv.
  unfold Db.step_delete_message in H.
  destruct (chat_step_ok (db w)) eqn:Hok; cbn [negb] in H; [|discriminate].
  destruct (_ =? 0)%nat eqn:Hc in H; [discriminate|].
  injection H as <-. apply Nat.eqb_neq in Hc.
  apply orb_false_iff in Hlen as [Hl1 Hl2].
  apply Nat.eqb_neq in Hl1. apply Nat.ltb_ge in Hl2.
  exists u. split; [reflexivity|]. split; [lia|].
  split; [reflexivity|]. split; [reflexivity|].
  split; [now apply validate_ok|]. split; [exact Hc|].
  split; [now rewrite log_transaction_chat|].
  split; [now rewrite db_log_transaction_permit|].
  unfold Db.log_transaction, Logger.log_transaction, Db.insert_log_entry,
    Logger.file_append.
  repeat (break_inner; cbn [fst snd set_db db g_db_initialized
                            chat_step_ok Db.set_transactions
                            Db.set_messages set_logger]);
    split; assumption.
Qed.

Lemma filter_twice {A : Type} (p : A -> bool) (l : list A) :
  filter p (filter p l) = filter p l.
Proof.
  induction l as [|x l IH]; [reflexivity|]. cbn [filter].
  destruct (p x) eqn:Hp; cbn [filter]; rewrite ?Hp, IH; reflexivity.
Qed.

Lemma changes_after_delete (i : Z) (u : string) (rows : list message_row) :
  Db.changes_of i u (filter (fun r => negb (Db.row_matches i u r)) rows)
  = 0%nat.
Proof.
  unfold Db.changes_of. induction rows as [|r rows IH]; [reflexivity|].
  cbn [filter]. destruct (Db.row_matches i u r) eqn:Hm; cbn [negb filter];
    rewrite ?Hm; exact IH.
Qed.

Lemma delete_message_by_holder (i : Z) (u : string) (w : world) :
  g_db_initialized (db w) = true -> chat_step_ok (db w) = true ->
  (0 < strlen u <= MAX_USERNAME_LEN)%nat ->
  validate_semaphore_ownership u w = 0 ->
  fst (Db.delete_message i (Some u) w)
  = (if (Db.changes_of i u (messages (db w)) =? 0)%nat then -2 else 0)
  /\ chat (snd (Db.delete_message i (Some u) w))
     = (filter (fun r => negb (Db.row_matches i u r)) (messages (db w)),
        messages_seq (db w)).
Proof.
  intros Hdb Hok Hl Hv.
  unfold Db.delete_message, Db.step_delete_message.
  rewrite Hdb, Hv, Hok. cbn [negb Z.eqb].
  replace ((strlen u =? 0)%nat || (MAX_USERNAME_LEN <? strlen u)%nat)
    with false.
  2:{ symmetry. apply orb_false_iff. split;
        [apply Nat.eqb_neq|apply Nat.ltb_ge]; lia. }
  destruct (Db.changes_of i u (messages (db w)) =? 0)%nat; cbn [fst snd].
  - split; reflexivity.
  - split; [reflexivity|]. now rewrite log_transaction_chat.
Qed.

(** X8.  What a successful DeleteMessage removes: the user is the holder
    and authored at least one row with that id; afterwards no row with
    that id and author is left, every other row is still there, in its
    place, and the id counter has not moved.  The same DeleteMessage
    asked again is answered not-found-or-not-owned (-2) and removes
    nothing more. *)
Theorem X8_delete_message_removes_rows :
  forall (i : Z) (u : option string) (w w' : world),
    Db.delete_message i u w = (0, w') ->
    exists user : string,
      u = Some user
      /\ Semaphore.get_semaphore_status w = Semaphore.StatusOk user 0
      /\ (exists r, In r (messages (db w))
                    /\ msg_id r = i /\ msg_username r = user)
      /\ messages (db w')
         = filter (fun r => negb ((msg_id r =? i)
                                  && strcmp_eq (msg_username r) user))
                  (messages (db w))
      /\ (forall r, In r (messages (db w')) ->
                    ~ (msg_id r = i /\ msg_username r = user))
      /\ messages_seq (db w') = messages_seq (db w)
      /\ fst (Db.delete_message i u w') = -2
      /\ chat (snd (Db.delete_message i u w')) = chat w'.
Proof.
  intros i u w w' H.
  destruct (delete_message_success i u w w' H)
    as (user & -> & Hl & _ & _ & Hs & Hc & Hch & Hp & Hdb' & Hok').
  unfold chat in Hch. injection Hch as Hch1 Hch2.
  exists user. split; [reflexivity|]. split; [exact Hs|].
  split; [now apply changes_of_nonzero|]. split; [exact Hch1|].
  split; [|split; [exact Hch2|]].
  - apply changes_of_zero. rewrite Hch1. apply changes_after_delete.
  - assert (Hv : validate_semaphore_ownership user w' = 0).
    { apply validate_ok. rewrite (status_permit w w' Hp). exact Hs. }
    assert (Hz : Db.changes_of i user (messages (db w')) = 0%nat).
    { rewrite Hch1. apply changes_after_delete. }
    destruct (delete_message_by_holder i user w' Hdb' Hok' Hl Hv)
      as [H1 H2].
    rewrite Hz in H1. cbn in H1. split; [exact H1|].
    rewrite H2. unfold chat. f_equal. rewrite Hch1. apply filter_twice.
Qed.

Lemma X8_witness :
  messages (db (snd (Db.delete_message 1 (Some "alice") alice_posted))) = []
  /\ fst (Db.delete_message 1 (Some "alice")
            (snd (Db.delete_message 1 (Some "alice") alice_posted)))
     = -2.
Proof.
  destruct (X8_delete_message_removes_rows 1 (Some "alice") alice_posted
              (snd (Db.delete_message 1 (Some "alice") alice_posted))
              eq_refl)
    as (user & Hu & _ & _ & Hm & _ & _ & H2 & _).
  injection Hu as <-. split; [exact Hm|exact H2].
Defined.

(** X9.  Insert and delete undo each other on the table: with ids in
    order (distinct, none above the counter), a successful CreateMessage
    followed by the holder's DeleteMessage of the id just assigned
    returns 0 and leaves the rows of the table exactly as they were
    before the insert; only the id counter stays one higher. *)
Theorem X9_create_then_delete_restores_table :
  forall (user body : option string) (w w1 : world) (ts : option timestamp),
    ids_ok w ->
    Db.create_message user body w = (0, ts, w1) ->
    fst (Db.delete_message (messages_seq (db w) + 1) user w1) = 0
    /\ messages (db (snd (Db.delete_message (messages_seq (db w) + 1)
                                            user w1)))
       = messages (db w)
    /\ messages_seq (db (snd (Db.delete_message (messages_seq (db w) + 1)
                                                user w1)))
       = messages_seq (db w) + 1.
Proof.
  intros user body w w1 ts [_ Hle] Hc.
  destruct (create_message_success user body w w1 ts Hc)
    as (u & m & -> & -> & Hlu & _ & _ & Hok & Hs & Hch & Hp & Hdb).
  unfold chat in Hch. injection Hch as Hm Hq.
  set (i := messages_seq (db w) + 1) in *.
  assert (Hold : filter (fun r => negb (Db.row_matches i u r))
                        (messages (db w)) = messages (db w)).
  { rewrite Forall_forall in Hle.
    apply forallb_filter_id. apply forallb_forall. intros r Hin.
    specialize (Hle r Hin). unfold Db.row_matches.
    replace (msg_id r =? i) with false; [reflexivity|].
    symmetry. apply Z.eqb_neq. subst i. lia. }
  assert (Hnew : Db.row_matches i u (mk_message i u m (now w)) = true).
  { unfold Db.row_matches, strcmp_eq. cbn.
    now rewrite Z.eqb_refl, String.eqb_refl. }
  assert (Hv : validate_semaphore_ownership u w1 = 0).
  { apply validate_ok. rewrite (status_permit w w1 Hp). exact Hs. }
  assert (Hchg : Db.changes_of i u (messages (db w1)) <> 0%nat).
  { rewrite Hm. unfold Db.changes_of. rewrite filter_app.
    cbn [filter]. rewrite Hnew. rewrite length_app. cbn. lia. }
  destruct (delete_message_by_holder i u w1 Hdb Hok Hlu Hv) as [H1 H2].
  apply Nat.eqb_neq in Hchg. rewrite Hchg in H1.
  unfold chat in H2. injection H2 as H2 H3.
  split; [exact H1|]. split; [|now rewrite H3].
  rewrite H2, Hm, filter_app, Hold. cbn [filter]. rewrite Hnew. cbn.
  apply app_nil_r.
Qed.

Lemma X9_witness :
  messages (db (snd (Db.delete_message 1 (Some "alice") alice_posted)))
  = messages (db alice_holds).
Proof.
  refine (proj1 (proj2 (X9_create_then_delete_restores_table
                          (Some "alice") (Some "hi") alice_holds
                          alice_posted (Some 0) _ eq_refl))).
  split; constructor.
Defined.

(** ** db.c: paging *)

Lemma insert_desc_perm {A : Type} (key : A -> Z) (x : A) (l : list A) :
  Permutation (insert_desc key x l) (x :: l).
Proof.
  induction l as [|y l IH]; cbn [insert_desc]; [reflexivity|].
  destruct (key y <=? key x); [reflexivity|].
  rewrite IH. apply perm_swap.
Qed.

Lemma order_by_desc_perm {A : Type} (key : A -> Z) (l : list A) :
  Permutation (order_by_desc key l) l.
Proof.
  unfold order_by_desc. induction l as [|x l IH]; cbn [fold_right];
    [reflexivity|].
  rewrite insert_desc_perm. now constructor.
Qed.

Lemma insert_desc_sorted {A : Type} (key : A -> Z) (x : A) (l : list A) :
  StronglySorted (fun a b => key b <= key a) l ->
  StronglySorted (fun a b => key b <= key a) (insert_desc key x l).
Proof.
  induction l as [|y l IH]; cbn [insert_desc]; intros Hs.
  - repeat constructor.
  - inversion Hs as [|? ? Hs' Hall]; subst.
    destruct (Z.leb_spec (key y) (key x)).
    + constructor; [exact Hs|]. constructor; [exact H|].
      eapply Forall_impl; [|exact Hall]. cbn. intros; lia.
    + constructor; [now apply IH|].
      rewrite (insert_desc_perm key x l). constructor; [lia|exact Hall].
Qed.

Lemma order_by_desc_sorted {A : Type} (key : A -> Z) (l : list A) :
  StronglySorted (fun a b => key b <= key a) (order_by_desc key l).
Proof.
  unfold order_by_desc. induction l as [|x l IH]; cbn [fold_right].
  - constructor.
  - now apply insert_desc_sorted.
Qed.

Lemma in_firstn {A : Type} (n : nat) (l : list A) (x : A) :
  In x (firstn n l) -> In x l.
Proof.
  intros H. rewrite <- (firstn_skipn n l). apply in_or_app. now left.
Qed.

Lemma in_skipn {A : Type} (n : nat) (l : list A) (x : A) :
  In x (skipn n l) -> In x l.
Proof.
  intros H. rewrite <- (firstn_skipn n l). apply in_or_app. now right.
Qed.

Lemma sorted_skipn {A : Type} (R : A -> A -> Prop) (n : nat) (l : list A) :
  StronglySorted R l -> StronglySorted R (skipn n l).
Proof.
  revert l. induction n as [|n IH]; intros l Hs; [exact Hs|].
  destruct l as [|x l]; [exact Hs|]. cbn [skipn].
  inversion Hs; subst. now apply IH.
Qed.

Lemma sorted_firstn {A : Type} (R : A -> A -> Prop) (n : nat) (l : list A) :
  StronglySorted R l -> StronglySorted R (firstn n l).
Proof.
  revert l. induction n as [|n IH]; intros l Hs; [constructor|].
  destruct l as [|x l]; [constructor|]. cbn [firstn].
  inversion Hs as [|? ? Hs' Hall]; subst. constructor; [now apply IH|].
  rewrite Forall_forall in *. intros y Hy. apply Hall.
  eapply in_firstn; eassumption.
Qed.

Lemma select_page_spec {A : Type} (key : A -> Z) (limit offset : Z)
  (table : list A) :
  (List.length (select_page key limit offset table) <= Z.to_nat limit)%nat
  /\ incl (select_page key limit offset table) table
  /\ StronglySorted (fun a b => key b <= key a)
                    (select_page key limit offset table)
  /\ ((List.length table <= Z.to_nat offset)%nat ->
      select_page key limit offset table = []).
Proof.
  unfold select_page. split; [apply firstn_le_length|]. split; [|split].
  - intros x Hx. apply in_firstn, in_skipn in Hx.
    eapply Permutation_in; [apply order_by_desc_perm|exact Hx].
  - apply sorted_firstn, sorted_skipn, order_by_desc_sorted.
  - intros Hlen. rewrite skipn_all2; [now rewrite firstn_nil|].
    now rewrite (Permutation_length (order_by_desc_perm key table)).
Qed.

Lemma page_offset_in_range (page limit : Z) :
  1 <= page -> 1 <= limit -> page * limit <= 2147483647 ->
  page_offset page limit = (page - 1) * limit.
Proof.
  intros Hp Hl Hr. unfold page_offset, wrap_int.
  assert (0 <= (page - 1) * limit <= 2147483647) by nia.
  assert (0 <= page - 1 <= 2147483647) by nia.
  rewrite (Z.mod_small (page - 1 + 2147483648)) by lia.
  replace (page - 1 + 2147483648 - 2147483648) with (page - 1) by lia.
  rewrite Z.mod_small by lia. lia.
Qed.

Lemma pagination_accepted (page limit : Z) :
  (page <? 1) || (limit <? 1) || (limit >? 100) = false ->
  1 <= page /\ 1 <= limit <= 100.
Proof.
  intros H. apply orb_false_iff in H as [H H3].
  apply orb_false_iff in H as [H1 H2].
  apply Z.ltb_ge in H1, H2. rewrite Z.gtb_ltb in H3.
  apply Z.ltb_ge in H3. lia.
Qed.

Lemma pagination_refused (page limit : Z) :
  (page <? 1) || (limit <? 1) || (limit >? 100) = true ->
  page < 1 \/ limit < 1 \/ 100 < limit.
Proof.
  intros Hp. apply orb_true_iff in Hp as [Hp|Hp];
    [apply orb_true_iff in Hp as [Hp|Hp]|].
  - apply Z.ltb_lt in Hp. auto.
  - apply Z.ltb_lt in Hp. auto.
  - rewrite Z.gtb_ltb in Hp. apply Z.ltb_lt in Hp. auto.
Qed.

(** The engine counts a negative offset as 0. *)
Lemma select_page_negative_offset {A : Type} (key : A -> Z)
  (limit offset : Z) (table : list A) :
  offset < 0 -> select_page key limit offset table
                = select_page key limit 0 table.
Proof.
  intros H. unfold select_page.
  replace (Z.to_nat offset) with 0%nat by lia. reflexivity.
Qed.

Lemma page_offset_first (limit : Z) : page_offset 1 limit = 0.
Proof. reflexivity. Qed.

(** X10.  What a successful ListMessages returns: page and limit were at
    least 1 and the limit at most 100; the rows returned are at most
    [limit], each of them is a stored message, they come newest first,
    and their JSON text fits the caller's buffer.  A page that starts at
    or past the end of the table is empty as long as page times limit
    does not exceed the largest [int], 2147483647; when the offset
    computed in [int] wraps around to a negative number, the rows
    returned are those of the first page.  The call changes neither the
    message table nor the permit. *)
Theorem X10_list_messages_page :
  forall (page limit : Z) (out_json : nat) (w w' : world)
         (rows : list message_row),
    Db.list_messages page limit out_json w = Returns (0, rows, w') ->
    1 <= page /\ 1 <= limit <= 100
    /\ (List.length rows <= Z.to_nat limit)%nat
    /\ incl rows (messages (db w))
    /\ StronglySorted (fun a b => msg_created_at b <= msg_created_at a) rows
    /\ (Db.messages_json_strlen rows < out_json)%nat
    /\ (page * limit <= 2147483647 ->
        (List.length (messages (db w)) <= Z.to_nat ((page - 1) * limit))%nat ->
        rows = [])
    /\ (page_offset page limit < 0 -> rows = page_of_messages 1 limit w)
    /\ chat w' = chat w
    /\ permit w' = permit w.
Proof.
  intros page limit out_json w w' rows H.
  destruct (list_messages_returns _ _ _ _ _ _ _ H)
    as [(H0 & _)|[(H0 & _)|(_ & _ & Hp & Hrows & Hfit & ->)]];
    try discriminate.
  apply pagination_accepted in Hp as [Hp Hl].
  split; [exact Hp|]. split; [exact Hl|].
  rewrite log_transaction_chat, db_log_transaction_permit.
  destruct (select_page_spec msg_created_at limit (page_offset page limit)
              (messages (db w))) as (H1 & H2 & H3 & H4).
  unfold page_of_messages. rewrite page_offset_first.
  destruct (chat_step_ok (db w)); subst rows.
  - repeat (split; [assumption|]).
    split; [|split; [|split; reflexivity]].
    + intros Hr Hlen. apply H4.
      rewrite page_offset_in_range by lia. exact Hlen.
    + apply select_page_negative_offset.
  - split; [cbn; lia|]. split; [intros x []|]. split; [constructor|].
    split; [exact Hfit|].
    split; [reflexivity|]. split; [reflexivity|split; reflexivity].
Qed.

Lemma X10_witness :
  exists (rows : list message_row) (w' : world),
    Db.list_messages 21474838 100 MAX_JSON_LEN alice_posted
    = Returns (0, rows, w')
    /\ rows = page_of_messages 1 100 alice_posted.
Proof.
  eexists _, _. split; [vm_compute; reflexivity|].
  refine (proj1 (proj2 (proj2 (proj2 (proj2 (proj2 (proj2 (proj2
            (X10_list_messages_page 21474838 100 MAX_JSON_LEN alice_posted
               _ _ eq_refl)))))))) _).
  vm_compute. reflexivity.
Defined.

(** X11.  Listing is audited as a read: with the daemon started, the
    audit table taking rows and the log file open, a successful
    ListMessages appends exactly one entry to both sinks, of action READ,
    with no user, and with the permit value Status() reported. *)
Theorem X11_list_messages_logs_read :
  forall (page limit : Z) (out_json : nat) (w w' : world)
         (rows : list message_row),
    audit_ready w ->
    Db.list_messages page limit out_json w = Returns (0, rows, w') ->
    exists (e : log_entry) (h : string),
      appended e w w'
      /\ log_action e = "READ"
      /\ log_user e = None
      /\ Semaphore.get_semaphore_status w
         = Semaphore.StatusOk h (log_semaphore_value e).
Proof.
  intros page limit out_json w w' rows Hr H.
  destruct (list_messages_returns _ _ _ _ _ _ _ H)
    as [(H0 & _)|[(H0 & _)|(_ & _ & _ & _ & _ & ->)]];
    try discriminate.
  destruct (status_ready w (proj1 Hr)) as (h & v & Hs & Hv).
  rewrite Hs. cbn [Semaphore.value_read].
  eexists _, h. split.
  - apply log_transaction_appends; [exact Hr|exact Hv|].
    apply check_short_content; [reflexivity|lia|exact Hv].
  - split; [reflexivity|]. split; reflexivity.
Qed.

Lemma X11_witness :
  exists (rows : list message_row) (w' : world),
    Db.list_messages 1 10 MAX_JSON_LEN alice_posted = Returns (0, rows, w')
    /\ exists (e : log_entry) (h : string),
         appended e alice_posted w'
         /\ log_action e = "READ"
         /\ log_user e = None
         /\ Semaphore.get_semaphore_status alice_posted
            = Semaphore.StatusOk h (log_semaphore_value e).
Proof.
  eexists _, _. split; [vm_compute; reflexivity|].
  refine (X11_list_messages_logs_read 1 10 MAX_JSON_LEN alice_posted
            _ _ _ eq_refl).
  unfold audit_ready; cbn.
  repeat split; try reflexivity. intros H; discriminate H.
Defined.

(** X12.  What [get_logs] of the relational store returns.  When it
    returns, the status is 0, -1 (store not initialised) or -4 (page
    below 1, limit below 1 or above 100), and without status 0 no row is
    returned; with status 0 the rows are at most [limit], each is a row
    of the audit table, they come newest first, and their JSON text fits
    the caller's buffer.  It overruns the buffer exactly when the store
    is initialised, page and limit are in range and the text of the page
    does not fit. *)
Theorem X12_get_logs_page :
  forall (page limit : Z) (out_json : nat) (w : world),
    (forall (st : Z) (rows : list (Z * log_entry)),
        Db.get_logs page limit out_json w = Returns (st, rows) ->
        (st = 0 \/ st = -1 \/ st = -4)
        /\ (st <> 0 -> rows = [])
        /\ (st = -4 <->
            g_db_initialized (db w) = true
            /\ (page < 1 \/ limit < 1 \/ 100 < limit))
        /\ (st = 0 ->
            (List.length rows <= Z.to_nat limit)%nat
            /\ incl rows (transactions (db w))
            /\ StronglySorted
                 (fun a b => log_ts (snd b) <= log_ts (snd a)) rows
            /\ (Db.logs_json_strlen rows < out_json)%nat))
    /\ (Db.get_logs page limit out_json w = Overrun <->
        g_db_initialized (db w) = true
        /\ 1 <= page /\ 1 <= limit <= 100
        /\ (out_json <= Db.logs_json_strlen (page_of_logs page limit w))%nat).
Proof.
  intros page limit out_json w. split.
  - intros st rows H.
    destruct (get_logs_returns _ _ _ _ _ _ H)
      as [(-> & Hi & ->)|[(-> & Hi & Hp & ->)|(-> & Hi & Hp & Hr & Hf)]].
    + split; [auto|]. split; [reflexivity|].
      split; [split; [discriminate|intros [H' _]; congruence]|].
      discriminate.
    + split; [auto|]. split; [reflexivity|]. split; [|discriminate].
      split; [intros _; split; [exact Hi|]|reflexivity].
      now apply pagination_refused.
    + apply pagination_accepted in Hp.
      split; [auto|]. split; [congruence|].
      split; [split; [discriminate|intros [_ H']; lia]|]. intros _.
      destruct (select_page_spec (fun r : Z * log_entry => log_ts (snd r))
                  limit (page_offset page limit) (transactions (db w)))
        as (H1 & H2 & H3 & _).
      split; [|split; [|split; [|exact Hf]]]; subst rows;
        destruct (logs_step_ok (db w)); auto;
        [cbn; lia|intros x []|constructor].
  - unfold Db.get_logs, page_of_logs.
    destruct (g_db_initialized (db w)); cbn [negb];
      [|split; [discriminate|intros [H _]; discriminate H]].
    destruct (_ || _) eqn:Hp.
    + split; [discriminate|]. intros (_ & H1 & H2 & _).
      rewrite (pagination_in_range page limit H1 H2) in Hp. discriminate.
    + apply pagination_accepted in Hp.
      destruct (out_json <=? _)%nat eqn:Hn;
        [apply Nat.leb_le in Hn|apply Nat.leb_gt in Hn].
      * split; [intros _|reflexivity]. tauto.
      * split; [discriminate|]. intros (_ & _ & _ & H). lia.
Qed.

Lemma X12_witness :
  exists rows : list (Z * log_entry),
    Db.get_logs 1 10 MAX_JSON_LEN alice_posted = Returns (0, rows)
    /\ incl rows (transactions (db alice_posted)).
Proof.
  eexists. split; [vm_compute; reflexivity|].
  exact (proj1 (proj2 (proj2 (proj2 (proj2
           (proj1 (X12_get_logs_page 1 10 MAX_JSON_LEN alice_posted)
              0 _ eq_refl))) eq_refl))).
Defined.

(** ** logger.c *)

Lemma insert_log_entry_cases (a : string) (u c : option string) (v : Z)
  (w : world) :
  (g_db_initialized (db w) && logs_step_ok (db w)
   && Db.check_transaction a c v = true
   /\ audit_rows (snd (Db.insert_log_entry (Some a) u c v w))
      = (audit_rows w ++ [mk_log (now w) a u c v])%list
   \/ g_db_initialized (db w) && logs_step_ok (db w)
      && Db.check_transaction a c v = false
      /\ snd (Db.insert_log_entry (Some a) u c v w) = w)
  /\ logger (snd (Db.insert_log_entry (Some a) u c v w)) = logger w.
Proof.
  unfold Db.insert_log_entry, audit_rows.
  destruct (g_db_initialized (db w)); cbn [negb andb snd];
    [|split; [right; split|]; reflexivity].
  destruct (logs_step_ok (db w) && Db.check_transaction a c v);
    cbn [snd]; [|split; [right; split|]; reflexivity].
  split; [left; split; [reflexivity|]|reflexivity].
  cbn. now rewrite map_app.
Qed.

Lemma log_transaction_records (a : string) (u c : option string) (v : Z)
  (w : world) :
  logger_initialized (logger w) = true -> log_file (logger w) <> None ->
  v = 0 \/ v = 1 ->
  audit_records (Db.log_transaction (Some a) u c v w)
  = (audit_records w ++ [mk_log (now w) a u c v])%list.
Proof.
  intros Hl Hf Hv.
  unfold Db.log_transaction, Logger.log_transaction. rewrite Hl.
  cbn [negb].
  replace (negb (v =? 0) && negb (v =? 1)) with false
    by (destruct Hv; subst v; reflexivity).
  destruct (insert_log_entry_cases a u c v w) as [_ Hlg].
  destruct (Db.insert_log_entry (Some a) u c v w) as [st w1].
  cbn [snd] in Hlg. unfold Logger.file_append, audit_records.
  rewrite Hlg. destruct (log_file (logger w)); [reflexivity|congruence].
Qed.

Lemma log_transaction_rows (a : string) (u c : option string) (v : Z)
  (w : world) :
  logger_initialized (logger w) = true -> v = 0 \/ v = 1 ->
  if g_db_initialized (db w) && logs_step_ok (db w)
     && Db.check_transaction a c v
  then audit_rows (Db.log_transaction (Some a) u c v w)
       = (audit_rows w ++ [mk_log (now w) a u c v])%list
  else audit_rows (Db.log_transaction (Some a) u c v w) = audit_rows w.
Proof.
  intros Hl Hv.
  unfold Db.log_transaction, Logger.log_transaction. rewrite Hl.
  cbn [negb].
  replace (negb (v =? 0) && negb (v =? 1)) with false
    by (destruct Hv; subst v; reflexivity).
  destruct (insert_log_entry_cases a u c v w)
    as [[[-> Hr]|[-> Hr]] Hlg];
    destruct (Db.insert_log_entry (Some a) u c v w) as [st w1];
    cbn [snd] in *; unfold Logger.file_append;
    destruct (log_file (logger w1)); try exact Hr; now subst w1.
Qed.

(** X13.  The two sinks of [log_transaction] fail independently.  With
    the logger initialised, its file open, an action given and a permit
    value of 0 or 1, the record is written to the log file whatever the
    audit store does; the audit table gains the same entry exactly when
    the store is initialised, its engine answers and the schema admits
    the entry (an action of its list and a content that is absent or of
    at most 2000 characters as the engine counts them, which can be more
    than 2000 bytes), and is untouched otherwise; messages and permit are
    never touched.  With any other permit value nothing is written
    anywhere. *)
Theorem X13_log_sinks_are_independent :
  forall (a : string) (u c : option string) (v : Z) (w : world),
    logger_initialized (logger w) = true ->
    log_file (logger w) <> None ->
    (v = 0 \/ v = 1 ->
     let w' := Db.log_transaction (Some a) u c v w in
     audit_records w' = (audit_records w ++ [mk_log (now w) a u c v])%list
     /\ (if g_db_initialized (db w) && logs_step_ok (db w)
            && Db.check_transaction a c v
         then audit_rows w'
              = (audit_rows w ++ [mk_log (now w) a u c v])%list
         else audit_rows w' = audit_rows w)
     /\ chat w' = chat w /\ permit w' = permit w)
    /\ (v <> 0 -> v <> 1 -> Db.log_transaction (Some a) u c v w = w).
Proof.
  intros a u c v w Hl Hf. split.
  - intros Hv w'. subst w'.
    split; [now apply log_transaction_records|].
    split; [now apply log_transaction_rows|].
    split; [apply log_transaction_chat|apply db_log_transaction_permit].
  - intros H0 H1. unfold Db.log_transaction, Logger.log_transaction.
    rewrite Hl. cbn [negb]. apply Z.eqb_neq in H0, H1. now rewrite H0, H1.
Qed.

Lemma X13_witness :
  audit_records (Db.log_transaction (Some "LOGGER_TEST") None None 1 fresh)
  = [mk_log 0 "LOGGER_TEST" None None 1]
  /\ audit_rows (Db.log_transaction (Some "LOGGER_TEST") None None 1 fresh)
     = [].
Proof.
  assert (Hf : log_file (logger fresh) <> None)
    by (intros H; discriminate H).
  destruct (proj1 (X13_log_sinks_are_independent "LOGGER_TEST" None None 1
                     fresh eq_refl Hf) (or_intror eq_refl))
    as (H1 & H2 & _).
  split; [exact H1|exact H2].
Defined.

(** X14.  What [log_semaphore_event] records.  With the daemon started,
    the audit table taking rows, the log file open and a permit value of
    0 or 1: an ACQUIRE_MUTEX or RELEASE_MUTEX event appends one entry to
    both sinks, whose content names the user ("unknown" when none is
    given) and is cut to 255 characters; an event whose action the schema
    of the audit table does not list is written to the log file only,
    with the content "Semaphore event: <action>". *)
Theorem X14_semaphore_event_entries :
  forall (user : option string) (v : Z) (w : world),
    audit_ready w ->
    v = 0 \/ v = 1 ->
    let who := match user with Some u => u | None => "unknown" end in
    appended
      (mk_log (now w) "ACQUIRE_MUTEX" user
              (Some (snprintf 256 ("User '" ++ who ++ "' acquired semaphore")))
              v)
      w (db_log_semaphore_event (Some "ACQUIRE_MUTEX") user v w)
    /\ appended
         (mk_log (now w) "RELEASE_MUTEX" user
                 (Some (snprintf 256
                          ("User '" ++ who ++ "' released semaphore")))
                 v)
         w (db_log_semaphore_event (Some "RELEASE_MUTEX") user v w)
    /\ forall a : string,
         existsb (strcmp_eq a) Db.transaction_actions = false ->
         audit_records (db_log_semaphore_event (Some a) user v w)
         = (audit_records w
              ++ [mk_log (now w) a user
                         (Some (snprintf 256 ("Semaphore event: " ++ a)))
                         v])%list
         /\ audit_rows (db_log_semaphore_event (Some a) user v w)
            = audit_rows w.
Proof.
  intros user v w Hr Hv who.
  assert (Hnv : negb (v =? 0) && negb (v =? 1) = false)
    by (destruct Hv; subst v; reflexivity).
  destruct Hr as (Hi & Hdb & Hl & Hf & Hok).
  assert (Hr : audit_ready w) by (repeat split; assumption).
  unfold db_log_semaphore_event, Logger.log_semaphore_event.
  rewrite Hl, Hnv. cbn [negb].
  split; [|split].
  - replace (strcmp_eq "ACQUIRE_MUTEX" "ACQUIRE_MUTEX") with true
      by reflexivity.
    apply (log_transaction_appends "ACQUIRE_MUTEX"); [exact Hr|exact Hv|].
    apply check_short_content; [reflexivity|lia|exact Hv].
  - replace (strcmp_eq "RELEASE_MUTEX" "ACQUIRE_MUTEX") with false
      by reflexivity.
    replace (strcmp_eq "RELEASE_MUTEX" "RELEASE_MUTEX") with true
      by reflexivity.
    apply (log_transaction_appends "RELEASE_MUTEX"); [exact Hr|exact Hv|].
    apply check_short_content; [reflexivity|lia|exact Hv].
  - intros a Ha.
    assert (Hna : strcmp_eq a "ACQUIRE_MUTEX" = false
                  /\ strcmp_eq a "RELEASE_MUTEX" = false).
    { unfold Db.transaction_actions in Ha. cbn [existsb] in Ha.
      repeat (apply orb_false_iff in Ha; destruct Ha as [? Ha]).
      split; assumption. }
    destruct Hna as [-> ->].
    split; [now apply log_transaction_records|].
    pose proof (log_transaction_rows a user
                  (Some (snprintf 256 ("Semaphore event: " ++ a))) v w
                  Hl Hv) as H2.
    unfold Db.check_transaction in H2. rewrite Ha, !andb_false_r in H2.
    cbn [andb] in H2. exact H2.
Qed.

Lemma X14_witness :
  audit_rows (db_log_semaphore_event (Some "TIMEOUT") (Some "alice") 0
                                     alice_holds)
  = audit_rows alice_holds.
Proof.
  refine (proj2 (proj2 (proj2 (X14_semaphore_event_entries (Some "alice") 0
                                 alice_holds _ (or_introl eq_refl)))
                   "TIMEOUT" eq_refl)).
  unfold audit_ready; cbn.
  repeat split; try reflexivity. intros H; discriminate H.
Defined.

(** ** The audit trail as a whole *)

Lemma audit_grew_same (n : nat) (w w' : world) :
  audit_rows w' = audit_rows w -> audit_records w' = audit_records w ->
  audit_grew n w w'.
Proof.
  intros H1 H2. exists [], []. rewrite H1, H2, !app_nil_r.
  repeat split; try constructor; cbn; lia.
Qed.

Lemma log_transaction_grew (a u c : option string) (v : Z) (w : world) :
  audit_grew 1 w (Db.log_transaction a u c v w).
Proof.
  destruct (logger_initialized (logger w)) eqn:Hl.
  2:{ unfold Db.log_transaction, Logger.log_transaction. rewrite Hl.
      apply audit_grew_same; reflexivity. }
  destruct a as [a|].
  2:{ unfold Db.log_transaction, Logger.log_transaction. rewrite Hl.
      apply audit_grew_same; reflexivity. }
  destruct (negb (v =? 0) && negb (v =? 1)) eqn:Hv.
  { unfold Db.log_transaction, Logger.log_transaction. rewrite Hl, Hv.
    apply audit_grew_same; reflexivity. }
  assert (Hv' : v = 0 \/ v = 1).
  { apply andb_false_iff in Hv as [Hv|Hv]; apply negb_false_iff in Hv;
      apply Z.eqb_eq in Hv; auto. }
  pose proof (log_transaction_rows a u c v w Hl Hv') as Hr.
  assert (Hrecords :
            exists records,
              audit_records (Db.log_transaction (Some a) u c v w)
              = (audit_records w ++ records)%list
              /\ (List.length records <= 1)%nat
              /\ Forall record_ok records).
  { destruct (log_file (logger w)) as [old|] eqn:Hf.
    - exists [mk_log (now w) a u c v].
      split; [apply log_transaction_records; [exact Hl|congruence|exact Hv']|].
      split; [cbn; lia|]. constructor; [exact Hv'|constructor].
    - exists []. split; [|split; [cbn; lia|constructor]].
      unfold Db.log_transaction, Logger.log_transaction. rewrite Hl, Hv.
      cbn [negb].
      destruct (insert_log_entry_cases a u c v w) as [_ Hlg].
      destruct (Db.insert_log_entry (Some a) u c v w) as [st w1].
      cbn [snd] in Hlg. unfold Logger.file_append, audit_records.
      rewrite Hlg, Hf. cbn iota. rewrite Hlg, Hf. reflexivity. }
  destruct Hrecords as (records & Hl1 & Hl2 & Hl3).
  destruct (g_db_initialized (db w) && logs_step_ok (db w)
            && Db.check_transaction a c v) eqn:Hc.
  - exists [mk_log (now w) a u c v], records.
    split; [exact Hr|]. split; [exact Hl1|]. split; [cbn; lia|].
    split; [exact Hl2|]. split; [|exact Hl3].
    constructor; [|constructor]. unfold row_ok. cbn.
    now apply andb_true_iff in Hc as [_ Hc].
  - exists [], records. rewrite app_nil_r.
    split; [exact Hr|]. split; [exact Hl1|]. split; [cbn; lia|].
    split; [exact Hl2|]. split; [constructor|exact Hl3].
Qed.

Lemma log_grew_after_messages (a u c : option string) (v : Z)
  (rows : list message_row) (seq : Z) (w : world) :
  audit_grew 1 w
    (Db.log_transaction a u c v (set_db (Db.set_messages rows seq (db w)) w)).
Proof.
  exact (log_transaction_grew a u c v
           (set_db (Db.set_messages rows seq (db w)) w)).
Qed.

Ltac audit_by_cases :=
  repeat (break_inner; cbn [fst snd negb]);
  first [ apply audit_grew_same; reflexivity
        | apply log_transaction_grew
        | apply log_grew_after_messages ].

Lemma call_audit_grew (r : request) (w : world) (st : Z) (w' : world) :
  match r with Dispatch _ => False | _ => True end ->
  run r w = Returns (st, w') -> audit_grew 1 w w'.
Proof.
  intros Hr H.
  pose proof (run_state r w st w' H) as Hs. apply run_returns in H.
  destruct r; try contradiction; try subst w'.
  - destruct (try_acquire_writer_cases username w)
      as [(a & _ & _ & _ & _ & _ & ->)|(c & _ & ->)];
      apply audit_grew_same; reflexivity.
  - destruct (release_writer_cases username w)
      as [(a & _ & _ & _ & _ & ->)|(c & _ & ->)];
      apply audit_grew_same; reflexivity.
  - destruct (admin_toggle_writer_cases enabled admin_user w)
      as [(a & _ & _ & _ & ->)|(c & _ & ->)];
      apply audit_grew_same; reflexivity.
  - unfold Db.create_message, Db.step_create_message. audit_by_cases.
  - unfold Db.update_message, Db.step_update_message. audit_by_cases.
  - unfold Db.delete_message, Db.step_delete_message. audit_by_cases.
  - destruct H as [rows H].
    destruct (list_messages_returns _ _ _ _ _ _ _ H)
      as [(_ & _ & _ & ->)|[(_ & _ & _ & _ & ->)
                           |(_ & _ & _ & _ & _ & ->)]];
      try (apply audit_grew_same; reflexivity).
    apply log_transaction_grew.
  - destruct H as [rows H].
    destruct (admin_get_logs_returns _ _ _ _ _ _ _ _ H)
      as [(_ & _ & ->)|(admin & _ & _ & _ & _ & ->)];
      [apply audit_grew_same; reflexivity|].
    apply log_transaction_grew.
  - unfold Admin.admin_get_system_status. audit_by_cases.
  - unfold Admin.admin_force_release_semaphore.
    destruct admin_user as [n|]; [|apply audit_grew_same; reflexivity].
    destruct (_ || _); [apply audit_grew_same; reflexivity|].
    destruct (negb _); [apply audit_grew_same; reflexivity|].
    destruct (Semaphore.get_semaphore_status w) as [c|h v];
      [apply audit_grew_same; reflexivity|].
    destruct (v =? 1); [apply audit_grew_same; reflexivity|].
    match goal with
    | |- context [Semaphore.release_writer ?u ?w1] =>
        pose proof (log_transaction_grew (Some "ADMIN_ACTION") (Some n)
                      (Some (snprintf 256
                               ("Admin forced release of semaphore from user '"
                                ++ h ++ "'"))) 0 w) as H';
        destruct (release_writer_cases u w1)
          as [(a & _ & _ & _ & _ & ->)|(c & _ & ->)]
    end.
    + exact H'.
    + destruct (negb (c =? 0)); exact H'.
  - apply audit_grew_same; reflexivity.
Qed.

Lemma run_audit_grew (r : request) (w : world) (st : Z) (w' : world) :
  run r w = Returns (st, w') -> audit_grew 1 w w'.
Proof.
  intros H.
  destruct r; try (refine (call_audit_grew _ w st w' _ H); exact I).
  destruct (dispatch_world json_input w st w' H)
    as [->|(cmd & r & _ & Hr & H')].
  - apply audit_grew_same; reflexivity.
  - exact (call_audit_grew r w st w' (route_not_dispatch cmd r Hr) H').
Qed.

Lemma audit_grew_trans (n m : nat) (w w1 w2 : world) :
  audit_grew n w w1 -> audit_grew m w1 w2 -> audit_grew (n + m) w w2.
Proof.
  intros (r1 & l1 & Hr1 & Hl1 & Hn1 & Hm1 & Fr1 & Fl1)
         (r2 & l2 & Hr2 & Hl2 & Hn2 & Hm2 & Fr2 & Fl2).
  exists (r1 ++ r2)%list, (l1 ++ l2)%list.
  rewrite Hr2, Hr1, Hl2, Hl1, <- !app_assoc, !length_app.
  repeat split; try lia; apply Forall_app; split; assumption.
Qed.

(** X15.  The audit trail is append-only.  Whatever requests have been
    served, directly or through the dispatcher, the audit table and the
    log file afterwards are the old ones followed by new entries:
    nothing is rewritten or removed, each request adds at most one row
    to the table and at most one record to the file, every new row has
    an action of the schema's list, a content of at most 2000 characters
    as the engine counts them and a permit value of 0 or 1, and every
    new record of the file has a permit value of 0 or 1. *)
Theorem X15_audit_trail_append_only :
  forall (rs : list request) (w w' : world),
    run_all rs w = Returns w' ->
    audit_grew (List.length rs) w w'.
Proof.
  intros rs. induction rs as [|r rs IH]; intros w w' H;
    cbn [run_all List.length] in *.
  - injection H as <-. apply audit_grew_same; reflexivity.
  - destruct (run r w) as [[st w1]|] eqn:Hrun; [|discriminate].
    change (S (List.length rs)) with (1 + List.length rs)%nat.
    eapply audit_grew_trans; [exact (run_audit_grew r w st w1 Hrun)|].
    now apply IH.
Qed.

Lemma X15_witness :
  exists w' : world,
    run_all [CreateMessage (Some "alice") (Some "hi");
             ListMessages 1 10;
             GetLogs (Some "root") 1 10]
            alice_holds
    = Returns w'
    /\ audit_grew 3 alice_holds w'.
Proof.
  eexists. split; [vm_compute; reflexivity|].
  exact (X15_audit_trail_append_only
           [CreateMessage (Some "alice") (Some "hi");
            ListMessages 1 10;
            GetLogs (Some "root") 1 10]
           alice_holds _ eq_refl).
Defined.

(** ** admin.c *)

(** X16.  Privilege comes before pagination in the admin gate.  For a
    name of 1..63 characters that is not on the allow-list, GetLogs,
    GetSystemStatus and ForceReleaseSemaphore all return
    permission-denied (-2) and change nothing, whatever the page, the
    limit and the state of the permit; a privileged name with a page
    below 1 or a limit outside 1..100 gets invalid-input (-4) from
    GetLogs, again with nothing changed or logged. *)
Theorem X16_admin_gate_checks_privilege_first :
  forall (u : string) (page limit : Z) (out_json : nat) (w : world),
    (0 < strlen u < MAX_ADMIN_USERNAME_LEN)%nat ->
    (Admin.is_admin_user (Some u) = false ->
     Admin.admin_get_logs (Some u) page limit out_json w
     = Returns (-2, [], w)
     /\ Admin.admin_get_system_status (Some u) w = (-2, None, w)
     /\ Admin.admin_force_release_semaphore (Some u) w = (-2, w))
    /\ (Admin.is_admin_user (Some u) = true ->
        page < 1 \/ limit < 1 \/ 100 < limit ->
        Admin.admin_get_logs (Some u) page limit out_json w
        = Returns (-4, [], w)).
Proof.
  intros u page limit out_json w [H0 H1].
  assert (Hlen : (strlen u =? 0)%nat
                 || (MAX_ADMIN_USERNAME_LEN <=? strlen u)%nat = false).
  { apply orb_false_iff. split; [apply Nat.eqb_neq|apply Nat.leb_gt]; lia. }
  unfold Admin.admin_get_logs, Admin.admin_get_system_status,
    Admin.admin_force_release_semaphore.
  rewrite Hlen. split.
  - intros ->. cbn [negb]. repeat split.
  - intros -> Hp. cbn [negb].
    replace ((page <? 1) || (limit <? 1) || (limit >? 100)) with true;
      [reflexivity|].
    symmetry. rewrite Z.gtb_ltb.
    destruct Hp as [Hp|[Hp|Hp]]; apply Z.ltb_lt in Hp; rewrite Hp;
      rewrite ?orb_true_r; reflexivity.
Qed.

Lemma X16_witness :
  Admin.admin_get_logs (Some "mallory") 0 1000 MAX_JSON_LEN alice_posted
  = Returns (-2, [], alice_posted)
  /\ Admin.admin_get_logs (Some "root") 0 1000 MAX_JSON_LEN alice_posted
     = Returns (-4, [], alice_posted).
Proof.
  split.
  - refine (proj1 (proj1 (X16_admin_gate_checks_privilege_first
                            "mallory" 0 1000 MAX_JSON_LEN alice_posted _)
                         eq_refl)).
    unfold MAX_ADMIN_USERNAME_LEN, strlen; simpl; lia.
  - refine (proj2 (X16_admin_gate_checks_privilege_first
                     "root" 0 1000 MAX_JSON_LEN alice_posted _)
                  eq_refl _).
    + unfold MAX_ADMIN_USERNAME_LEN, strlen; simpl; lia.
    + left; lia.
Defined.

(** X17.  A privileged force-release of a held permit cannot fail: when
    an identity holds the permit, ForceReleaseSemaphore by a name on the
    allow-list returns 0 and leaves the permit free; the enabled flag
    and the message table are what they were, and if writing is enabled
    the next TryAcquire by any well-formed identity succeeds. *)
Theorem X17_force_release_frees_held_permit :
  forall (admin a : string) (w : world),
    Admin.is_admin_user (Some admin) = true ->
    held_by a w ->
    let w' := snd (Admin.admin_force_release_semaphore (Some admin) w) in
    fst (Admin.admin_force_release_semaphore (Some admin) w) = 0
    /\ permit_free w'
    /\ writer_enabled (g_semaphore_state w')
       = writer_enabled (g_semaphore_state w)
    /\ chat w' = chat w
    /\ forall b : string,
         identity_ok b ->
         writer_enabled (g_semaphore_state w) = true ->
         fst (Semaphore.try_acquire_writer (Some b) w') = 0.
Proof.
  intros admin a w Ha Hh w'.
  assert (Hrun :
            exists w1,
              permit w1 = permit w
              /\ Admin.admin_force_release_semaphore (Some admin) w
                 = (0, set_sem (mk_semaphore_state false ""
                                  (writer_enabled (g_semaphore_state w))) w1)).
  { unfold Admin.admin_force_release_semaphore.
    destruct (is_admin_user_short admin Ha) as [-> ->].
    rewrite Ha, (status_held a w Hh). cbn [orb negb Z.eqb].
    match goal with
    | |- context [Semaphore.release_writer (Some a) ?x] =>
        assert (Hp : permit x = permit w)
          by apply db_log_transaction_permit;
        set (w1 := x) in *
    end.
    clearbody w1. exists w1. split; [exact Hp|].
    unfold Semaphore.release_writer.
    unfold permit in Hp. injection Hp as Hp1 Hp2. rewrite Hp1, Hp2.
    destruct Hh as (-> & _ & -> & Hok).
    destruct (identity_ok_checks a Hok) as [-> _]. cbn [negb].
    unfold strcmp_eq. rewrite String.eqb_refl. reflexivity. }
  destruct Hrun as (w1 & Hp & Hrun). subst w'. rewrite Hrun. cbn [fst snd].
  unfold permit in Hp. injection Hp as Hp1 Hp2.
  assert (Hi : g_initialized w = true) by apply Hh.
  split; [reflexivity|]. split; [|split; [reflexivity|split]].
  - split; [cbn; congruence|split; reflexivity].
  - pose proof (force_release_chat (Some admin) w) as Hc.
    rewrite Hrun in Hc. exact Hc.
  - intros b Hb He. rewrite acquire_free_enabled; try assumption;
      try reflexivity. cbn. congruence.
Qed.

Lemma X17_witness :
  permit_free (snd (Admin.admin_force_release_semaphore (Some "sysadmin")
                                                        alice_posted)).
Proof.
  refine (proj1 (proj2 (X17_force_release_frees_held_permit
                          "sysadmin" "alice" alice_posted eq_refl _))).
  split; [reflexivity|]. split; [reflexivity|]. split; [reflexivity|].
  unfold identity_ok, MAX_USERNAME_LEN, strlen; simpl; lia.
Defined.

(** X18.  What GetSystemStatus reports: for a privileged caller on an
    initialised arbiter it returns 0 with the current time, the holder
    and value that Status() gives, the caller's own name, and the flag
    "available" set exactly when the value is 1, which is exactly when no
    holder is named; permit and message table are untouched. *)
Theorem X18_system_status_report :
  forall (admin : string) (w : world),
    Admin.is_admin_user (Some admin) = true ->
    g_initialized w = true ->
    exists (h : string) (v : Z),
      Semaphore.get_semaphore_status w = Semaphore.StatusOk h v
      /\ fst (Admin.admin_get_system_status (Some admin) w)
         = (0, Some (Admin.mk_system_status (now w) v h (v =? 1) admin))
      /\ ((v =? 1) = true <-> h = "")
      /\ permit (snd (Admin.admin_get_system_status (Some admin) w))
         = permit w
      /\ chat (snd (Admin.admin_get_system_status (Some admin) w)) = chat w.
Proof.
  intros admin w Ha Hi.
  destruct (status_ready w Hi) as (h & v & Hs & Hv).
  exists h, v. split; [exact Hs|].
  split; [|split;
    [|split; [apply admin_get_system_status_permit
             |apply admin_get_system_status_chat]]].
  - unfold Admin.admin_get_system_status.
    destruct (is_admin_user_short admin Ha) as [-> ->].
    rewrite Ha, Hs. reflexivity.
  - destruct (status_values w h v Hs) as [[[-> Hh]|[-> ->]] _].
    + split; [discriminate|contradiction].
    + split; reflexivity.
Qed.

Lemma X18_witness :
  fst (Admin.admin_get_system_status (Some "admin") alice_posted)
  = (0, Some (Admin.mk_system_status 0 0 "alice" false "admin")).
Proof.
  destruct (X18_system_status_report "admin" alice_posted eq_refl eq_refl)
    as (h & v & Hs & H & _).
  injection Hs as <- <-. exact H.
Defined.

(** ** handlers.c *)

Lemma parsed_command (input : option Handlers.cJSON) (rc : Z)
  (cmd : Handlers.command_t) :
  Handlers.parse_json_command input = (rc, cmd) ->
  (rc = -4 /\ cmd = Handlers.initial_command)
  \/ (rc = 0
      /\ exists json action,
           input = Some json
           /\ Handlers.cJSON_GetObjectItem json "action"
              = Some (Handlers.cJSON_String action)
           /\ Handlers.action_type action = Some (Handlers.type cmd)).
Proof.
  unfold Handlers.parse_json_command.
  destruct input as [json|]; [|intros H; injection H as <- <-; now left].
  destruct (Handlers.cJSON_GetObjectItem json "action") as [[]|] eqn:Ha;
    try (intros H; injection H as <- <-; now left).
  destruct (Handlers.action_type valuestring) as [t|] eqn:Ht;
    [|intros H; injection H as <- <-; now left].
  intros H; injection H as <- <-. right. split; [reflexivity|].
  exists json, valuestring. repeat split; assumption.
Qed.

Lemma parsed_pagination (input : option Handlers.cJSON) (rc : Z)
  (cmd : Handlers.command_t) :
  Handlers.parse_json_command input = (rc, cmd) ->
  1 <= Handlers.page cmd /\ 1 <= Handlers.limit cmd <= 100.
Proof.
  unfold Handlers.parse_json_command.
  destruct input as [json|];
    [|intros H; injection H as <- <-; cbn; lia].
  destruct (Handlers.cJSON_GetObjectItem json "action") as [[]|];
    try (intros H; injection H as <- <-; cbn; lia).
  destruct (Handlers.action_type valuestring) as [t|];
    [|intros H; injection H as <- <-; cbn; lia].
  intros H; injection H as <- <-.
  cbn [Handlers.page Handlers.limit]. split.
  - destruct (Handlers.cJSON_GetObjectItem json "page") as [[]|]; try lia.
    destruct (Z.ltb_spec valueint 1); lia.
  - destruct (Handlers.cJSON_GetObjectItem json "limit") as [[]|]; try lia.
    destruct (Z.ltb_spec valueint 1).
    + replace (1 >? 100) with false by reflexivity. lia.
    + rewrite Z.gtb_ltb. destruct (Z.ltb_spec 100 valueint); lia.
Qed.

(** X19.  Every decoded command is within bounds, whatever the request
    says: [parse_json_command] returns 0 or -4; the page is at least 1
    and the limit between 1 and 100 (both take their defaults, 1 and 50,
    when the request gives no number), the user has at most 63
    characters and the message at most 1999; and with -4 the command is
    the blank one. *)
Theorem X19_decoded_command_bounds :
  forall (input : option Handlers.cJSON) (rc : Z) (cmd : Handlers.command_t),
    Handlers.parse_json_command input = (rc, cmd) ->
    (rc = 0 \/ rc = -4 /\ cmd = Handlers.initial_command)
    /\ 1 <= Handlers.page cmd
    /\ 1 <= Handlers.limit cmd <= 100
    /\ (strlen (Handlers.user cmd) <= 63)%nat
    /\ (strlen (Handlers.message cmd) <= 1999)%nat
    /\ (forall json, input = Some json ->
          (forall n, Handlers.cJSON_GetObjectItem json "page"
                     <> Some (Handlers.cJSON_Number n)) ->
          (forall n, Handlers.cJSON_GetObjectItem json "limit"
                     <> Some (Handlers.cJSON_Number n)) ->
          Handlers.page cmd = 1 /\ Handlers.limit cmd = 50).
Proof.
  intros input rc cmd H.
  destruct (parsed_pagination input rc cmd H) as [Hp Hl].
  split; [destruct (parsed_command input rc cmd H) as [[? ?]|[? _]]; auto|].
  split; [exact Hp|]. split; [exact Hl|].
  revert H. unfold Handlers.parse_json_command.
  destruct input as [json|];
    [|intros H; injection H as <- <-; cbn; repeat split; try lia;
      intros; discriminate].
  destruct (Handlers.cJSON_GetObjectItem json "action") as [[]|];
    try (intros H; injection H as <- <-; cbn; repeat split; lia).
  destruct (Handlers.action_type valuestring) as [t|];
    [|intros H; injection H as <- <-; cbn; repeat split; lia].
  intros H; injection H as <- <-.
  cbn [Handlers.user Handlers.message Handlers.page Handlers.limit].
  split; [|split].
  - destruct (Handlers.cJSON_GetObjectItem json "user") as [[]|];
      try (cbn; lia).
    apply (strlen_strncpy valuestring0 63).
  - destruct (Handlers.cJSON_GetObjectItem json "message") as [[]|];
      try (cbn; lia).
    apply (strlen_strncpy valuestring0 1999).
  - intros j Hj Hnp Hnl. injection Hj as <-.
    destruct (Handlers.cJSON_GetObjectItem json "page") as [[]|];
      try (exfalso; eapply Hnp; reflexivity);
      destruct (Handlers.cJSON_GetObjectItem json "limit") as [[]|];
      try (exfalso; eapply Hnl; reflexivity); split; reflexivity.
Qed.

Lemma X19_witness :
  1 <= Handlers.page
         (snd (Handlers.parse_json_command (list_request (-7) 100000)))
  /\ 1 <= Handlers.limit
            (snd (Handlers.parse_json_command (list_request (-7) 100000)))
     <= 100.
Proof.
  destruct (X19_decoded_command_bounds (list_request (-7) 100000)
              (fst (Handlers.parse_json_command (list_request (-7) 100000)))
              (snd (Handlers.parse_json_command (list_request (-7) 100000)))
              eq_refl)
    as (_ & H1 & H2 & _).
  exact (conj H1 H2).
Defined.

(** X20.  The action vocabulary and the nine command types correspond one
    to one: an action string is accepted for a type exactly when it is
    that type's name, letter for letter, so no two names share a type and
    any other spelling is refused. *)
Theorem X20_action_vocabulary_one_to_one :
  forall (a : string) (t : Handlers.command_type_t),
    Handlers.action_type a = Some t <-> a = action_name t.
Proof.
  intros a t. split.
  - unfold Handlers.action_type, strcmp_eq.
    repeat match goal with
           | |- context [String.eqb a ?s] =>
               destruct (String.eqb_spec a s);
               [intros H; injection H as <-; assumption|]
           end.
    discriminate.
  - intros ->. destruct t; reflexivity.
Qed.

Lemma execute_command_error_text (cmd : Handlers.command_t) (w w1 : world)
  (resp : Handlers.response_t) :
  Handlers.execute_command cmd w = Returns (resp, w1) ->
  Handlers.status resp <> 0 ->
  (0 <? strlen (Handlers.error resp))%nat = true
  /\ Handlers.error resp <> "Unknown error".
Proof.
  unfold Handlers.execute_command.
  destruct (Handlers.type cmd);
    repeat break_inner;
    intros H; try discriminate H; injection H as <- <-;
    cbn [Handlers.status Handlers.error]; intros Hs;
    try (split; [reflexivity|discriminate]);
    exfalso;
    repeat match goal with
           | E : (_ =? 0) = true |- _ => apply Z.eqb_eq in E
           end;
    congruence.
Qed.

(** X21.  How [handle_command] renders a result.  Whenever it returns,
    the output is an OK response exactly when the returned status is 0;
    an error response carries a text, never any data, and the text is
    never empty and never the fallback "Unknown error".  A request that
    cannot be decoded gets status -4, the text "Invalid JSON command",
    and changes nothing. *)
Theorem X21_response_rendering :
  forall (j : option Handlers.cJSON) (w : world),
    (forall (st : Z) (out : Handlers.json_output) (w' : world),
        Handlers.handle_command j w = Returns (st, out, w') ->
        (st = 0 <-> exists d, out = Handlers.OutOk d)
        /\ (forall e, out = Handlers.OutError e ->
                      e <> "" /\ e <> "Unknown error"))
    /\ (fst (Handlers.parse_json_command j) <> 0 ->
        Handlers.handle_command j w
        = Returns (-4, Handlers.OutError "Invalid JSON command", w)).
Proof.
  intros j w. unfold Handlers.handle_command.
  destruct (Handlers.parse_json_command j) as [rc cmd] eqn:Hp.
  destruct (parsed_command j rc cmd Hp) as [[-> _]|[-> _]];
    cbn [negb Z.eqb fst snd].
  - split; [|reflexivity].
    intros st out w' H. injection H as <- <- _.
    split; [split; [discriminate|intros [d Hd]; discriminate Hd]|].
    intros e He. injection He as <-. split; discriminate.
  - split; [|intros H; now contradiction H].
    intros st out w'.
    pose proof (execute_command_error_text cmd w) as Herr.
    destruct (Handlers.execute_command cmd w) as [[resp w1]|];
      [|discriminate].
    specialize (Herr w1 resp eq_refl).
    destruct (Handlers.status resp =? 0) eqn:Hs;
      intros H; injection H as <- <- _.
    + apply Z.eqb_eq in Hs.
      split; [split; [eauto|intros _; exact Hs]|].
      intros e He; discriminate He.
    + apply Z.eqb_neq in Hs. destruct (Herr Hs) as [Hlen Hne].
      split; [split; [contradiction|intros [d Hd]; discriminate Hd]|].
      rewrite Hlen. intros e He. injection He as <-.
      split; [|exact Hne]. intros He. rewrite He in Hlen. discriminate Hlen.
Qed.

Lemma X21_witness :
  Handlers.handle_command (Some (Handlers.cJSON_Array [])) alice_posted
  = Returns (-4, Handlers.OutError "Invalid JSON command", alice_posted).
Proof.
  refine (proj2 (X21_response_rendering
                   (Some (Handlers.cJSON_Array [])) alice_posted) _).
  intros H; discriminate H.
Defined.

(** X22.  STATUS and LOGS requests only read: whatever else the request
    says, when they are answered the whole state is as it was, so a LOGS
    request served by the dispatcher writes no audit entry; and a STATUS
    request is always answered.  On an initialised store no LIST or LOGS
    request is answered with an error, whatever page and limit it
    carries: it is answered with status 0 when the JSON text of its page
    fits the response buffer of 8192 bytes, and it overruns that buffer
    exactly when the text does not fit. *)
Theorem X22_read_requests :
  forall (j : option Handlers.cJSON) (cmd : Handlers.command_t) (w : world),
    Handlers.parse_json_command j = (0, cmd) ->
    (Handlers.type cmd = Handlers.CMD_GET_STATUS
     \/ Handlers.type cmd = Handlers.CMD_GET_LOGS ->
     forall st out w',
       Handlers.handle_command j w = Returns (st, out, w') -> w' = w)
    /\ (Handlers.type cmd = Handlers.CMD_GET_STATUS ->
        exists st out, Handlers.handle_command j w = Returns (st, out, w))
    /\ (g_db_initialized (db w) = true ->
        Handlers.type cmd = Handlers.CMD_LIST_MESSAGES
        \/ Handlers.type cmd = Handlers.CMD_GET_LOGS ->
        (forall st out w',
            Handlers.handle_command j w = Returns (st, out, w') -> st = 0)
        /\ (Handlers.handle_command j w = Overrun <-> page_too_long cmd w)).
Proof.
  intros j cmd w Hp.
  destruct (parsed_pagination j 0 cmd Hp) as [Hpage Hlimit].
  pose proof (pagination_in_range _ _ Hpage Hlimit) as Hok.
  unfold Handlers.handle_command, page_too_long. rewrite Hp.
  cbn [negb Z.eqb].
  unfold Handlers.execute_command. split; [|split].
  - intros [Ht|Ht]; rewrite Ht; intros st out w'.
    + destruct (Semaphore.get_semaphore_status w) as [c|h v];
        cbn [Handlers.status]; [destruct (c =? 0)|cbn [Z.eqb]];
        intros H; now injection H.
    + destruct (Db.get_logs _ _ _ w) as [[s rows]|]; [|discriminate].
      repeat (break_inner; cbn [Handlers.status]);
        intros H; now injection H.
  - intros Ht; rewrite Ht.
    destruct (Semaphore.get_semaphore_status w) as [c|h v];
      cbn [Handlers.status]; [destruct (c =? 0)|cbn [Z.eqb]]; eauto.
  - intros Hdb [Ht|Ht]; rewrite Ht.
    + destruct (list_messages_accepts (Handlers.page cmd)
                  (Handlers.limit cmd) MAX_JSON_LEN w Hdb Hpage Hlimit)
        as (Hover & Hret & _).
      destruct (Db.list_messages _ _ _ w) as [[[s rows] w1]|].
      * destruct (Hret s rows w1 eq_refl) as [-> _]. cbn [Z.eqb].
        split; [intros st out w' H; now injection H|].
        rewrite <- Hover. split; discriminate.
      * split; [discriminate|]. rewrite <- Hover. tauto.
    + unfold Db.get_logs, page_of_logs. rewrite Hdb, Hok. cbn [negb].
      destruct (MAX_JSON_LEN <=? _)%nat eqn:Hn;
        [apply Nat.leb_le in Hn|apply Nat.leb_gt in Hn].
      * split; [discriminate|tauto].
      * cbn [Z.eqb]. split; [intros st out w' H; now injection H|].
        split; [discriminate|lia].
Qed.

Lemma X22_witness :
  exists (out : Handlers.json_output) (w' : world),
    Handlers.handle_command (user_request "LOGS" "mallory" false)
                            alice_posted
    = Returns (0, out, w')
    /\ w' = alice_posted.
Proof.
  eexists _, _. split; [vm_compute; reflexivity|].
  exact (proj1 (X22_read_requests (user_request "LOGS" "mallory" false) _
                  alice_posted eq_refl) (or_intror eq_refl) 0 _ _ eq_refl).
Defined.

(** The audit rows of five messages of 2000 letters are too long for
    the response buffer as well: the LOGS request for them has no
    answer. *)
Example full_log_page_overruns_response :
  Handlers.handle_command (user_request "LOGS" "root" false) crowded
  = Overrun.
Proof. vm_compute. reflexivity. Qed.

Lemma parse_user_request (t : Handlers.command_type_t) (s : string)
  (e : bool) :
  Handlers.parse_json_command (user_request (action_name t) s e)
  = (0, Handlers.mk_command t (strncpy s (MAX_USERNAME_LEN - 1)) "" 0 1 50 e).
Proof. destruct t, e; reflexivity. Qed.

(** X23.  Through the dispatcher a user name counts only up to its 63rd
    character.  If two names agree on their first 63 characters (and
    these are not empty), then on a free permit with writing enabled a
    TRY_ACQUIRE request in the first name succeeds and makes the
    63-character prefix the holder, and a RELEASE request in the second
    name is accepted and puts the arbiter back into the state it was
    in. *)
Theorem X23_user_names_cut_at_63 :
  forall (s1 s2 : string) (w : world),
    strncpy s1 (MAX_USERNAME_LEN - 1) = strncpy s2 (MAX_USERNAME_LEN - 1) ->
    strncpy s1 (MAX_USERNAME_LEN - 1) <> "" ->
    permit_free w ->
    writer_enabled (g_semaphore_state w) = true ->
    exists w1 : world,
      Handlers.handle_command (user_request "TRY_ACQUIRE" s1 false) w
      = Returns
          (0,
           Handlers.OutOk
             (Handlers.SemaphoreData 0 (strncpy s1 (MAX_USERNAME_LEN - 1))),
           w1)
      /\ held_by (strncpy s1 (MAX_USERNAME_LEN - 1)) w1
      /\ Handlers.handle_command (user_request "RELEASE" s2 false) w1
         = Returns (0, Handlers.OutOk (Handlers.SemaphoreData 1 ""), w).
Proof.
  intros s1 s2 w Heq Hne Hf He.
  set (u := strncpy s1 (MAX_USERNAME_LEN - 1)) in *.
  assert (Hu : identity_ok u).
  { unfold identity_ok. pose proof (strlen_strncpy s1 (MAX_USERNAME_LEN - 1)).
    fold u in H. destruct u; [congruence|].
    unfold MAX_USERNAME_LEN in *. cbn in *. lia. }
  pose proof (acquire_free_enabled u w (proj1 Hf) Hu (proj1 (proj2 Hf)) He)
    as Ha.
  pose proof (acquire_release_back u w Hf He Hu) as Hr.
  assert (Hh : held_by u (set_sem (mk_semaphore_state true u true) w)).
  { split; [apply Hf|split; [reflexivity|split; [reflexivity|exact Hu]]]. }
  exists (set_sem (mk_semaphore_state true u true) w).
  unfold Handlers.handle_command.
  pose proof (parse_user_request Handlers.CMD_TRY_ACQUIRE s1 false) as P1.
  pose proof (parse_user_request Handlers.CMD_RELEASE s2 false) as P2.
  cbn [action_name] in P1, P2. rewrite P1, P2.
  fold u. rewrite <- Heq. fold u. cbn [negb Z.eqb].
  unfold Handlers.execute_command.
  cbn [Handlers.type Handlers.user].
  destruct (identity_ok_checks u Hu) as [-> _].
  rewrite Ha. cbn [Z.eqb Handlers.status Handlers.data fst snd].
  rewrite Hr. split; [reflexivity|]. split; [exact Hh|reflexivity].
Qed.

Lemma X23_witness :
  exists w1 : world,
    Handlers.handle_command
      (user_request "TRY_ACQUIRE" (name63 ++ "-alice") false) fresh
    = Returns (0, Handlers.OutOk (Handlers.SemaphoreData 0 name63), w1)
    /\ held_by name63 w1
    /\ Handlers.handle_command
         (user_request "RELEASE" (name63 ++ "-bob") false) w1
       = Returns (0, Handlers.OutOk (Handlers.SemaphoreData 1 ""), fresh).
Proof.
  refine (X23_user_names_cut_at_63 (name63 ++ "-alice")
            (name63 ++ "-bob") fresh eq_refl _ _ eq_refl).
  - intros H; discriminate H.
  - split; [reflexivity|split; reflexivity].
Defined.

(** X24.  The dispatcher adds nothing to the call it routes to.  For a
    decoded command that passes the required-field test, the status
    returned and the state left by [handle_command] are exactly those of
    the arbiter or storage call for that command type, made with the
    decoded user, message, id, page, limit and flag, and it overruns the
    response buffer exactly when that call does; a command that fails
    the test (no user, no message, or an id of 0 or less where required)
    is answered with invalid-input (-4) and the state unchanged. *)
Theorem X24_dispatch_is_the_routed_call :
  forall (j : option Handlers.cJSON) (cmd : Handlers.command_t) (w : world),
    Handlers.parse_json_command j = (0, cmd) ->
    match route cmd with
    | Some r => status_and_state (Handlers.handle_command j w) = run r w
    | None =>
        (forall st out w',
            Handlers.handle_command j w = Returns (st, out, w') ->
            w' = w
            /\ (Handlers.type cmd <> Handlers.CMD_GET_STATUS ->
                Handlers.type cmd <> Handlers.CMD_GET_LOGS ->
                st = -4))
        /\ (Handlers.type cmd <> Handlers.CMD_GET_LOGS ->
            exists st out,
              Handlers.handle_command j w = Returns (st, out, w))
    end.
Proof.
  intros j cmd w Hp.
  assert (Hh : status_and_state (Handlers.handle_command j w)
               = match Handlers.execute_command cmd w with
                 | Returns (resp, w1) =>
                     Returns (Handlers.status resp, w1)
                 | Overrun => Overrun
                 end).
  { unfold Handlers.handle_command. rewrite Hp. cbn [negb Z.eqb].
    destruct (Handlers.execute_command cmd w) as [[resp w1]|];
      [|reflexivity].
    destruct (Handlers.status resp =? 0); reflexivity. }
  pose proof (execute_command_route cmd w) as Hr.
  destruct (route cmd) as [r|] eqn:Hroute.
  - rewrite Hh.
    destruct (Handlers.execute_command cmd w) as [[resp w1]|];
      now rewrite Hr.
  - split.
    + intros st out w' H. rewrite H in Hh. cbn [status_and_state] in Hh.
      destruct (Handlers.execute_command cmd w) as [[resp w1]|] eqn:He;
        [|discriminate].
      injection Hh as -> ->. split; [exact (Hr resp w1 eq_refl)|].
      intros Hn1 Hn2.
      revert Hroute Hn1 Hn2 He. unfold route, Handlers.execute_command.
      destruct (Handlers.type cmd); try discriminate; try congruence;
        match goal with
        | |- context [if ?c then _ else _] => destruct c
        end; try discriminate;
        intros _ _ _ He; now injection He as <- _.
    + intros Hn. unfold Handlers.handle_command. rewrite Hp.
      cbn [negb Z.eqb].
      assert (He : exists resp,
                 Handlers.execute_command cmd w = Returns (resp, w)).
      { revert Hroute Hn. unfold route, Handlers.execute_command.
        destruct (Handlers.type cmd); try discriminate; try congruence;
          try (match goal with
               | |- context [if ?c then _ else _] => destruct c
               end; try discriminate; eauto).
        intros _ _. destruct (Semaphore.get_semaphore_status w); eauto. }
      destruct He as [resp ->].
      destruct (Handlers.status resp =? 0); eauto.
Qed.

Lemma X24_witness :
  status_and_state
    (Handlers.handle_command (user_request "RELEASE" "bob" false)
                             alice_posted)
  = run (Release (Some "bob")) alice_posted.
Proof.
  exact (X24_dispatch_is_the_routed_call
           (user_request "RELEASE" "bob" false) _ alice_posted eq_refl).
Defined.

(** X25.  What a refused TRY_ACQUIRE tells the client.  When the permit
    is held and the command's user is well-formed, [execute_command]
    answers -3 with the text "Semaphore unavailable" and puts the actual
    holder and the value 0 into the response data while writing is
    enabled, and answers -2 with the text "Writer access disabled" and
    no data while it is disabled; in both cases the state is
    unchanged. *)
Theorem X25_refused_acquire_response :
  forall (cmd : Handlers.command_t) (a : string) (w : world),
    Handlers.type cmd = Handlers.CMD_TRY_ACQUIRE ->
    identity_ok (Handlers.user cmd) ->
    held_by a w ->
    Handlers.execute_command cmd w
    = Returns
        (if writer_enabled (g_semaphore_state w)
         then Handlers.mk_response (-3) "Semaphore unavailable"
                                   (Handlers.SemaphoreData 0 a)
         else Handlers.mk_response (-2) "Writer access disabled"
                                   Handlers.NoData,
         w).
Proof.
  intros cmd a w Ht Hu Hh.
  unfold Handlers.execute_command. rewrite Ht.
  destruct (identity_ok_checks _ Hu) as [H0 H1]. rewrite H0.
  unfold Semaphore.try_acquire_writer, Semaphore.mutex_trylock.
  rewrite H0, H1. pose proof (status_held a w Hh) as Hs.
  destruct Hh as (Hi & Hm & _). rewrite Hi, Hm. cbn [negb].
  destruct (writer_enabled (g_semaphore_state w)); cbn [negb].
  - cbn [Z.eqb Semaphore.EBUSY]. rewrite set_sem_same, Hs. reflexivity.
  - reflexivity.
Qed.

Lemma X25_witness :
  Handlers.execute_command
    (Handlers.mk_command Handlers.CMD_TRY_ACQUIRE "bob" "" 0 1 50 false)
    alice_posted
  = Returns
      (Handlers.mk_response (-3) "Semaphore unavailable"
                            (Handlers.SemaphoreData 0 "alice"),
       alice_posted).
Proof.
  refine (X25_refused_acquire_response
            (Handlers.mk_command Handlers.CMD_TRY_ACQUIRE "bob" "" 0 1 50
                                 false)
            "alice" alice_posted eq_refl _ _).
  - unfold identity_ok, MAX_USERNAME_LEN, strlen; simpl; lia.
  - split; [reflexivity|]. split; [reflexivity|]. split; [reflexivity|].
    unfold identity_ok, MAX_USERNAME_LEN, strlen; simpl; lia.
Defined.

(** ** db_simple.c: the flat-file store *)

Lemma simple_insert_log_entry_file (a u c : option string) (v : Z)
  (w : world) :
  g_messages_file (simple (snd (DbSimple.insert_log_entry a u c v w)))
  = g_messages_file (simple w)
  /\ permit (snd (DbSimple.insert_log_entry a u c v w)) = permit w.
Proof.
  unfold DbSimple.insert_log_entry.
  repeat (break_inner; cbn [snd]); split; reflexivity.
Qed.

(** X26.  The flat-file store only ever appends.  CreateMessage,
    UpdateMessage and DeleteMessage leave everything written to the
    messages file in place and write at most one record (one [fprintf])
    at its end; DeleteMessage writes none: for the holder it returns 0
    for any id, existing or not, removes nothing, and only writes a
    DELETE record with permit value 0 to the logs file when that file
    opens. *)
Theorem X26_flat_file_store_appends_only :
  forall (id : Z) (user body : string) (w : world),
    (exists l,
        g_messages_file
          (simple (snd (DbSimple.create_message (Some user) (Some body) w)))
        = (g_messages_file (simple w) ++ l)%list
        /\ (List.length l <= 1)%nat)
    /\ (exists l,
           g_messages_file
             (simple (snd (DbSimple.update_message id user body w)))
           = (g_messages_file (simple w) ++ l)%list
           /\ (List.length l <= 1)%nat)
    /\ g_messages_file (simple (snd (DbSimple.delete_message id user w)))
       = g_messages_file (simple w)
    /\ (simple_initialized (simple w) = true ->
        validate_semaphore_ownership user w = 0 ->
        fst (DbSimple.delete_message id user w) = 0
        /\ g_logs_file (simple (snd (DbSimple.delete_message id user w)))
           = if fopen_ok (simple w)
             then (g_logs_file (simple w)
                     ++ [mk_log (now w) "DELETE" (Some user)
                                (Some (snprintf 256
                                         ("Deleted message ID "
                                          ++ fmt_d id)%string)) 0])%list
             else g_logs_file (simple w)).
Proof.
  intros id user body w.
  assert (Hc : forall m,
             exists l,
               g_messages_file
                 (simple (snd (DbSimple.create_message (Some user) (Some m)
                                                       w)))
               = (g_messages_file (simple w) ++ l)%list
               /\ (List.length l <= 1)%nat).
  { intros m. unfold DbSimple.create_message.
    destruct (negb (simple_initialized (simple w)));
      [exists []; rewrite app_nil_r; split; [reflexivity|cbn; lia]|].
    destruct (_ || _);
      [exists []; rewrite app_nil_r; split; [reflexivity|cbn; lia]|].
    destruct (negb (validate_semaphore_ownership user w =? 0));
      [exists []; rewrite app_nil_r; split; [reflexivity|cbn; lia]|].
    destruct (negb (fopen_ok (simple w)));
      [exists []; rewrite app_nil_r; split; [reflexivity|cbn; lia]|].
    match goal with
    | |- context [DbSimple.insert_log_entry ?a ?u ?c ?v ?w1] =>
        destruct (simple_insert_log_entry_file a u c v w1) as [Hf _];
        destruct (DbSimple.insert_log_entry a u c v w1) as [st w2]
    end.
    cbn [snd] in *. rewrite Hf. eexists. split; [reflexivity|cbn; lia]. }
  split; [apply Hc|]. split; [|split].
  - unfold DbSimple.update_message.
    destruct (negb (simple_initialized (simple w)));
      [exists []; rewrite app_nil_r; split; [reflexivity|cbn; lia]|].
    destruct (negb (validate_semaphore_ownership user w =? 0));
      [exists []; rewrite app_nil_r; split; [reflexivity|cbn; lia]|].
    match goal with
    | |- context [DbSimple.create_message (Some user) (Some ?m) w] =>
        destruct (Hc m) as (l & Hl & Hn);
        destruct (DbSimple.create_message (Some user) (Some m) w)
          as [[st ts] w1]
    end.
    exists l. split; assumption.
  - unfold DbSimple.delete_message.
    destruct (negb (simple_initialized (simple w))); [reflexivity|].
    destruct (negb (validate_semaphore_ownership user w =? 0));
      [reflexivity|].
    match goal with
    | |- context [DbSimple.insert_log_entry ?a ?u ?c ?v ?w1] =>
        destruct (simple_insert_log_entry_file a u c v w1) as [Hf _];
        destruct (DbSimple.insert_log_entry a u c v w1) as [st w2]
    end.
    exact Hf.
  - intros Hi Hv. unfold DbSimple.delete_message, DbSimple.insert_log_entry.
    rewrite Hi, Hv. cbn [negb Z.eqb].
    destruct (fopen_ok (simple w)); cbn [negb fst snd]; split; reflexivity.
Qed.

Lemma X26_witness :
  fst (DbSimple.delete_message 42 "alice" alice_holds) = 0
  /\ g_logs_file (simple (snd (DbSimple.delete_message 42 "alice"
                                                       alice_holds)))
     = [mk_log 0 "DELETE" (Some "alice") (Some "Deleted message ID 42") 0].
Proof.
  exact (proj2 (proj2 (proj2 (X26_flat_file_store_appends_only
                                42 "alice" "" alice_holds)))
               eq_refl eq_refl).
Defined.

(** X27.  Creating a message is where the two stores agree.  With both
    stores initialised, the engine of the relational one answering and
    the file of the flat-file one opening, CreateMessage returns the
    same status and the same timestamp in both for every user and body,
    NULL, empty and over-long ones included; on success each has stored
    exactly one new message with that user, body and time. *)
Theorem X27_create_message_agrees :
  forall (u m : option string) (w : world),
    g_db_initialized (db w) = true ->
    simple_initialized (simple w) = true ->
    chat_step_ok (db w) = true ->
    fopen_ok (simple w) = true ->
    fst (Db.create_message u m w) = fst (DbSimple.create_message u m w)
    /\ (fst (fst (Db.create_message u m w)) = 0 ->
        exists user body,
          u = Some user /\ m = Some body
          /\ messages (db (snd (Db.create_message u m w)))
             = (messages (db w)
                  ++ [mk_message (messages_seq (db w) + 1) user body
                                 (now w)])%list
          /\ g_messages_file (simple (snd (DbSimple.create_message u m w)))
             = (g_messages_file (simple w) ++ [(now w, user, body)])%list).
Proof.
  intros u m w Hdb Hs Hok Hf.
  assert (Heq : fst (Db.create_message u m w)
                = fst (DbSimple.create_message u m w)
                /\ (fst (fst (Db.create_message u m w)) = 0 ->
                    exists user body,
                      u = Some user /\ m = Some body
                      /\ g_messages_file
                           (simple (snd (DbSimple.create_message u m w)))
                         = (g_messages_file (simple w)
                              ++ [(now w, user, body)])%list)).
  { unfold Db.create_message, DbSimple.create_message,
      Db.step_create_message, DbSimple.insert_log_entry.
    rewrite Hdb, Hs, Hok, Hf. cbn [negb andb].
    destruct u as [user|]; [|split; [reflexivity|discriminate]].
    destruct m as [body|]; [|split; [reflexivity|discriminate]].
    destruct (_ || _) eqn:Hlen; [split; [reflexivity|discriminate]|].
    destruct (validate_semaphore_ownership user w =? 0) eqn:Hv;
      cbn [negb];
      [|split; [reflexivity|]; cbn [fst]; intros H;
        apply Z.eqb_neq in Hv; contradiction].
    assert (Hck : Db.check_username user && Db.check_message body = true).
    { repeat (apply orb_false_iff in Hlen; destruct Hlen as [Hlen ?]).
      repeat match goal with
             | H : (_ =? _)%nat = false |- _ => apply Nat.eqb_neq in H
             | H : (_ <? _)%nat = false |- _ => apply Nat.ltb_ge in H
             end.
      apply lengths_pass_checks; lia. }
    rewrite Hck.
    cbn [negb fst snd simple set_simple simple_initialized fopen_ok
         DbSimple.set_messages_file DbSimple.set_logs_file
         g_messages_file g_logs_file].
    rewrite Hs, Hf.
    cbn [negb fst snd simple set_simple simple_initialized fopen_ok
         DbSimple.set_messages_file DbSimple.set_logs_file
         g_messages_file g_logs_file].
    split; [reflexivity|]. intros _. exists user, body.
    split; [reflexivity|]. split; reflexivity. }
  destruct Heq as [Heq Hfile]. split; [exact Heq|].
  intros H0.
  destruct (Hfile H0) as (user & body & -> & -> & Hg).
  destruct (Db.create_message (Some user) (Some body) w)
    as [[st ts] w'] eqn:Hc.
  cbn [fst snd] in *. subst st.
  destruct (create_message_success _ _ _ _ _ Hc)
    as (user' & body' & Hu & Hm & _ & _ & _ & _ & _ & Hch & _).
  injection Hu as <-. injection Hm as <-.
  unfold chat in Hch. injection Hch as Hch _.
  exists user, body. repeat split; assumption.
Qed.

Lemma X27_witness :
  fst (Db.create_message (Some "alice") (Some "hi") alice_holds)
  = fst (DbSimple.create_message (Some "alice") (Some "hi") alice_holds).
Proof.
  exact (proj1 (X27_create_message_agrees (Some "alice") (Some "hi")
                  alice_holds eq_refl eq_refl eq_refl eq_refl)).
Defined.

(** ** main.c: the HTTP front end *)

Lemma strchr_length (s : string) (c : ascii) (e : string) :
  Main.strchr s c = Some e -> (strlen e <= strlen s)%nat.
Proof.
  revert e. induction s as [|x s IH]; intros e H; simpl in H;
    [discriminate|].
  destruct (Ascii.eqb x c).
  - injection H as <-. apply Nat.le_refl.
  - specialize (IH e H). unfold strlen in *. simpl. lia.
Qed.

Lemma strchr_before_match (s : string) (c : ascii) (e : string) (n : nat) :
  Main.strchr s c = Some e ->
  (n <= strlen s - strlen e)%nat ->
  Main.strchr (strncpy s n) c = None.
Proof.
  unfold strncpy. revert e n.
  induction s as [|x s IH]; intros e n H Hn; simpl in H; [discriminate|].
  destruct n as [|m]; [reflexivity|].
  destruct (Ascii.eqb x c) eqn:Hx.
  - injection H as <-. rewrite Nat.sub_diag in Hn. inversion Hn.
  - pose proof (strchr_length s c e H) as Hl.
    cbn [substring Main.strchr]. rewrite Hx.
    apply (IH e m H).
    change (strlen (String x s)) with (S (strlen s)) in Hn. lia.
Qed.

Lemma strchr_app (name : string) (c : ascii) (rest : string) :
  Main.strchr name c = None ->
  Main.strchr (name ++ String c rest) c = Some (String c rest).
Proof.
  induction name as [|x s IH]; intros H; simpl in *.
  - now rewrite Ascii.eqb_refl.
  - destruct (Ascii.eqb x c); [discriminate|]. exact (IH H).
Qed.

Lemma strlen_app (a b : string) :
  strlen (a ++ b) = (strlen a + strlen b)%nat.
Proof.
  unfold strlen. induction a as [|x a IH]; simpl; [reflexivity|].
  now rewrite IH.
Qed.

Lemma strncpy_app (a b : string) (n : nat) :
  (n <= strlen a)%nat -> strncpy (a ++ b) n = strncpy a n.
Proof.
  unfold strncpy, strlen. revert n.
  induction a as [|x a IH]; intros [|n] H; simpl in *; try reflexivity;
    try lia.
  - destruct b; reflexivity.
  - rewrite IH by lia. reflexivity.
Qed.

Lemma skip_blanks_app (gap rest : string) :
  blanks gap -> Main.skip_blanks (gap ++ rest) = Main.skip_blanks rest.
Proof.
  unfold blanks. induction gap as [|x g IH]; intros H; [reflexivity|].
  cbn [append Main.skip_blanks] in *.
  destruct (Ascii.eqb x " " || Ascii.eqb x Main.tab);
    [exact (IH H)|discriminate].
Qed.

Lemma strstr_username_key (tail : string) :
  Main.strstr ("{" ++ Main.quoted "username" ++ ":" ++ tail)
              (Main.quoted "username" ++ ":")
  = Some (Main.quoted "username" ++ ":" ++ tail).
Proof. destruct tail; reflexivity. Qed.

Lemma extract_username_written (gap name rest : string) (size : nat) :
  blanks gap ->
  Main.strchr name Main.dquote = None ->
  Main.extract_username_from_json
    ("{" ++ Main.quoted "username" ++ ":" ++ gap ++ Main.quoted name ++ rest)
    size
  = Some (if (size <=? strlen name)%nat then strncpy name (size - 1)
          else name).
Proof.
  intros Hg Hn. unfold Main.extract_username_from_json.
  rewrite strstr_username_key.
  change (Main.strchr
            (Main.quoted "username" ++ ":" ++ gap ++ Main.quoted name
                         ++ rest) ":")
    with (Some (":" ++ gap ++ Main.quoted name ++ rest)).
  cbv beta iota.
  change (Main.advance 1 (":" ++ gap ++ Main.quoted name ++ rest))
    with (gap ++ Main.quoted name ++ rest).
  rewrite (skip_blanks_app gap _ Hg).
  change (Main.skip_blanks (Main.quoted name ++ rest))
    with (String Main.dquote ((name ++ String Main.dquote "") ++ rest)).
  cbv beta iota. rewrite Ascii.eqb_refl. cbn [negb].
  replace ((name ++ String Main.dquote "") ++ rest)
    with (name ++ String Main.dquote rest)
    by (clear; induction name as [|x s IH]; simpl;
        [reflexivity|now rewrite IH]).
  rewrite (strchr_app name Main.dquote rest Hn).
  cbv beta iota zeta. rewrite strlen_app.
  replace (strlen name + strlen (String Main.dquote rest)
           - strlen (String Main.dquote rest))%nat
    with (strlen name) by lia.
  f_equal. destruct (size <=? strlen name)%nat eqn:Hs.
  - apply Nat.leb_le in Hs. apply strncpy_app. lia.
  - rewrite strncpy_app by lia. apply strncpy_short. lia.
Qed.

(** X28.  The user name of a request body.  Whatever the body, a name
    [extract_username_from_json] writes is shorter than the buffer it is
    given and holds no quote.  From a JSON object whose first key is
    username, followed by any blanks and a quoted name without a quote
    in it, the name comes back as written when it fits the buffer, and
    cut to the buffer size less one when it does not. *)
Theorem X28_extract_username :
  forall size : nat,
    (1 <= size)%nat ->
    (forall body name : string,
        Main.extract_username_from_json body size = Some name ->
        (strlen name < size)%nat
        /\ Main.strchr name Main.dquote = None)
    /\ (forall gap name rest : string,
           blanks gap ->
           Main.strchr name Main.dquote = None ->
           Main.extract_username_from_json
             ("{" ++ Main.quoted "username" ++ ":" ++ gap
                  ++ Main.quoted name ++ rest) size
           = Some (if (size <=? strlen name)%nat
                   then strncpy name (size - 1) else name)).
Proof.
  intros size Hsize. split.
  - intros body name. unfold Main.extract_username_from_json.
    destruct (Main.strstr body _) as [at_key|]; [|discriminate].
    destruct (Main.strchr at_key ":") as [at_colon|]; [|discriminate].
    destruct (Main.skip_blanks _) as [|x start]; [discriminate|].
    destruct (negb (Ascii.eqb x Main.dquote)); [discriminate|].
    destruct (Main.strchr start Main.dquote) as [e|] eqn:He;
      [|discriminate].
    intros H. injection H as <-. split.
    + pose proof (strlen_strncpy start
                    (if (size <=? strlen start - strlen e)%nat
                     then (size - 1)%nat
                     else (strlen start - strlen e)%nat)) as Hl.
      destruct (size <=? strlen start - strlen e)%nat eqn:Hs;
        [|apply Nat.leb_gt in Hs]; lia.
    + apply (strchr_before_match start Main.dquote e _ He).
      destruct (size <=? strlen start - strlen e)%nat eqn:Hs;
        [apply Nat.leb_le in Hs|]; lia.
  - intros gap name rest. apply extract_username_written.
Qed.

Lemma X28_witness :
  Main.extract_username_from_json
    ("{" ++ Main.quoted "username" ++ ": " ++ Main.quoted "alice" ++ "}") 64
  = Some "alice".
Proof.
  exact (proj2 (X28_extract_username 64 ltac:(lia)) " " "alice" "}"
               eq_refl eq_refl).
Defined.

Lemma arbiter_only_refl (w : world) : arbiter_only w w.
Proof. unfold arbiter_only. repeat (split; [reflexivity|]). auto. Qed.

Lemma try_acquire_arbiter_only (u : option string) (w : world) :
  arbiter_only w (snd (Semaphore.try_acquire_writer u w)).
Proof.
  destruct (try_acquire_writer_cases u w)
    as [(a & -> & Ha & Hi & Hm & He & ->)|(c & _ & ->)];
    [|apply arbiter_only_refl].
  unfold arbiter_only; cbn [snd set_sem db logger simple now g_initialized
                                g_semaphore_state writer_enabled].
  repeat (split; [auto; fail|]).
  intros _. right. exists a.
  split; [exact Hi|split; [reflexivity|split; [reflexivity|exact Ha]]].
Qed.

Lemma release_arbiter_only (u : option string) (w : world) :
  arbiter_only w (snd (Semaphore.release_writer u w)).
Proof.
  destruct (release_writer_cases u w)
    as [(a & -> & Ha & Hi & Hh & ->)|(c & _ & ->)];
    [|apply arbiter_only_refl].
  unfold arbiter_only; cbn [snd set_sem db logger simple now g_initialized
                                g_semaphore_state writer_enabled].
  repeat (split; [auto; fail|]).
  intros _. left.
  split; [exact Hi|split; reflexivity].
Qed.

(** X29.  The HTTP front end reaches the arbiter only.  Whatever bytes
    arrive, [handle_http_request] leaves the message store, the audit
    trail, the log file, the flat-file store and the writing switch as
    they were, keeps the permit either free or held by one well-formed
    identity, and sends exactly one reply unless [recv] delivered
    nothing, in which case it sends none and changes nothing. *)
Theorem X29_http_front_end_reaches_arbiter_only :
  forall (received : option string) (stack_holder : string) (w : world),
    arbiter_only w
      (snd (Main.handle_http_request received stack_holder w))
    /\ (fst (Main.handle_http_request received stack_holder w) = None
        <-> received = None)
    /\ (received = None ->
        snd (Main.handle_http_request received stack_holder w) = w).
Proof.
  intros received sh w. unfold Main.handle_http_request.
  destruct received as [buffer|];
    [|split; [apply arbiter_only_refl|split; [tauto|reflexivity]]].
  assert (Hno : forall r : option string * world,
             fst r <> None ->
             (fst r = None <-> Some buffer = None)
             /\ (Some buffer = None -> snd r = w)).
  { intros r Hr. split; [split; [contradiction|discriminate]|discriminate]. }
  destruct (Main.sscanf_method_path buffer) as [[method path]|];
    [|split; [apply arbiter_only_refl|apply Hno; discriminate]].
  destruct (strcmp_eq method "OPTIONS");
    [split; [apply arbiter_only_refl|apply Hno; discriminate]|].
  destruct (strcmp_eq path "/api/semaphore/acquire"
            && strcmp_eq method "POST").
  { destruct (Main.body_username _) as [username|];
      [|split; [apply arbiter_only_refl|apply Hno; discriminate]].
    pose proof (try_acquire_arbiter_only (Some username) w) as Hf.
    destruct (Semaphore.try_acquire_writer (Some username) w) as [r w1].
    cbn [snd] in Hf.
    destruct (r =? 0); [split; [exact Hf|apply Hno; discriminate]|].
    destruct (r =? -3); split; try exact Hf; apply Hno; discriminate. }
  destruct (strcmp_eq path "/api/semaphore/release"
            && strcmp_eq method "POST").
  { destruct (Main.body_username _) as [username|];
      [|split; [apply arbiter_only_refl|apply Hno; discriminate]].
    pose proof (release_arbiter_only (Some username) w) as Hf.
    destruct (Semaphore.release_writer (Some username) w) as [r w1].
    cbn [snd] in Hf.
    destruct (r =? 0); [split; [exact Hf|apply Hno; discriminate]|].
    destruct (r =? -2); split; try exact Hf; apply Hno; discriminate. }
  destruct (strcmp_eq path "/api/semaphore/status"
            && strcmp_eq method "GET").
  { destruct (Semaphore.get_semaphore_status w);
      split; try apply arbiter_only_refl; apply Hno; discriminate. }
  split; [apply arbiter_only_refl|apply Hno; discriminate].
Qed.

Lemma X29_witness :
  permit_ok
    (snd (Main.handle_http_request (Some (acquire_request "bob")) ""
                                   alice_holds)).
Proof.
  refine (proj2 (proj2 (proj2 (proj2 (proj2 (proj2 (proj1
            (X29_http_front_end_reaches_arbiter_only
               (Some (acquire_request "bob")) "" alice_holds))))))) _).
  right. exists "alice". unfold held_by, identity_ok, MAX_USERNAME_LEN.
  cbn. repeat split; lia.
Defined.

Lemma posted_username (u : string) :
  identity_ok u ->
  Main.strchr u Main.dquote = None ->
  Main.extract_username_from_json
    ("{" ++ Main.quoted "username" ++ ":" ++ Main.quoted u ++ "}") 64
  = Some u.
Proof.
  intros Hu Hq.
  pose proof (extract_username_written "" u "}" 64 eq_refl Hq) as H.
  transitivity (Some (if (64 <=? strlen u)%nat then strncpy u (64 - 1)
                      else u)); [exact H|].
  destruct (64 <=? strlen u)%nat eqn:Hl; [|reflexivity].
  apply Nat.leb_le in Hl. unfold identity_ok, MAX_USERNAME_LEN in Hu. lia.
Qed.

Lemma handle_acquire_request (u stack_holder : string) (w : world) :
  identity_ok u ->
  Main.strchr u Main.dquote = None ->
  Main.handle_http_request (Some (acquire_request u)) stack_holder w
  = let (result, w1) := Semaphore.try_acquire_writer (Some u) w in
    if result =? 0 then
      (Some (Main.send_http_response "200 OK"
               (Main.holder_text "success" "Semaphore acquired" u)), w1)
    else if result =? -3 then
      (Some (Main.send_http_response "409 Conflict"
               (Main.holder_text "error" "Semaphore unavailable"
                  match Semaphore.get_semaphore_status w1 with
                  | Semaphore.StatusOk holder _ => holder
                  | Semaphore.StatusError _ => stack_holder
                  end)), w1)
    else
      (Some (Main.send_http_response "500 Internal Server Error"
               (Main.status_text "error" "Failed to acquire semaphore")),
       w1).
Proof.
  intros Hu Hq. unfold Main.handle_http_request.
  change (Main.sscanf_method_path (acquire_request u))
    with (Some ("POST", "/api/semaphore/acquire")).
  cbv beta iota.
  change (strcmp_eq "POST" "OPTIONS") with false.
  change (strcmp_eq "/api/semaphore/acquire" "/api/semaphore/acquire"
          && strcmp_eq "POST" "POST") with true.
  cbv beta iota.
  change (Main.strstr (acquire_request u) (Main.CRLF ++ Main.CRLF))
    with (Some (Main.CRLF ++ Main.CRLF ++ "{" ++ Main.quoted "username"
                          ++ ":" ++ Main.quoted u ++ "}")).
  cbv beta iota.
  change (Main.advance 4 (Main.CRLF ++ Main.CRLF ++ "{"
                            ++ Main.quoted "username" ++ ":"
                            ++ Main.quoted u ++ "}"))
    with ("{" ++ Main.quoted "username" ++ ":" ++ Main.quoted u ++ "}").
  unfold Main.body_username. rewrite (posted_username u Hu Hq).
  reflexivity.
Qed.

Lemma handle_release_request (u stack_holder : string) (w : world) :
  identity_ok u ->
  Main.strchr u Main.dquote = None ->
  Main.handle_http_request (Some (release_request u)) stack_holder w
  = let (result, w1) := Semaphore.release_writer (Some u) w in
    if result =? 0 then
      (Some (Main.send_http_response "200 OK"
               (Main.status_text "success" "Semaphore released")), w1)
    else if result =? -2 then
      (Some (Main.send_http_response "403 Forbidden"
               (Main.status_text "error"
                  "Permission denied - not semaphore holder")), w1)
    else
      (Some (Main.send_http_response "500 Internal Server Error"
               (Main.status_text "error" "Cannot release semaphore")), w1).
Proof.
  intros Hu Hq. unfold Main.handle_http_request.
  change (Main.sscanf_method_path (release_request u))
    with (Some ("POST", "/api/semaphore/release")).
  cbv beta iota.
  change (strcmp_eq "POST" "OPTIONS") with false.
  change (strcmp_eq "/api/semaphore/release" "/api/semaphore/acquire"
          && strcmp_eq "POST" "POST") with false.
  change (strcmp_eq "/api/semaphore/release" "/api/semaphore/release"
          && strcmp_eq "POST" "POST") with true.
  cbv beta iota.
  change (Main.strstr (release_request u) (Main.CRLF ++ Main.CRLF))
    with (Some (Main.CRLF ++ Main.CRLF ++ "{" ++ Main.quoted "username"
                          ++ ":" ++ Main.quoted u ++ "}")).
  cbv beta iota.
  change (Main.advance 4 (Main.CRLF ++ Main.CRLF ++ "{"
                            ++ Main.quoted "username" ++ ":"
                            ++ Main.quoted u ++ "}"))
    with ("{" ++ Main.quoted "username" ++ ":" ++ Main.quoted u ++ "}").
  unfold Main.body_username. rewrite (posted_username u Hu Hq).
  reflexivity.
Qed.

(** X30.  Acquire and release over HTTP.  On an initialised arbiter, for
    a well-formed user name without a quote in it, posted in the JSON
    body: the acquire route
    answers 200 and makes the user the holder when the permit is free
    and writing is enabled; it answers 409 with the name of the current
    holder when the permit is held, also when the holder is the user
    again; and it answers 500, not 403, while writing is disabled.  The
    release route answers 200 and frees the permit for the holder, and
    403 for anyone else.  Every refusal leaves the state unchanged. *)
Theorem X30_http_acquire_and_release :
  forall (u h stack_holder : string) (w : world),
    identity_ok u ->
    Main.strchr u Main.dquote = None ->
    g_initialized w = true ->
    (permit_free w ->
     writer_enabled (g_semaphore_state w) = true ->
     exists w',
       Main.handle_http_request (Some (acquire_request u)) stack_holder w
       = (Some (Main.send_http_response "200 OK"
                  (Main.holder_text "success" "Semaphore acquired" u)), w')
       /\ held_by u w')
    /\ (held_by h w ->
        writer_enabled (g_semaphore_state w) = true ->
        Main.handle_http_request (Some (acquire_request u)) stack_holder w
        = (Some (Main.send_http_response "409 Conflict"
                   (Main.holder_text "error" "Semaphore unavailable" h)),
           w))
    /\ (writer_enabled (g_semaphore_state w) = false ->
        Main.handle_http_request (Some (acquire_request u)) stack_holder w
        = (Some (Main.send_http_response "500 Internal Server Error"
                   (Main.status_text "error"
                      "Failed to acquire semaphore")), w))
    /\ (held_by u w ->
        exists w',
          Main.handle_http_request (Some (release_request u)) stack_holder w
          = (Some (Main.send_http_response "200 OK"
                     (Main.status_text "success" "Semaphore released")),
             w')
          /\ permit_free w')
    /\ (current_holder (g_semaphore_state w) <> u ->
        Main.handle_http_request (Some (release_request u)) stack_holder w
        = (Some (Main.send_http_response "403 Forbidden"
                   (Main.status_text "error"
                      "Permission denied - not semaphore holder")), w)).
Proof.
  intros u h sh w Hu Hq Hi.
  destruct (identity_ok_checks u Hu) as [H0 H1].
  split; [|split; [|split; [|split]]].
  - intros (_ & Hm & _) He.
    rewrite (handle_acquire_request u sh w Hu Hq).
    rewrite (acquire_free_enabled u w Hi Hu Hm He).
    eexists. split; [reflexivity|].
    split; [exact Hi|split; [reflexivity|split; [reflexivity|exact Hu]]].
  - intros Hh He.
    rewrite (handle_acquire_request u sh w Hu Hq).
    pose proof Hh as (_ & Hm & _ & _).
    unfold Semaphore.try_acquire_writer, Semaphore.mutex_trylock.
    rewrite Hi, H0, H1, He, Hm. cbn [negb Z.eqb Semaphore.EBUSY].
    rewrite set_sem_same. cbv beta iota.
    change (-3 =? 0) with false. change (-3 =? -3) with true.
    cbv beta iota. rewrite (status_held h w Hh). reflexivity.
  - intros He.
    rewrite (handle_acquire_request u sh w Hu Hq).
    unfold Semaphore.try_acquire_writer.
    rewrite Hi, H0, H1, He. reflexivity.
  - intros (_ & Hm & Hh & _).
    rewrite (handle_release_request u sh w Hu Hq).
    unfold Semaphore.release_writer, strcmp_eq.
    rewrite Hi, H0, Hh, String.eqb_refl. cbn [negb].
    eexists. split; [reflexivity|].
    split; [exact Hi|split; reflexivity].
  - intros Hh.
    rewrite (handle_release_request u sh w Hu Hq).
    unfold Semaphore.release_writer, strcmp_eq.
    apply String.eqb_neq in Hh.
    rewrite Hi, H0, Hh. reflexivity.
Qed.

Lemma X30_witness :
  Main.handle_http_request (Some (acquire_request "bob")) "" alice_holds
  = (Some (Main.send_http_response "409 Conflict"
             (Main.holder_text "error" "Semaphore unavailable" "alice")),
     alice_holds).
Proof.
  refine (proj1 (proj2 (X30_http_acquire_and_release
                          "bob" "alice" "" alice_holds _ eq_refl eq_refl))
                _ eq_refl).
  - unfold identity_ok, MAX_USERNAME_LEN, strlen; simpl; lia.
  - unfold held_by, identity_ok, MAX_USERNAME_LEN, strlen.
    simpl. repeat split; lia.
Defined.
